(** * Regulatory-Compliance-Checker: session, aggregation and notification core

    A shallow embedding of [auth_manager.py], [email_notifier.py] and the
    orchestration code of [app.py], with the properties of the specification
    stated and proved over it.

    Conventions of the embedding.
    - [st.session_state] is a finite map from keys to Python values
      ([gmap string pyval]); [.get(k, d)] is a lookup with a default.
    - [os.environ] is a finite map from names to strings.
    - Python [str] values are byte strings in UTF-8.  The separators the code
      looks for (['%'], [','], ['@']) are ASCII, and no byte of a multi-byte
      UTF-8 sequence is ASCII, so splitting, replacing and searching on bytes
      agree with Python's on characters.  White space and decimal digits are
      tested on characters: [strip] and [float] decode the bytes.
    - Python [float] is IEEE 754 binary64: Rocq's primitive [float].
    - What depends on the version of CPython (the decimal digits of its
      Unicode database, the algorithm of [sum]) is a parameter, [Interpreter].
    - The clock, the analyzer and the SMTP transport are inputs of each
      script run; every transport invocation is recorded as an event. *)

From Stdlib Require Import ZArith List String Ascii Bool Lia Floats DecimalString
  DecimalNat QArith.
From stdpp Require Import gmap strings.

Open Scope string_scope.
Open Scope list_scope.

(** ** Python strings *)

Module PyStr.

(** [not s] for a string: the empty string is the only falsy one. *)
Definition truthy (s : string) : bool :=
  match s with EmptyString => false | String _ _ => true end.

(** *** Characters

    A [str] is held as the bytes of its UTF-8 encoding, and a character is
    read off the front of a string as one to four bytes.  The sequences that
    encode no character (a continuation byte out of place, an overlong form,
    a value above U+10FFFF) are never white space and never digits. *)

Definition byte (c : ascii) : N := N_of_ascii c.

Definition continuation (c : ascii) : bool := ((128 <=? byte c) && (byte c <? 192))%N.

(** The character encoded by one byte, by two, by three and by four. *)
Definition char1 (c : ascii) : option N :=
  if (byte c <? 128)%N then Some (byte c) else None.

Definition char2 (c d : ascii) : option N :=
  let cp := ((byte c - 192) * 64 + (byte d - 128))%N in
  if ((192 <=? byte c) && (byte c <? 224))%N && continuation d && (128 <=? cp)%N
  then Some cp else None.

Definition char3 (c d e : ascii) : option N :=
  let cp := ((byte c - 224) * 4096 + (byte d - 128) * 64 + (byte e - 128))%N in
  if ((224 <=? byte c) && (byte c <? 240))%N && continuation d && continuation e
     && (2048 <=? cp)%N
  then Some cp else None.

Definition char4 (c d e f : ascii) : option N :=
  let cp := ((byte c - 240) * 262144 + (byte d - 128) * 4096
             + (byte e - 128) * 64 + (byte f - 128))%N in
  if ((240 <=? byte c) && (byte c <? 248))%N && continuation d && continuation e
     && continuation f && (65536 <=? cp)%N && (cp <=? 1114111)%N
  then Some cp else None.

(** [Py_UNICODE_ISSPACE], the test of [str.isspace] and [str.strip]: the
    characters of bidirectional type WS, B or S and of category Zs.  These
    are U+0009-000D, U+001C-0020, U+0085, U+00A0, U+1680, U+2000-200A,
    U+2028, U+2029, U+202F, U+205F and U+3000. *)
Definition isspace (cp : N) : bool :=
  ((9 <=? cp) && (cp <=? 13) || (28 <=? cp) && (cp <=? 32)
   || (cp =? 133) || (cp =? 160) || (cp =? 5760)
   || (8192 <=? cp) && (cp <=? 8202)
   || (cp =? 8232) || (cp =? 8233) || (cp =? 8239) || (cp =? 8287)
   || (cp =? 12288))%N.

Definition space (ch : option N) : bool :=
  match ch with Some cp => isspace cp | None => false end.

(** [s.lstrip()]: the white-space characters at the front are dropped; they
    take one, two or three bytes each. *)
Fixpoint lstrip (s : string) : string :=
  match s with
  | EmptyString => EmptyString
  | String c s1 =>
      if space (char1 c) then lstrip s1
      else
        match s1 with
        | EmptyString => s
        | String d s2 =>
            if space (char2 c d) then lstrip s2
            else
              match s2 with
              | EmptyString => s
              | String e s3 => if space (char3 c d e) then lstrip s3 else s
              end
        end
  end.

(** [s] is one white-space character. *)
Definition space_char (s : string) : bool :=
  match s with
  | String c EmptyString => space (char1 c)
  | String c (String d EmptyString) => space (char2 c d)
  | String c (String d (String e EmptyString)) => space (char3 c d e)
  | _ => false
  end.

(** [s.rstrip()], from the right: what is left of the tail, with the byte in
    front of it, is dropped when it is one white-space character. *)
Fixpoint rstrip (s : string) : string :=
  match s with
  | EmptyString => EmptyString
  | String c s' =>
      let r := String c (rstrip s') in
      if space_char r then EmptyString else r
  end.

(** [s.strip()] *)
Definition strip (s : string) : string := lstrip (rstrip s).

(** [s.replace(old, new)] for a one-character [old]. *)
Fixpoint replace (old : ascii) (new : string) (s : string) : string :=
  match s with
  | EmptyString => EmptyString
  | String c s' =>
      if Ascii.eqb c old then new +:+ replace old new s'
      else String c (replace old new s')
  end.

(** [s.split(sep)] for a one-character [sep]: never empty, one field more
    than there are separators. *)
Fixpoint split (sep : ascii) (s : string) : list string :=
  match s with
  | EmptyString => [EmptyString]
  | String c s' =>
      if Ascii.eqb c sep then EmptyString :: split sep s'
      else match split sep s' with
           | [] => [String c EmptyString]
           | f :: fs => String c f :: fs
           end
  end.

(** [c in s] for a one-character [c]. *)
Fixpoint contains (c : ascii) (s : string) : bool :=
  match s with
  | EmptyString => false
  | String d s' => Ascii.eqb d c || contains c s'
  end.

(** [str(n)] for a non-negative [int]. *)
Definition of_nat (n : nat) : string := NilZero.string_of_uint (Nat.to_uint n).

(** [needle in s] for strings.  On UTF-8 bytes this is Python's test on
    code points: an encoded character never starts inside another one. *)
Fixpoint isin (needle s : string) : bool :=
  String.prefix needle s ||
  match s with
  | EmptyString => false
  | String _ s' => isin needle s'
  end.

(** [s.lower()] on the ASCII letters.  Of the characters outside ASCII,
    Python's [lower] turns two into text with an ASCII letter: U+0130 into
    ["i"] followed by U+0307, and U+212A into ["k"].  The one use below looks
    for ["liability"], which has no ["k"] and no ["i"] followed by U+0307, so
    the test gives what Python's gives. *)
Fixpoint lower (s : string) : string :=
  match s with
  | EmptyString => EmptyString
  | String c s' =>
      let n := nat_of_ascii c in
      String (if ((65 <=? n) && (n <=? 90))%nat then ascii_of_nat (n + 32) else c)
             (lower s')
  end.

(** The double quote, for text that contains it. *)
Definition dq : string := String (ascii_of_nat 34) EmptyString.

End PyStr.

(** ** The interpreter

    Two things the code does depend on the version of CPython that runs it:
    which characters [float] reads as decimal digits (the Unicode database of
    the interpreter) and how [sum] adds floats (compensated from 3.12 on). *)
Record Interpreter := {
  (** the digit zero of every run of ten decimal digits outside ASCII *)
  decimal_zeros : list N;
  (** [sum] carries a compensation term (CPython 3.12 and later) *)
  compensated_sum : bool
}.

(** CPython 3.11: Unicode 14.0, plain summation. *)
Definition cpython_3_11 : Interpreter :=
  {| decimal_zeros :=
       [1632; 1776; 1984; 2406; 2534; 2662; 2790; 2918; 3046; 3174; 3302; 3430;
        3558; 3664; 3792; 3872; 4160; 4240; 6112; 6160; 6470; 6608; 6784; 6800;
        6992; 7088; 7232; 7248; 42528; 43216; 43264; 43472; 43504; 43600; 44016;
        65296; 66720; 68912; 69734; 69872; 69942; 70096; 70384; 70736; 70864;
        71248; 71360; 71472; 71904; 72016; 72784; 73040; 73120; 92768; 92864;
        93008; 120782; 120792; 120802; 120812; 120822; 123200; 123632; 125264;
        130032]%N;
     compensated_sum := false |}.

(** CPython 3.12: Unicode 15.0, which adds the Kawi and the Nag Mundari
    digits; compensated summation. *)
Definition cpython_3_12 : Interpreter :=
  {| decimal_zeros := decimal_zeros cpython_3_11 ++ [73552; 124144]%N;
     compensated_sum := true |}.

(** ** Python numbers

    [float] is binary64.  Conversions from exact integers and decimals round
    to nearest, ties to even, through [SpecFloat]'s rounding; the arithmetic
    itself is the kernel's. *)

Module PyFloat.

Definition isdigit (c : ascii) : bool :=
  let n := nat_of_ascii c in ((48 <=? n) && (n <=? 57))%nat.

Definition digit_val (c : ascii) : Z := Z.of_nat (nat_of_ascii c) - 48.

Definition lower (c : ascii) : ascii :=
  let n := nat_of_ascii c in
  if ((65 <=? n) && (n <=? 90))%nat then ascii_of_nat (n + 32) else c.

Fixpoint lower_str (s : string) : string :=
  match s with
  | EmptyString => EmptyString
  | String c s' => String (lower c) (lower_str s')
  end.

(** The float nearest to [n * 10 ^ e10] for an integer [n >= 0], with sign
    [neg]. *)
Definition of_decimal (neg : bool) (n : Z) (e10 : Z) : float :=
  match n with
  | Zpos p =>
      SF2Prim
        (if (0 <=? e10)%Z
         then binary_round prec emax neg (Z.to_pos (Zpos p * 10 ^ e10)) 0
         else SFdiv prec emax (S754_finite neg p 0)
                (S754_finite false (Z.to_pos (10 ^ (- e10))) 0))
  | _ => if neg then neg_zero else zero
  end.

(** [float(n)] for an [int]. *)
Definition of_Z (n : Z) : float := of_decimal (n <? 0)%Z (Z.abs n) 0.

(** [a / b] on two [int]s: the correctly rounded quotient.  Python raises
    [ZeroDivisionError] for [b = 0]; every call site guards against it. *)
Definition int_truediv (a b : Z) : float :=
  match a, b with
  | _, Z0 => nan
  | Z0, Zneg _ => neg_zero
  | Z0, Zpos _ => zero
  | _, _ =>
      SF2Prim (SFdiv prec emax
                 (S754_finite (a <? 0)%Z (Z.to_pos (Z.abs a)) 0)
                 (S754_finite (b <? 0)%Z (Z.to_pos (Z.abs b)) 0))
  end.

(** *** [float(str)]

    For a string that is not all ASCII, CPython first rewrites it
    ([_PyUnicode_TransformDecimalAndSpaceToASCII]): a white-space character
    becomes a space, a decimal digit its ASCII digit, and at any other
    character outside ASCII (and at DEL) the text ends in ["?"].  It then
    checks that every underscore stands between two digits and drops them,
    strips the white space of C ([Py_ISSPACE]: TAB, LF, VT, FF, CR, space),
    and reads an optional sign followed by [inf], [infinity], [nan] (in any
    case) or a decimal literal [digits [. digits] [e [sign] digits]];
    anything left over is a [ValueError] ([None]). *)

(** [Py_UNICODE_TODECIMAL] outside ASCII. *)
Definition decimal (py : Interpreter) (cp : N) : option N :=
  option_map (fun z => (cp - z)%N)
    (List.find (fun z => ((z <=? cp) && (cp <? z + 10))%N) (decimal_zeros py)).

(** What the rewriting puts for a character outside ASCII, if anything. *)
Definition to_ascii (py : Interpreter) (ch : option N) : option ascii :=
  match ch with
  | Some cp =>
      if PyStr.isspace cp then Some " "%char
      else option_map (fun d => ascii_of_N (48 + d)) (decimal py cp)
  | None => None
  end.

Definition put (a : option ascii) (rest : string) : string :=
  match a with Some a => String a rest | None => "?" end.

Fixpoint transform (py : Interpreter) (s : string) : string :=
  match s with
  | EmptyString => EmptyString
  | String c s1 =>
      if (PyStr.byte c <? 127)%N then String c (transform py s1)
      else
        match s1 with
        | EmptyString => "?"
        | String d s2 =>
            match PyStr.char2 c d with
            | Some cp => put (to_ascii py (Some cp)) (transform py s2)
            | None =>
                match s2 with
                | EmptyString => "?"
                | String e s3 =>
                    match PyStr.char3 c d e with
                    | Some cp => put (to_ascii py (Some cp)) (transform py s3)
                    | None =>
                        match s3 with
                        | EmptyString => "?"
                        | String f s4 =>
                            put (to_ascii py (PyStr.char4 c d e f)) (transform py s4)
                        end
                    end
                end
            end
        end
  end.

Fixpoint is_ascii (s : string) : bool :=
  match s with
  | EmptyString => true
  | String c s' => (PyStr.byte c <? 128)%N && is_ascii s'
  end.

Definition isspace (c : ascii) : bool :=
  let n := nat_of_ascii c in ((9 <=? n) && (n <=? 13) || (n =? 32))%nat.

Fixpoint lstrip (s : string) : string :=
  match s with
  | EmptyString => EmptyString
  | String c s' => if isspace c then lstrip s' else s
  end.

Fixpoint rstrip (s : string) : string :=
  match s with
  | EmptyString => EmptyString
  | String c s' =>
      match rstrip s' with
      | EmptyString => if isspace c then EmptyString else String c EmptyString
      | r => String c r
      end
  end.

Fixpoint drop_underscores (prev : ascii) (s : string) : option string :=
  match s with
  | EmptyString => if Ascii.eqb prev "_" then None else Some EmptyString
  | String c s' =>
      if Ascii.eqb c "_"
      then if isdigit prev then drop_underscores c s' else None
      else if Ascii.eqb prev "_" && negb (isdigit c) then None
           else option_map (String c) (drop_underscores c s')
  end.

(** Leading digits of [s]: their value on top of [acc], how many there
    were, and what follows. *)
Fixpoint digits (acc : Z) (n : nat) (s : string) : Z * nat * string :=
  match s with
  | String c s' =>
      if isdigit c then digits (10 * acc + digit_val c) (S n) s'
      else (acc, n, s)
  | EmptyString => (acc, n, s)
  end.

Definition exponent (s : string) : option Z :=
  let '(neg, body) :=
    match s with
    | String "-" r => (true, r)
    | String "+" r => (false, r)
    | _ => (false, s)
    end in
  match digits 0 0 body with
  | (_, O, _) => None
  | (v, _, EmptyString) => Some (if neg then - v else v)%Z
  | _ => None
  end.

(** An unsigned decimal literal as [(n, e10)], standing for [n * 10 ^ e10]. *)
Definition literal (s : string) : option (Z * Z) :=
  let '(i, ni, r1) := digits 0 0 s in
  let '(m, nf, r2) :=
    match r1 with
    | String "." r => digits i 0 r
    | _ => (i, O, r1)
    end in
  match (ni + nf)%nat with
  | O => None
  | _ =>
      match r2 with
      | EmptyString => Some (m, - Z.of_nat nf)%Z
      | String c r3 =>
          if Ascii.eqb (lower c) "e"
          then option_map (fun e => (m, e - Z.of_nat nf)%Z) (exponent r3)
          else None
      end
  end.

Definition of_string (py : Interpreter) (s : string) : option float :=
  let s0 := if is_ascii s then s else transform py s in
  match drop_underscores Ascii.zero s0 with
  | None => None
  | Some s1 =>
      let s2 := lstrip (rstrip s1) in
      let '(neg, body) :=
        match s2 with
        | String "-" r => (true, r)
        | String "+" r => (false, r)
        | _ => (false, s2)
        end in
      let word := lower_str body in
      if String.eqb word "inf" || String.eqb word "infinity"
      then Some (if neg then neg_infinity else infinity)
      else if String.eqb word "nan" then Some nan
      else option_map (fun '(n, e10) => of_decimal neg n e10) (literal body)
  end.

(** *** [sum] of floats

    [sum(xs)] starts from the [int] 0, so the first element is added to
    [float(0)].  Up to CPython 3.11 the others are added one after the other;
    from 3.12 on the rounding error of each addition is kept in a
    compensation term (Neumaier's algorithm) which is added at the end, unless
    it is zero or not finite. *)

Definition neumaier (st : float * float) (x : float) : float * float :=
  let '(f, c) := st in
  let t := (f + x)%float in
  (t, if (abs x <=? abs f)%float then (c + ((f - t) + x))%float
      else (c + ((x - t) + f))%float).

(** [sum(xs)]; of the empty list it is the [int] 0, which no caller below
    asks for. *)
Definition sum (py : Interpreter) (xs : list float) : float :=
  match xs with
  | [] => of_Z 0
  | x :: rest =>
      let f0 := (of_Z 0 + x)%float in
      if compensated_sum py then
        let '(f, c) := fold_left neumaier rest (f0, of_Z 0) in
        if negb (c =? of_Z 0)%float && is_finite c then (f + c)%float else f
      else fold_left PrimFloat.add rest f0
  end.

(** *** Formatting *)

Definition of_Z_str (z : Z) : string :=
  ((if (z <? 0)%Z then "-" else "") +:+ NilZero.string_of_uint (N.to_uint (Z.abs_N z))).

Definition sign_str (s : bool) : string := if s then "-" else "".

(** [n / d] rounded to the nearest integer, ties to even ([0 <= n], [0 < d]). *)
Definition round_half_even (n d : Z) : Z :=
  let q := (n / d)%Z in
  match (2 * (n mod d) ?= d)%Z with
  | Lt => q
  | Gt => (q + 1)%Z
  | Eq => if Z.even q then q else (q + 1)%Z
  end.

(** [format(x, '.0f')]: the exact value rounded to an integer, ties to even. *)
Definition format_f0 (x : float) : string :=
  match Prim2SF x with
  | S754_nan => "nan"
  | S754_infinity s => sign_str s +:+ "inf"
  | S754_zero s => sign_str s +:+ "0"
  | S754_finite s m e =>
      sign_str s +:+
      of_Z_str (if (0 <=? e)%Z then Zpos m * 2 ^ e
                else round_half_even (Zpos m) (2 ^ (- e)))%Z
  end.

(** The decimal point position of [n / d > 0]: the [k] with
    [10 ^ (k - 1) <= n / d < 10 ^ k]. *)
Fixpoint decpt (fuel : nat) (n d k : Z) : Z :=
  match fuel with
  | O => k
  | S fuel' =>
      if (d <=? n)%Z then decpt fuel' n (10 * d)%Z (k + 1)%Z
      else if (10 * n <? d)%Z then decpt fuel' (10 * n)%Z d (k - 1)%Z
      else k
  end.

Fixpoint rstrip_zeros (s : string) : string :=
  match s with
  | EmptyString => EmptyString
  | String c s' =>
      match rstrip_zeros s' with
      | EmptyString => if Ascii.eqb c "0" then EmptyString else String c EmptyString
      | r => String c r
      end
  end.

(** The shortest digit string that reads back as [x = n / d], the closest to
    [x] among those of its length (David Gay's mode 0, as [repr] uses it):
    tried at 1, 2, ... significant digits.  Returns the digits and the
    decimal point position. *)
Fixpoint shortest (fuel : nat) (p : Z) (x : float) (n d k : Z) : string * Z :=
  let sn := (if (0 <=? p - k) then n * 10 ^ (p - k) else n)%Z in
  let sd := (if (0 <=? p - k) then d else d * 10 ^ (k - p))%Z in
  let lo := (sn / sd)%Z in
  let r := (sn mod sd)%Z in
  let back c := PrimFloat.eqb (of_decimal false c (k - p)) x in
  let pick c :=
    let ds := of_Z_str c in
    (rstrip_zeros ds, k + (Z.of_nat (String.length ds) - p))%Z in
  match fuel with
  | O => pick lo
  | S fuel' =>
      if (r =? 0)%Z then pick lo
      else
        match back lo, back (lo + 1)%Z with
        | true, true =>
            match (2 * r ?= sd)%Z with
            | Lt => pick lo
            | Gt => pick (lo + 1)%Z
            | Eq => pick (if Z.even lo then lo else lo + 1)%Z
            end
        | true, false => pick lo
        | false, true => pick (lo + 1)%Z
        | false, false => shortest fuel' (p + 1)%Z x n d k
        end
  end.

Fixpoint zeros (n : nat) : string :=
  match n with O => EmptyString | S n' => String "0" (zeros n') end.

Definition pad2 (s : string) : string :=
  match s with
  | String _ EmptyString => "0" +:+ s
  | _ => s
  end.

(** [repr(x)], which is also [str(x)] and what an f-string without a format
    spec prints. *)
Definition repr (x : float) : string :=
  match Prim2SF x with
  | S754_nan => "nan"
  | S754_infinity s => sign_str s +:+ "inf"
  | S754_zero s => sign_str s +:+ "0.0"
  | S754_finite s m e =>
      let n := (if (0 <=? e) then Zpos m * 2 ^ e else Zpos m)%Z in
      let d := (if (0 <=? e) then 1 else 2 ^ (- e))%Z in
      let k := decpt 400 n d 0 in
      let '(ds, k) := shortest 17 1 (abs x) n d k in
      let len := Z.of_nat (String.length ds) in
      sign_str s +:+
      (if (k <=? -4)%Z || (16 <? k)%Z then
         String.substring 0 1 ds +:+
         (if (1 <? len)%Z then "." +:+ String.substring 1 (String.length ds - 1) ds else "") +:+
         "e" +:+ (if (k - 1 <? 0)%Z then "-" else "+") +:+
         pad2 (of_Z_str (Z.abs (k - 1)))
       else if (k <=? 0)%Z then "0." +:+ zeros (Z.to_nat (- k)) +:+ ds
       else if (len <=? k)%Z then ds +:+ zeros (Z.to_nat (k - len)) +:+ ".0"
       else String.substring 0 (Z.to_nat k) ds +:+ "." +:+
            String.substring (Z.to_nat k) (String.length ds - Z.to_nat k) ds)
  end.

End PyFloat.

(** A number as an expression such as [x / n if n > 0 else 0] yields it:
    [int] on one branch, [float] on the other. *)
Inductive pynum :=
| PInt (z : Z)
| PFloat (x : float).

(** [f"{v}"] *)
Definition pynum_str (v : pynum) : string :=
  match v with
  | PInt z => PyFloat.of_Z_str z
  | PFloat x => PyFloat.repr x
  end.

(** [f"{v:.0f}"] *)
Definition pynum_f0 (v : pynum) : string :=
  match v with
  | PInt z => PyFloat.format_f0 (PyFloat.of_Z z)
  | PFloat x => PyFloat.format_f0 x
  end.

(** ** [datetime] *)

Inductive month := Jan | Feb | Mar | Apr | May | Jun | Jul | Aug | Sep | Oct | Nov | Dec.

Record datetime := {
  year : nat;
  mon : month;
  day : nat;
  hour : nat;
  minute : nat;
  second : nat;
  microsecond : nat
}.

Module PyTime.

(** [%b] in the C locale. *)
Definition month_abbr (m : month) : string :=
  match m with
  | Jan => "Jan" | Feb => "Feb" | Mar => "Mar" | Apr => "Apr"
  | May => "May" | Jun => "Jun" | Jul => "Jul" | Aug => "Aug"
  | Sep => "Sep" | Oct => "Oct" | Nov => "Nov" | Dec => "Dec"
  end.

(** [%d], [%I], [%M]: two digits, zero padded. *)
Definition two_digits (n : nat) : string := PyFloat.pad2 (PyStr.of_nat n).

(** [t.strftime('%b %d, %Y')]; the year is printed as it is, which is what
    every platform does from the year 1000 on. *)
Definition strftime_date (t : datetime) : string :=
  month_abbr (mon t) +:+ " " +:+ two_digits (day t) +:+ ", " +:+ PyStr.of_nat (year t).

(** [t.strftime('%b %d, %I:%M %p')] *)
Definition strftime_time (t : datetime) : string :=
  let h12 := match (hour t mod 12)%nat with O => 12%nat | h => h end in
  month_abbr (mon t) +:+ " " +:+ two_digits (day t) +:+ ", " +:+
  two_digits h12 +:+ ":" +:+ two_digits (minute t) +:+ " " +:+
  (if (hour t <? 12)%nat then "AM" else "PM").

End PyTime.

(** ** Data model *)

(** One analysed clause: the dictionary the analyzer returns, with the keys
    the dashboard reads ([clause], [ai_modified_clause] and
    [ai_modified_risk_level] stand for the keys ['clause'],
    ['AI-Modified Clause'] and ['AI-Modified Risk Level']). *)
Record ClauseRecord := {
  clause_id : string;
  clause : string;
  risk_level : string;
  risk_percent : string;
  regulation : string;
  summary : string;
  key_clauses : string;
  ai_modified_clause : string;
  ai_modified_risk_level : string
}.

(** The records of one risk level: [[r for r in results if
    r['risk_level'] == level]], and the rows [df[df["risk_level"] == level]]
    of the data frame built from [results]. *)
Definition of_level (level : string) (results : list ClauseRecord) : list ClauseRecord :=
  List.filter (fun r => String.eqb (risk_level r) level) results.

(** [m > t * 0.5] for two [int]s.  The product is exact in binary64 (an
    integer below [2 ^ 53] scaled by a power of two) and Python compares an
    [int] with a [float] exactly, so the test is [2 * m > t]. *)
Definition gt_half (m t : nat) : bool := (t <? 2 * m)%nat.

(** A value that is [None] or a [T]. *)
Inductive pyopt (T : Type) :=
| PyNone
| PySome (x : T).
Arguments PyNone {T}.
Arguments PySome {T} x.

(** [f"{v}"] for a value that is [None] or a [str]. *)
Definition pyopt_str (v : pyopt string) : string :=
  match v with PyNone => "None" | PySome s => s end.

(** [st.session_state], by key; a field is [None] while its key is absent.
    The keys of [auth_manager.py] and those of [app.py] are kept in two
    records. *)
Record auth_state := {
  authenticated : option bool;
  temp_session : option bool;
  user_email : option (pyopt string);
  user_name : option (pyopt string);
  user_role : option (pyopt string);
  login_time : option (pyopt datetime)
}.

Record run_state := {
  analysis_complete : option bool;
  analysis_results : option (pyopt (list ClauseRecord));
  contract_name : option string;
  email_sent : option bool;
  show_rewrites : option bool
}.

Record session_state := {
  auth : auth_state;
  run : run_state
}.

(** The session state of a fresh browser session: no key at all. *)
Definition empty_session : session_state :=
  {| auth := {| authenticated := None; temp_session := None; user_email := None;
                user_name := None; user_role := None; login_time := None |};
     run := {| analysis_complete := None; analysis_results := None;
               contract_name := None; email_sent := None; show_rewrites := None |} |}.

(** [session_state.get(key)]: [None] for an absent key. *)
Definition get_or_none {T} (v : option (pyopt T)) : pyopt T :=
  match v with None => PyNone | Some x => x end.

(** Truth value of a list or [None]. *)
Definition results_truthy (r : pyopt (list ClauseRecord)) : bool :=
  match r with
  | PyNone => false
  | PySome [] => false
  | PySome (_ :: _) => true
  end.

(** A message handed to the transport: [yag.send(to, subject, contents)]. *)
Record Email := {
  to : list string;
  subject : string;
  contents : list string
}.

(** ** Streamlit script runs

    Every interaction reruns the script top to bottom.  A run reads and
    writes the session state, shows messages, may call the transport, and
    ends early at [st.rerun()]. *)

(** The messages of [st.success], [st.warning], [st.error] and [st.info]
    (of the page or of its sidebar) on the paths modelled, and the calls of
    the transport, by call site.  Markdown, charts, metrics and tables are
    display only and leave no event. *)
Inductive event :=
| Success (msg : string)      (* st.success *)
| Warning (msg : string)      (* st.warning *)
| Error (msg : string)        (* st.error *)
| Info (msg : string)         (* st.info *)
| SendAnalysis (m : Email)    (* yag.send in send_analysis_notification *)
| SendTest (m : Email).       (* yag.send in send_test_email *)

Inductive outcome (A : Type) :=
| Done (a : A)
| Rerun.
Arguments Done {A} a.
Arguments Rerun {A}.

Definition script (A : Type) : Type :=
  session_state -> outcome A * session_state * list event.

Module Script.

Definition ret {A} (a : A) : script A := fun st => (Done a, st, []).

Definition bind {A B} (c : script A) (k : A -> script B) : script B :=
  fun st =>
    match c st with
    | (Done a, st1, ev1) =>
        let '(o, st2, ev2) := k a st1 in (o, st2, ev1 ++ ev2)
    | (Rerun, st1, ev1) => (Rerun, st1, ev1)
    end.

Definition get : script session_state := fun st => (Done st, st, []).
Definition put (st' : session_state) : script unit := fun _ => (Done tt, st', []).
Definition modify (f : session_state -> session_state) : script unit :=
  fun st => (Done tt, f st, []).
Definition emit (e : event) : script unit := fun st => (Done tt, st, [e]).
Definition emits (es : list event) : script unit := fun st => (Done tt, st, es).
Definition rerun {A} : script A := fun st => (Rerun, st, []).
Definition when (b : bool) (c : script unit) : script unit :=
  if b then c else ret tt.

End Script.

(** [x ← c; k] and [c;; k] are stdpp's notations for [Script.bind]. *)
#[global] Instance script_ret : MRet script := @Script.ret.
#[global] Instance script_bind : MBind script := fun A B k c => Script.bind c k.

Definition state_of {A} (r : outcome A * session_state * list event) : session_state :=
  snd (fst r).
Definition events_of {A} (r : outcome A * session_state * list event) : list event :=
  snd r.
Definition outcome_of {A} (r : outcome A * session_state * list event) : outcome A :=
  fst (fst r).

(** ** auth_manager.py *)

Module auth_manager.

Record user_entry := {
  password : string;
  name : string;
  role : string
}.

(** [VALID_USERS]: the two built-in entries, and the entry of the
    environment when [AUTH_USER] and [AUTH_PASSWORD] are both set and
    non-empty. *)
Definition VALID_USERS (environ : gmap string string) : gmap string user_entry :=
  let builtin : gmap string user_entry :=
    <["user@company.com" :=
        {| password := "user123"; name := "Regular User"; role := "Analyst" |}]>
    (<["admin@company.com" :=
        {| password := "admin123"; name := "Admin User"; role := "Administrator" |}]> ∅) in
  match environ !! "AUTH_USER", environ !! "AUTH_PASSWORD" with
  | Some ENV_USER, Some ENV_PASSWORD =>
      if PyStr.truthy ENV_USER && PyStr.truthy ENV_PASSWORD
      then <[ENV_USER :=
               {| password := ENV_PASSWORD;
                  name := default "Environment User" (environ !! "AUTH_NAME");
                  role := "User" |}]> builtin
      else builtin
  | _, _ => builtin
  end.

Definition or_default {T} (d : T) (v : option T) : option T :=
  match v with None => Some d | Some _ => v end.

(** Every key that is absent gets its default; a key that is there is left
    alone. *)
Definition initialize_auth_session (st : session_state) : session_state :=
  let a := auth st in
  {| auth := {| authenticated := or_default false (authenticated a);
                temp_session := or_default false (temp_session a);
                user_email := or_default PyNone (user_email a);
                user_name := or_default PyNone (user_name a);
                user_role := or_default PyNone (user_role a);
                login_time := or_default PyNone (login_time a) |};
     run := run st |}.

Definition authenticate_user (users : gmap string user_entry) (now : datetime)
    (email pass : string) (st : session_state) : (bool * string) * session_state :=
  match users !! email with
  | Some u =>
      if String.eqb (password u) pass
      then ((true, "Login successful!"),
            {| auth := {| authenticated := Some true;
                          temp_session := Some false;
                          user_email := Some (PySome email);
                          user_name := Some (PySome (name u));
                          user_role := Some (PySome (role u));
                          login_time := Some (PySome now) |};
               run := run st |})
      else ((false, "Invalid email or password"), st)
  | None => ((false, "Invalid email or password"), st)
  end.

Definition create_temp_session (now : datetime) (email : string)
    (st : session_state) : session_state :=
  {| auth := {| authenticated := Some true;
                temp_session := Some true;
                user_email := Some (PySome email);
                user_name := Some (PySome ("Guest (" +:+ email +:+ ")"));
                user_role := Some (PySome "Guest");
                login_time := Some (PySome now) |};
     run := run st |}.

(** [st.session_state.get("authenticated", False)] *)
Definition is_authenticated (st : session_state) : bool :=
  default false (authenticated (auth st)).

(** [st.session_state.get("temp_session", False)] *)
Definition is_temp_session (st : session_state) : bool :=
  default false (temp_session (auth st)).

Record current_user := {
  cu_email : pyopt string;
  cu_name : pyopt string;
  cu_role : pyopt string;
  cu_logged_in : bool;
  cu_is_temp : bool;
  cu_login_time : pyopt datetime
}.

Definition get_current_user (st : session_state) : option current_user :=
  if negb (is_authenticated st) then None
  else Some {| cu_email := get_or_none (user_email (auth st));
               cu_name := get_or_none (user_name (auth st));
               cu_role := get_or_none (user_role (auth st));
               cu_logged_in := negb (is_temp_session st);
               cu_is_temp := is_temp_session st;
               cu_login_time := get_or_none (login_time (auth st)) |}.

Definition logout_user (st : session_state) : session_state :=
  {| auth := {| authenticated := Some false;
                temp_session := Some false;
                user_email := Some PyNone;
                user_name := Some PyNone;
                user_role := Some PyNone;
                login_time := Some PyNone |};
     run := run st |}.

(** The login form of [show_login_form]: what its [if submit:] does. *)
Definition login_form (users : gmap string user_entry) (now : datetime)
    (email pass : string) (submit : bool) : script unit :=
  if submit then
    if negb (PyStr.truthy email) || negb (PyStr.truthy pass)
    then Script.emit (Error "⚠️ Please enter email and password")
    else
      st ← Script.get;
      let '((success, message), st') := authenticate_user users now email pass st in
      Script.put st';;
      if success then Script.emit (Success message);; Script.rerun
      else Script.emit (Error message)
  else mret tt.

(** The quick-access form of [show_login_form]: what its [if temp_submit:]
    does. *)
Definition temp_form (now : datetime) (temp_email : string) (temp_submit : bool)
    : script unit :=
  if temp_submit then
    if negb (PyStr.truthy temp_email) || negb (PyStr.contains "@" temp_email)
    then Script.emit (Error "⚠️ Please enter valid email")
    else
      Script.modify (create_temp_session now temp_email);;
      Script.emit (Success ("✅ Session created for " +:+ temp_email));;
      Script.rerun
  else mret tt.

(** The widgets of the login page, as one run of the script reads them. *)
Record login_widgets := {
  login_email : string;
  login_password : string;
  login_submit : bool;
  temp_email : string;
  temp_submit : bool
}.

Definition show_login_form (users : gmap string user_entry)
    (now_login now_temp : datetime) (w : login_widgets) : script unit :=
  login_form users now_login (login_email w) (login_password w) (login_submit w);;
  Script.emit (Info "💡 Temporary sessions allow contract analysis but disable email notifications.");;
  temp_form now_temp (temp_email w) (temp_submit w).

(** The sidebar of a signed-in user; only its logout button acts. *)
Definition show_user_info (logout_button : bool) : script unit :=
  st ← Script.get;
  if negb (is_authenticated st) then mret tt
  else
    Script.when (is_temp_session st)
      (Script.emit (Warning "⚠️ Email disabled in temp sessions"));;
    if logout_button then Script.modify logout_user;; Script.rerun
    else mret tt.

(** [require_auth(func)], called: [func] stands for the decorated function
    applied to its arguments; the result is [None] when the call is refused. *)
Definition require_auth {A} (func : script A) : script (option A) :=
  st ← Script.get;
  if negb (is_authenticated st)
  then Script.emit (Error "🔒 Authentication required");; mret None
  else a ← func; mret (Some a).

(** [require_full_auth(func)], called. *)
Definition require_full_auth {A} (func : script A) : script (option A) :=
  st ← Script.get;
  if negb (is_authenticated st)
  then Script.emit (Error "🔒 Authentication required");; mret None
  else if is_temp_session st
  then Script.emit (Error "🔒 Full authentication required");; mret None
  else a ← func; mret (Some a).

End auth_manager.

(** ** email_notifier.py *)

Module email_notifier.

(** An f-string: literal text and the values of its replacement fields,
    alternating. *)
Fixpoint fstring (literals fields : list string) : string :=
  match literals with
  | [] => EmptyString
  | l :: literals' =>
      match fields with
      | [] => l +:+ fstring literals' []
      | f :: fields' => l +:+ f +:+ fstring literals' fields'
      end
  end.

(** The literal text of the f-string of [generate_analysis_summary], cut at its
    replacement fields, with a backquote where the source has a double quote.  *)
Definition summary_literals : list string :=
  map (PyStr.replace "`" PyStr.dq)
  ["
        <!DOCTYPE html>
        <html>
        <head>
            <meta charset=`UTF-8`>
            <meta name=`viewport` content=`width=device-width, initial-scale=1.0`>
        </head>
        <body style=`margin:0;padding:15px;font-family:-apple-system,BlinkMacSystemFont,'Segoe UI',Roboto,Arial,sans-serif;background:#f3f4f6;`>
            <table width=`100%` style=`max-width:480px;margin:0 auto;background:#fff;border-radius:10px;overflow:hidden;box-shadow:0 2px 8px rgba(0,0,0,0.1);`>
                
                <!-- Header -->
                <tr>
                    <td style=`background:linear-gradient(135deg,#667eea 0%,#764ba2 100%);padding:18px 15px;text-align:center;`>
                        <div style=`font-size:28px;margin-bottom:5px;`>⚖️</div>
                        <h1 style=`margin:0;color:#fff;font-size:18px;font-weight:700;letter-spacing:-0.3px;`>Contract Analysis</h1>
                    </td>
                </tr>
                
                <!-- Status -->
                <tr>
                    <td style=`padding:12px 15px;background:";
   ";text-align:center;`>
                        <h2 style=`margin:0;color:#fff;font-size:16px;font-weight:700;letter-spacing:0.5px;`>";
   " ";
   "</h2>
                    </td>
                </tr>
                
                <!-- Content -->
                <tr>
                    <td style=`padding:15px;`>
                        
                        <!-- Info -->
                        <div style=`background:#f9fafb;border-radius:6px 6px 0 0;padding:10px;margin:0;`>
                            <table width=`100%` cellpadding=`3` cellspacing=`0`>
                                <tr>
                                    <td style=`color:#6b7280;font-size:12px;width:35%;`>Contract:</td>
                                    <td style=`color:#111827;font-size:12px;font-weight:600;`>";
   "</td>
                                </tr>
                                <tr>
                                    <td style=`color:#6b7280;font-size:12px;`>By:</td>
                                    <td style=`color:#111827;font-size:12px;font-weight:600;`>";
   "</td>
                                </tr>
                                <tr>
                                    <td style=`color:#6b7280;font-size:12px;`>Date:</td>
                                    <td style=`color:#111827;font-size:12px;font-weight:600;`>";
   "</td>
                                </tr>
                            </table>
                        </div>
                        
                        <!-- Metrics -->
                        <table width=`100%` cellpadding=`0` cellspacing=`0` style=`margin:0;`>
                            <tr>
                                <td width=`25%` style=`text-align:center;padding:10px 0;background:#3b82f6;`>
                                    <div style=`color:rgba(255,255,255,0.85);font-size:9px;font-weight:700;text-transform:uppercase;letter-spacing:0.5px;margin-bottom:2px;`>Total</div>
                                    <div style=`color:#fff;font-size:22px;font-weight:700;line-height:1;`>";
   "</div>
                                </td>
                                <td width=`25%` style=`text-align:center;padding:10px 0;background:#ef4444;`>
                                    <div style=`color:rgba(255,255,255,0.85);font-size:9px;font-weight:700;text-transform:uppercase;letter-spacing:0.5px;margin-bottom:2px;`>High</div>
                                    <div style=`color:#fff;font-size:22px;font-weight:700;line-height:1;`>";
   "</div>
                                </td>
                                <td width=`25%` style=`text-align:center;padding:10px 0;background:#f59e0b;`>
                                    <div style=`color:rgba(255,255,255,0.85);font-size:9px;font-weight:700;text-transform:uppercase;letter-spacing:0.5px;margin-bottom:2px;`>Med</div>
                                    <div style=`color:#fff;font-size:22px;font-weight:700;line-height:1;`>";
   "</div>
                                </td>
                                <td width=`25%` style=`text-align:center;padding:10px 0;background:#10b981;`>
                                    <div style=`color:rgba(255,255,255,0.85);font-size:9px;font-weight:700;text-transform:uppercase;letter-spacing:0.5px;margin-bottom:2px;`>Low</div>
                                    <div style=`color:#fff;font-size:22px;font-weight:700;line-height:1;`>";
   "</div>
                                </td>
                            </tr>
                        </table>
                        
                        <!-- Compliance Bar -->
                        <div style=`background:#f9fafb;padding:10px;margin:0;`>
                            <div style=`margin-bottom:6px;`>
                                <table width=`100%` cellpadding=`0` cellspacing=`0`>
                                    <tr>
                                        <td style=`color:#6b7280;font-size:11px;font-weight:600;`>Compliance Rate</td>
                                        <td style=`color:#111827;font-size:13px;font-weight:700;text-align:right;`>";
   "%</td>
                                    </tr>
                                </table>
                            </div>
                            <div style=`background:#e5e7eb;height:7px;border-radius:10px;overflow:hidden;`>
                                <div style=`background:linear-gradient(90deg,#10b981,#059669);height:100%;width:";
   "%;border-radius:10px;`></div>
                            </div>
                        </div>
                        
                        <!-- Note -->
                        <div style=`background:#f9fafb;border-radius:0 0 6px 6px;padding:8px;text-align:center;margin:0;`>
                            <p style=`margin:0;color:#6b7280;font-size:11px;line-height:1.4;`>
                                📊 View full analysis in your dashboard
                            </p>
                        </div>
                        
                    </td>
                </tr>
                
                <!-- Footer -->
                <tr>
                    <td style=`background:#f9fafb;padding:10px;text-align:center;border-top:1px solid #e5e7eb;`>
                        <p style=`margin:0;color:#9ca3af;font-size:10px;line-height:1.3;`>AI Compliance Dashboard<br>";
   "</p>
                    </td>
                </tr>
                
            </table>
        </body>
        </html>
        "].

(** The literal text of the f-string of [send_test_email], cut at its
    replacement fields, with a backquote where the source has a double quote.  *)
Definition test_literals : list string :=
  map (PyStr.replace "`" PyStr.dq)
  ["
            <!DOCTYPE html>
            <html>
            <body style=`margin:0;padding:15px;font-family:Arial,sans-serif;background:#f3f4f6;`>
                <table width=`100%` style=`max-width:380px;margin:0 auto;background:#fff;border-radius:10px;overflow:hidden;box-shadow:0 2px 8px rgba(0,0,0,0.1);`>
                    <tr>
                        <td style=`background:linear-gradient(135deg,#10b981,#059669);padding:20px;text-align:center;`>
                            <div style=`font-size:36px;margin-bottom:5px;`>✅</div>
                            <h1 style=`margin:0;color:#fff;font-size:17px;font-weight:700;`>Test Successful</h1>
                        </td>
                    </tr>
                    <tr>
                        <td style=`padding:15px;`>
                            <div style=`background:#f9fafb;border-radius:6px;padding:10px;`>
                                <table width=`100%` cellpadding=`3` cellspacing=`0`>
                                    <tr>
                                        <td style=`color:#6b7280;font-size:11px;width:35%;`>Sent By:</td>
                                        <td style=`color:#111827;font-size:11px;font-weight:600;`>";
   "</td>
                                    </tr>
                                    <tr>
                                        <td style=`color:#6b7280;font-size:11px;`>Email:</td>
                                        <td style=`color:#667eea;font-size:11px;font-weight:600;`>";
   "</td>
                                    </tr>
                                    <tr>
                                        <td style=`color:#6b7280;font-size:11px;`>Time:</td>
                                        <td style=`color:#111827;font-size:11px;font-weight:600;`>";
   "</td>
                                    </tr>
                                </table>
                            </div>
                            <div style=`text-align:center;margin-top:12px;`>
                                <span style=`display:inline-block;background:#10b981;color:#fff;padding:6px 18px;border-radius:15px;font-weight:600;font-size:11px;`>System OK</span>
                            </div>
                        </td>
                    </tr>
                    <tr>
                        <td style=`background:#f9fafb;padding:10px;text-align:center;border-top:1px solid #e5e7eb;`>
                            <p style=`margin:0;color:#9ca3af;font-size:9px;`>AI Compliance Dashboard</p>
                        </td>
                    </tr>
                </table>
            </body>
            </html>
            "].

(** The notifier object: one per process, built when the module is loaded. *)
Record EmailNotifier := {
  email_user : option string;
  email_password : option string;
  notification_emails : list string;
  enabled : bool
}.

(** [not v] for a value of [os.getenv]: unset and empty are both falsy. *)
Definition env_truthy (v : option string) : bool :=
  match v with None => false | Some s => PyStr.truthy s end.

Definition _get_notification_emails (environ : gmap string string) : list string :=
  let emails_str := default EmptyString (environ !! "NOTIFICATION_EMAILS") in
  if PyStr.truthy emails_str
  then map PyStr.strip
         (List.filter (fun email => PyStr.truthy (PyStr.strip email))
            (PyStr.split "," emails_str))
  else ["admin@company.com"; "compliance@company.com"; "legal@company.com"].

(** [EmailNotifier.__init__]; [smtp_ok] tells whether [yagmail.SMTP(...)]
    returned rather than raised. *)
Definition init (environ : gmap string string) (smtp_ok : bool) : EmailNotifier :=
  let user := environ !! "EMAIL_USER" in
  let pass := environ !! "EMAIL_PASSWORD" in
  {| email_user := user;
     email_password := pass;
     notification_emails := _get_notification_emails environ;
     enabled := if negb (env_truthy user) || negb (env_truthy pass) then false
                else smtp_ok |}.

Definition _check_user_session (st : session_state) : bool :=
  let is_authenticated := default false (authenticated (auth st)) in
  let is_temp := default false (temp_session (auth st)) in
  if negb is_authenticated || is_temp then false else true.

(** [(user_name, user_email)], each with its default for an absent key. *)
Definition _get_user_info (st : session_state) : pyopt string * pyopt string :=
  (default (PySome "Unknown User") (user_name (auth st)),
   default (PySome "unknown@email.com") (user_email (auth st))).

(** [now_body] and [now_footer] are the two readings of [datetime.now()],
    in the order the f-string takes them. *)
Definition generate_analysis_summary (st : session_state)
    (now_body now_footer : datetime)
    (analysis_results : pyopt (list ClauseRecord)) (contract_name : string)
    : option string :=
  match analysis_results with
  | PyNone | PySome [] => None
  | PySome df =>
      if negb (_check_user_session st) then None
      else
        let '(user_name, user_email) := _get_user_info st in
        let total_clauses := length df in
        let high_risk := length (of_level "High" df) in
        let medium_risk := length (of_level "Medium" df) in
        let low_risk := length (of_level "Low" df) in
        let compliance_rate :=
          if (0 <? total_clauses)%nat
          then PFloat (PyFloat.int_truediv (Z.of_nat low_risk) (Z.of_nat total_clauses)
                       * PyFloat.of_Z 100)%float
          else PInt 0 in
        let '(status_color, status_icon, status_text) :=
          if (0 <? high_risk)%nat then ("#ef4444", "🚨", "HIGH RISK")
          else if gt_half medium_risk total_clauses then ("#f59e0b", "⚠️", "MODERATE")
          else ("#10b981", "✅", "LOW RISK") in
        Some (fstring summary_literals
                [status_color; status_icon; status_text;
                 contract_name; pyopt_str user_name;
                 PyTime.strftime_date now_body;
                 PyStr.of_nat total_clauses; PyStr.of_nat high_risk;
                 PyStr.of_nat medium_risk; PyStr.of_nat low_risk;
                 pynum_f0 compliance_rate; pynum_str compliance_rate;
                 PyTime.strftime_date now_footer])
  end.

(** [yag_send m] is what [self.yag.send(...)] does with [m]: [None] when it
    returns, [Some e] when it raises [e].  The result is the returned flag
    and the messages handed to the transport, delivered or not. *)
Definition send_analysis_notification (self : EmailNotifier)
    (yag_send : Email -> option string) (st : session_state)
    (now_body now_footer : datetime)
    (analysis_results : pyopt (list ClauseRecord)) (contract_name : string)
    : bool * list Email :=
  if negb (enabled self) then (false, [])
  else if negb (_check_user_session st) then (false, [])
  else
    match generate_analysis_summary st now_body now_footer analysis_results contract_name with
    | None => (false, [])
    | Some summary_html =>
        if negb (PyStr.truthy summary_html) then (false, [])
        else
          match analysis_results with
          | PyNone => (false, [])
          | PySome results =>
              let high_risk := length (of_level "High" results) in
              let medium_risk := length (of_level "Medium" results) in
              let subject :=
                if (0 <? high_risk)%nat then "🚨 HIGH RISK: " +:+ contract_name
                else if (0 <? medium_risk)%nat then "⚠️ Review: " +:+ contract_name
                else "✅ Complete: " +:+ contract_name in
              let m := {| to := notification_emails self;
                          subject := subject;
                          contents := [summary_html] |} in
              match yag_send m with
              | None => (true, [m])
              | Some e => (false, [m])
              end
          end
    end.

Definition send_test_email (self : EmailNotifier)
    (yag_send : Email -> option string) (st : session_state) (now : datetime)
    : (bool * string) * list Email :=
  if negb (enabled self) then ((false, "Email system not configured"), [])
  else if negb (_check_user_session st)
  then ((false, "Temporary session - email blocked"), [])
  else
    let '(user_name, user_email) := _get_user_info st in
    let content :=
      fstring test_literals
        [pyopt_str user_name; pyopt_str user_email; PyTime.strftime_time now] in
    let m := {| to := notification_emails self;
                subject := "✅ Test Email";
                contents := [content] |} in
    match yag_send m with
    | None =>
        ((true, "✅ Test sent to " +:+ PyStr.of_nat (length (notification_emails self))
                +:+ " recipient(s)"), [m])
    | Some e => ((false, "❌ Failed: " +:+ e), [m])
    end.

Definition get_notification_recipients (self : EmailNotifier) : list string :=
  notification_emails self.

Definition is_enabled (self : EmailNotifier) : bool := enabled self.

End email_notifier.

(** ** app.py *)

Module app.

Import auth_manager email_notifier.

(** What [analyze_contract_file] does with the uploaded file.  Writing the
    temporary file happens in the same [try] block, so a failure there is an
    [AnalyzerRaises] too. *)
Inductive analyzer_outcome :=
| AnalyzerRaises (e : string)
| AnalyzerReturns (results : pyopt (list ClauseRecord)).

(** What one run of the script gets from outside the program: the readings
    of the clock at the places that take one, the analyzer and the
    transport. *)
Record world := {
  now_login : datetime;
  now_temp : datetime;
  now_test : datetime;
  now_body : datetime;
  now_footer : datetime;
  analyze_contract_file : analyzer_outcome;
  yag_send : Email -> option string
}.

(** The widgets of the page, as one run of the script reads them. *)
Record widgets := {
  login : login_widgets;
  logout_button : bool;
  test_email_button : bool;
  uploaded_file : option string;   (* [uploaded_file.name], when a file is there *)
  submit_button : bool;
  show_rewrites_button : bool;
  another_button : bool
}.

Definition initialize_session_state (st : session_state) : session_state :=
  let st := initialize_auth_session st in
  let r := run st in
  {| auth := auth st;
     run := {| analysis_complete := or_default false (analysis_complete r);
               analysis_results := or_default PyNone (analysis_results r);
               contract_name := or_default EmptyString (contract_name r);
               email_sent := or_default false (email_sent r);
               show_rewrites := show_rewrites r |} |}.

Definition set_email_sent (b : bool) (st : session_state) : session_state :=
  {| auth := auth st;
     run := {| analysis_complete := analysis_complete (run st);
               analysis_results := analysis_results (run st);
               contract_name := contract_name (run st);
               email_sent := Some b;
               show_rewrites := show_rewrites (run st) |} |}.

Definition set_contract_name (n : string) (st : session_state) : session_state :=
  {| auth := auth st;
     run := {| analysis_complete := analysis_complete (run st);
               analysis_results := analysis_results (run st);
               contract_name := Some n;
               email_sent := email_sent (run st);
               show_rewrites := show_rewrites (run st) |} |}.

Definition set_show_rewrites (b : bool) (st : session_state) : session_state :=
  {| auth := auth st;
     run := {| analysis_complete := analysis_complete (run st);
               analysis_results := analysis_results (run st);
               contract_name := contract_name (run st);
               email_sent := email_sent (run st);
               show_rewrites := Some b |} |}.

(** [analysis_results = results; analysis_complete = True] *)
Definition set_results (results : pyopt (list ClauseRecord)) (st : session_state)
    : session_state :=
  {| auth := auth st;
     run := {| analysis_complete := Some true;
               analysis_results := Some results;
               contract_name := contract_name (run st);
               email_sent := email_sent (run st);
               show_rewrites := show_rewrites (run st) |} |}.

(** What the "Analyze Another Contract" button does. *)
Definition reset_run (st : session_state) : session_state :=
  {| auth := auth st;
     run := {| analysis_complete := Some false;
               analysis_results := Some PyNone;
               contract_name := Some EmptyString;
               email_sent := Some false;
               show_rewrites := show_rewrites (run st) |} |}.

Definition analyze_contract (notifier : EmailNotifier) (w : world)
    (uploaded_name : string) : script (pyopt (list ClauseRecord)) :=
  match analyze_contract_file w with
  | AnalyzerRaises e =>
      Script.emit (Error ("Error during analysis: " +:+ e));;
      mret PyNone
  | AnalyzerReturns analysis_results =>
      if results_truthy analysis_results then
        Script.emit (Success "Analysis complete!");;
        st ← Script.get;
        let '(email_success, sent) :=
          send_analysis_notification notifier (yag_send w) st
            (now_body w) (now_footer w) analysis_results uploaded_name in
        Script.emits (map SendAnalysis sent);;
        (if email_success then
           Script.emit (Success " Email notifications sent to compliance team!");;
           Script.modify (set_email_sent true)
         else
           Script.emit (Warning " Analysis complete but email notifications failed to send"));;
        mret analysis_results
      else
        Script.emit (Error "Failed to analyze contract");;
        mret PyNone
  end.

(** *** [create_dashboard]: the quick stats *)

(** What the loop body appends for [r], if the [try] goes through. *)
Definition risk_value (py : Interpreter) (r : ClauseRecord) : option float :=
  PyFloat.of_string py (PyStr.strip (PyStr.replace "%" EmptyString (risk_percent r))).

(** The [for r in results] loop, from the list built so far. *)
Fixpoint risk_percentages (py : Interpreter) (results : list ClauseRecord)
    (acc : list float) : list float :=
  match results with
  | [] => acc
  | r :: rest =>
      match risk_value py r with
      | Some v => risk_percentages py rest (acc ++ [v])
      | None => risk_percentages py rest acc
      end
  end.

(** [avg_risk], as [create_dashboard] comes to it.  The function first
    builds [pd.DataFrame(results)] and reads its column ['risk_level']; the
    frame of the empty list has no columns, so for [[]] the function has
    raised [KeyError] before the quick stats ([None]).  [main] shows the
    dashboard for results that are not empty. *)
Definition avg_risk (py : Interpreter) (results : list ClauseRecord) : option pynum :=
  match results with
  | [] => None
  | _ :: _ =>
      Some match risk_percentages py results [] with
           | [] => PInt 0
           | xs => PFloat (PyFloat.sum py xs / PyFloat.of_Z (Z.of_nat (length xs)))
           end
  end.

Definition compliant_percentage (results : list ClauseRecord) : pynum :=
  let total_clauses := length results in
  let compliant := length (of_level "Low" results) in
  if (0 <? total_clauses)%nat
  then PFloat (PyFloat.int_truediv (Z.of_nat compliant) (Z.of_nat total_clauses)
               * PyFloat.of_Z 100)%float
  else PInt 0.

(** Charts and metrics are display only; the message under them is
    recorded. *)
Definition create_dashboard (results : list ClauseRecord) : script unit :=
  let compliant := length (of_level "Low" results) in
  if (0 <? compliant)%nat
  then Script.emit (Success ("✓ " +:+ PyStr.of_nat compliant +:+ " clauses compliant"))
  else Script.emit (Warning "⚠️ No fully compliant clauses found").

(** *** [create_summary_insights]: the recommendation *)

Inductive Recommendation := Reject | ReviewRecommended | Acceptable.

Definition recommendation (results : list ClauseRecord) : Recommendation :=
  let high_risk_items := of_level "High" results in
  let medium_risk_items := of_level "Medium" results in
  let total_count := length results in
  match high_risk_items with
  | _ :: _ => Reject
  | [] =>
      if gt_half (length medium_risk_items) total_count then ReviewRecommended
      else Acceptable
  end.

Definition recommendation_message (v : Recommendation) : event :=
  match v with
  | Reject =>
      Error "🚫 Do NOT accept this contract in current form. Review highlighted clauses before approval."
  | ReviewRecommended =>
      Warning "⚠️ Review recommended changes before proceeding with contract approval."
  | Acceptable =>
      Success "✅ Contract appears acceptable with minor considerations."
  end.

(** *** [create_summary_insights]: summary and key points *)

Definition gdpr_issues (results : list ClauseRecord) : nat :=
  length (List.filter (fun r => PyStr.isin "GDPR" (regulation r)) results).

Definition hipaa_issues (results : list ClauseRecord) : nat :=
  length (List.filter (fun r => PyStr.isin "HIPAA" (regulation r)) results).

(** The bullet points under "Contract Summary". *)
Definition summary_points (results : list ClauseRecord) : list string :=
  let high_risk := length (of_level "High" results) in
  (if (0 <? gdpr_issues results)%nat
   then ["Data retention terms conflict with GDPR."] else []) ++
  (if (0 <? hipaa_issues results)%nat
   then ["Access control and encryption measures are compliant."] else []) ++
  (if (0 <? high_risk)%nat
   then ["Liability clause is missing, which may increase legal risks."] else []).

(** The list [recommendations] under "Key Points to Consider". *)
Definition recommendations (results : list ClauseRecord) : list string :=
  (if (0 <? gdpr_issues results)%nat
   then ["Update retention policy to match GDPR timelines."] else []) ++
  (if existsb (fun r => PyStr.isin "liability" (PyStr.lower (key_clauses r))) results
   then ["Include liability clause to reduce legal exposure."] else []).

(** What is shown for them: a warning each, or the all-clear. *)
Definition key_points (results : list ClauseRecord) : list event :=
  match recommendations results with
  | [] => [Success "• All clauses appear to be in good standing."]
  | recs => map (fun rec => Warning ("• " +:+ rec)) recs
  end.

(** Of the summary tab, the recommendation and the state of the
    "show rewrites" toggle are modelled; the banner, the bullet points and the
    tables are display only. *)
Definition create_summary_insights (w : widgets) (results : list ClauseRecord)
    : script unit :=
  Script.emit (recommendation_message (recommendation results));;
  st ← Script.get;
  Script.when (negb (bool_decide (is_Some (show_rewrites (run st)))))
    (Script.modify (set_show_rewrites false));;
  st ← Script.get;
  if negb (default false (show_rewrites (run st))) then
    if show_rewrites_button w
    then Script.modify (set_show_rewrites true);; Script.rerun
    else mret tt
  else mret tt.

Definition show_email_settings (notifier : EmailNotifier) (wd : world) (w : widgets)
    : script unit :=
  if is_enabled notifier then
    Script.emit (Success "✅ Email system active");;
    if test_email_button w then
      st ← Script.get;
      let '((success, message), sent) :=
        send_test_email notifier (yag_send wd) st (now_test wd) in
      Script.emits (map SendTest sent);;
      Script.emit (if success then Success message else Error message)
    else mret tt
  else Script.emit (Warning "⚠️ Email notifications disabled").

(** The upload block of [main]: shown while no analysis is complete. *)
Definition upload_page (notifier : EmailNotifier) (wd : world) (w : widgets)
    : script unit :=
  st ← Script.get;
  if negb (default false (analysis_complete (run st))) then
    match uploaded_file w with
    | Some file_name =>
        Script.emit (Success ("✅ Uploaded: " +:+ file_name));;
        Script.modify (set_contract_name file_name);;
        if submit_button w then
          results ← analyze_contract notifier wd file_name;
          if results_truthy results
          then Script.modify (set_results results);; Script.rerun
          else mret tt
        else mret tt
    | None => mret tt
    end
  else mret tt.

(** The results block of [main]: shown once an analysis is complete and has
    results. *)
Definition results_page (w : widgets) : script unit :=
  st ← Script.get;
  if default false (analysis_complete (run st))
     && results_truthy (get_or_none (analysis_results (run st)))
  then
    Script.emit (Success "Contract analyzed successfully!");;
    match get_or_none (analysis_results (run st)) with
    | PySome results =>
        create_dashboard results;;
        create_summary_insights w results
    | PyNone => mret tt
    end;;
    if another_button w
    then Script.modify reset_run;; Script.rerun
    else mret tt
  else mret tt.

(** One run of the script. *)
Definition main (users : gmap string user_entry) (notifier : EmailNotifier)
    (wd : world) (w : widgets) : script unit :=
  Script.modify initialize_session_state;;
  st ← Script.get;
  if negb (is_authenticated st)
  then show_login_form users (now_login wd) (now_temp wd) (login w)
  else
    show_user_info (logout_button w);;
    show_email_settings notifier wd w;;
    upload_page notifier wd w;;
    results_page w.

(** The runs of a whole session, one after the other: each with what its
    widgets and the outside world gave it. *)
Fixpoint runs (users : gmap string user_entry) (notifier : EmailNotifier)
    (inputs : list (world * widgets)) (st : session_state)
    : session_state * list event :=
  match inputs with
  | [] => (st, [])
  | (wd, w) :: rest =>
      let r := main users notifier wd w st in
      let '(st', ev) := runs users notifier rest (state_of r) in
      (st', events_of r ++ ev)
  end.

(** The messages handed to the transport by [send_analysis_notification]. *)
Definition analysis_sends (ev : list event) : list Email :=
  omap (fun e => match e with SendAnalysis m => Some m | _ => None end) ev.

End app.

(** ** The vocabulary of the specification, over the embedding *)

Module Spec.

Import auth_manager email_notifier app.

(** [Session.kind], read off the two flags of the session state. *)
Inductive session_kind := Unauthenticated | Temporary | Full.

Definition kind (st : session_state) : session_kind :=
  if is_authenticated st
  then if is_temp_session st then Temporary else Full
  else Unauthenticated.

(** [identity = null]: no email, no name, no role. *)
Definition identity_null (st : session_state) : Prop :=
  get_or_none (user_email (auth st)) = PyNone /\
  get_or_none (user_name (auth st)) = PyNone /\
  get_or_none (user_role (auth st)) = PyNone.

(** [identity ≠ null]: an email, a name and a role. *)
Definition identity_set (st : session_state) : Prop :=
  get_or_none (user_email (auth st)) <> PyNone /\
  get_or_none (user_name (auth st)) <> PyNone /\
  get_or_none (user_role (auth st)) <> PyNone.

Definition session_inv (st : session_state) : Prop :=
  (kind st = Unauthenticated /\ identity_null st) \/
  (kind st <> Unauthenticated /\ identity_set st).

(** The operations of the session store. *)
Inductive session_op :=
| Initialize
| Login (now : datetime) (email pass : string)
| StartTemporarySession (now : datetime) (email : string)
| Logout.

Definition apply_op (users : gmap string user_entry) (st : session_state)
    (op : session_op) : session_state :=
  match op with
  | Initialize => initialize_auth_session st
  | Login now email pass => snd (authenticate_user users now email pass st)
  | StartTemporarySession now email => create_temp_session now email st
  | Logout => logout_user st
  end.

(** [riskCounts[level]]: how many records carry the level. *)
Fixpoint riskCount (level : string) (records : list ClauseRecord) : nat :=
  match records with
  | [] => 0
  | r :: rest =>
      if string_dec (risk_level r) level then S (riskCount level rest)
      else riskCount level rest
  end.

(** [m > 0.5 * t] over the rationals. *)
Definition more_than_half (m t : nat) : Prop :=
  ((1 # 2) * inject_Z (Z.of_nat t) < inject_Z (Z.of_nat m))%Q.

(** The metrics a report is composed from. *)
Record metrics := {
  totalClauses : nat;
  highRiskCount : nat;
  mediumRiskCount : nat;
  lowRiskCount : nat
}.

Definition metrics_of (results : pyopt (list ClauseRecord)) : metrics :=
  let records := match results with PyNone => [] | PySome rs => rs end in
  {| totalClauses := length records;
     highRiskCount := riskCount "High" records;
     mediumRiskCount := riskCount "Medium" records;
     lowRiskCount := riskCount "Low" records |}.

(** The risk-percent parse in the words of the specification: strip the
    surrounding white space and a trailing [%], convert what is left. *)
Fixpoint strip_trailing_percent (s : string) : string :=
  match s with
  | EmptyString => EmptyString
  | String c EmptyString => if Ascii.eqb c "%" then EmptyString else s
  | String c s' => String c (strip_trailing_percent s')
  end.

Definition risk_value_of_spec (py : Interpreter) (r : ClauseRecord) : option float :=
  PyFloat.of_string py
    (PyStr.strip (strip_trailing_percent (PyStr.strip (risk_percent r)))).

(** The mean in the words of the specification: the values added up, one
    after the other, and divided by their number. *)
Definition mean_of_spec (xs : list float) : float :=
  (fold_left PrimFloat.add xs (PyFloat.of_Z 0) / PyFloat.of_Z (Z.of_nat (length xs)))%float.

Definition avg_risk_of_spec (py : Interpreter) (records : list ClauseRecord) : pynum :=
  match omap (risk_value_of_spec py) records with
  | [] => PInt 0
  | xs => PFloat (mean_of_spec xs)
  end.

(** A string of decimal digits of ASCII. *)
Fixpoint all_digits (s : string) : bool :=
  match s with
  | EmptyString => true
  | String c s' => PyFloat.isdigit c && all_digits s'
  end.

(** Whole numbers: their total, the total of their magnitudes, and their
    mean, which is the exact total divided by their number and rounded once
    to binary64. *)
Definition whole_total (ks : list Z) : Z := fold_right Z.add 0%Z ks.

Definition whole_magnitude (ks : list Z) : Z :=
  fold_right (fun k a => (Z.abs k + a)%Z) 0%Z ks.

Definition whole_mean (ks : list Z) : float :=
  (PyFloat.of_Z (whole_total ks) / PyFloat.of_Z (Z.of_nat (length ks)))%float.

(** The binary64 representation of a whole number of magnitude below 2^53:
    the mantissa is shifted to 53 bits. *)
Definition binary64_of_positive (s : bool) (c : positive) : spec_float :=
  let d := Zpos (digits2_pos c) in
  S754_finite s (Z.to_pos (Zpos c * 2 ^ (53 - d))%Z) (d - 53)%Z.

Definition binary64_of_Z (z : Z) : spec_float :=
  match z with
  | Z0 => S754_zero false
  | Zpos p => binary64_of_positive false p
  | Zneg p => binary64_of_positive true p
  end.

(** A record with a given risk level and risk percent, its other fields
    empty. *)
Definition record (level percent : string) : ClauseRecord :=
  {| clause_id := EmptyString; clause := EmptyString; risk_level := level;
     risk_percent := percent; regulation := EmptyString; summary := EmptyString;
     key_clauses := EmptyString; ai_modified_clause := EmptyString;
     ai_modified_risk_level := EmptyString |}.

(** [status = Complete]: the flag the upload block tests. *)
Definition complete (st : session_state) : bool :=
  default false (analysis_complete (run st)).

(** A sequence of runs in which "Analyze Another Contract" is never
    clicked: the run is not reset. *)
Definition no_reset (inputs : list (world * widgets)) : Prop :=
  Forall (fun i => another_button (snd i) = false) inputs.

(** Every message handed to the transport, by either call site. *)
Definition transport_calls (ev : list event) : list Email :=
  omap (fun e => match e with
                 | SendAnalysis m | SendTest m => Some m
                 | _ => None
                 end) ev.

(** The colour, the icon and the text of the status banner of the report,
    by verdict. *)
Definition status_fields (v : Recommendation) : list string :=
  match v with
  | Reject => ["#ef4444"; "🚨"; "HIGH RISK"]
  | ReviewRecommended => ["#f59e0b"; "⚠️"; "MODERATE"]
  | Acceptable => ["#10b981"; "✅"; "LOW RISK"]
  end.

(** The three levels the code counts. *)
Definition known_level (r : ClauseRecord) : Prop :=
  risk_level r = "High" \/ risk_level r = "Medium" \/ risk_level r = "Low".

(** The fallback list of recipients. *)
Definition fallback_recipients : list string :=
  ["admin@company.com"; "compliance@company.com"; "legal@company.com"].

End Spec.

(** ** Reasoning about script runs *)

(** [post c st Q]: the run of [c] from [st] ends in an outcome, a state and
    events that satisfy [Q]. *)
Definition post {A} (c : script A) (st : session_state)
    (Q : outcome A -> session_state -> list event -> Prop) : Prop :=
  Q (outcome_of (c st)) (state_of (c st)) (events_of (c st)).

(** A part of the page that calls no analysis notification and leaves the
    keys of the run alone. *)
Definition quiet {A} (st : session_state)
    : outcome A -> session_state -> list event -> Prop :=
  fun _ st' ev => app.analysis_sends ev = [] /\ run st' = run st.

(** [st'] has the authentication keys, the completion flag and the results
    of [st]. *)
Definition keeps (st st' : session_state) : Prop :=
  auth st' = auth st /\
  analysis_complete (run st') = analysis_complete (run st) /\
  analysis_results (run st') = analysis_results (run st).

(** What every block of the page keeps, from the state [st] it starts in to
    its outcome [o], final state [st'] and events [ev]: a block that goes on
    leaves the kind of the session alone; a signed-in session can only stay
    what it is or be logged out; nothing reaches the transport unless the
    session is Full and the notifier enabled; [email_sent] is not set without
    an analysis notification; the "show rewrites" toggle stays on. *)
Definition block_keeps {A} (notifier : email_notifier.EmailNotifier)
    (st : session_state) (o : outcome A) (st' : session_state)
    (ev : list event) : Prop :=
  (o <> Rerun -> Spec.kind st' = Spec.kind st) /\
  (Spec.kind st <> Spec.Unauthenticated ->
     Spec.kind st' = Spec.kind st \/ Spec.kind st' = Spec.Unauthenticated) /\
  (Spec.kind st <> Spec.Full \/ email_notifier.enabled notifier = false ->
     Spec.transport_calls ev = []) /\
  (email_sent (run st') = Some true ->
     email_sent (run st) = Some true \/ app.analysis_sends ev <> []) /\
  (show_rewrites (run st) = Some true -> show_rewrites (run st') = Some true).

(** ** Sample data *)

Module Sample.

Import auth_manager email_notifier app Spec.

Definition t0 : datetime :=
  {| year := 2025; mon := Mar; day := 7; hour := 14; minute := 5;
     second := 30; microsecond := 0 |}.

Definition environ : gmap string string :=
  <["EMAIL_USER" := "bot@company.com"]> (<["EMAIL_PASSWORD" := "secret"]> ∅).

Definition users : gmap string user_entry := VALID_USERS environ.

(** The notifier with its credentials set and the SMTP client built. *)
Definition notifier : EmailNotifier := init environ true.

Definition fresh_session : session_state :=
  initialize_session_state empty_session.

Definition full_session : session_state :=
  snd (authenticate_user users t0 "admin@company.com" "admin123" fresh_session).

Definition guest_session : session_state :=
  create_temp_session t0 "guest@example.com" fresh_session.

Definition results : list ClauseRecord :=
  [record "Low" "10%"; record "Medium" "55%"].

(** A transport that delivers, and one that raises. *)
Definition delivers : Email -> option string := fun _ => None.
Definition raises : Email -> option string :=
  fun _ => Some "SMTPServerDisconnected".

Definition world_with (transport : Email -> option string) : world :=
  {| now_login := t0; now_temp := t0; now_test := t0;
     now_body := t0; now_footer := t0;
     analyze_contract_file := AnalyzerReturns (PySome results);
     yag_send := transport |}.

Definition no_login : login_widgets :=
  {| login_email := EmptyString; login_password := EmptyString;
     login_submit := false; temp_email := EmptyString; temp_submit := false |}.

(** A redraw: nothing clicked. *)
Definition redraw : widgets :=
  {| login := no_login; logout_button := false; test_email_button := false;
     uploaded_file := None; submit_button := false;
     show_rewrites_button := false; another_button := false |}.

(** A file is uploaded and "Submit for Analysis" is clicked. *)
Definition submit : widgets :=
  {| login := no_login; logout_button := false; test_email_button := false;
     uploaded_file := Some "contract.pdf"; submit_button := true;
     show_rewrites_button := false; another_button := false |}.

End Sample.

(** ** Further scenarios *)

Module Scenario.

Import auth_manager email_notifier app Spec.

(** U+00A0, the no-break space, which is white space, and U+200B, the
    zero-width space, which is not, in UTF-8. *)
Definition nbsp : string :=
  String (ascii_of_nat 194) (String (ascii_of_nat 160) EmptyString).

Definition zwsp : string :=
  String (ascii_of_nat 226)
    (String (ascii_of_nat 128) (String (ascii_of_nat 139) EmptyString)).

(** A transport that raises on the messages whose subject asks for a review
    and takes every other one. *)
Definition refuses_reviews : Email -> option string :=
  fun m => if PyStr.isin "Review" (subject m) then Some "SMTPDataError" else None.

(** The analyzer finds one clause, of low risk; the transport is the one
    above. *)
Definition low_risk : world :=
  {| now_login := Sample.t0; now_temp := Sample.t0; now_test := Sample.t0;
     now_body := Sample.t0; now_footer := Sample.t0;
     analyze_contract_file := AnalyzerReturns (PySome [record "Low" "5%"]);
     yag_send := refuses_reviews |}.

(** An environment whose entry takes the administrator's email. *)
Definition override : gmap string string :=
  <["AUTH_USER" := "admin@company.com"]> (<["AUTH_PASSWORD" := "s3cret"]> ∅).

(** A notifier built without credentials. *)
Definition unconfigured : EmailNotifier := init ∅ true.

(** The analysis of [Sample.results], submitted in [Sample.full_session] and
    delivered. *)
Definition analysed : session_state :=
  state_of (main Sample.users Sample.notifier (Sample.world_with Sample.delivers)
              Sample.submit Sample.full_session).

(** The analyzer raises. *)
Definition failing_analyzer : world :=
  {| now_login := Sample.t0; now_temp := Sample.t0; now_test := Sample.t0;
     now_body := Sample.t0; now_footer := Sample.t0;
     analyze_contract_file := AnalyzerRaises "unreadable file";
     yag_send := Sample.delivers |}.

(** A file is submitted and "Send Test Email" is clicked in the same run. *)
Definition submit_and_test : widgets :=
  {| login := Sample.no_login; logout_button := false; test_email_button := true;
     uploaded_file := Some "contract.pdf"; submit_button := true;
     show_rewrites_button := false; another_button := false |}.

(** "Logout" is clicked, with a file submitted in the same run. *)
Definition logout : widgets :=
  {| login := Sample.no_login; logout_button := true; test_email_button := true;
     uploaded_file := Some "contract.pdf"; submit_button := true;
     show_rewrites_button := false; another_button := false |}.

(** "Analyze Another Contract" is clicked. *)
Definition another : widgets :=
  {| login := Sample.no_login; logout_button := false; test_email_button := false;
     uploaded_file := None; submit_button := false;
     show_rewrites_button := false; another_button := true |}.

End Scenario.

(** * Properties *)

Import auth_manager email_notifier app Spec.

(** ** The notification gate *)

Section Gate.

Variable self : EmailNotifier.
Variable yag_send : Email -> option string.
Variables now_body now_footer : datetime.
Variable contract_name : string.

Lemma check_user_session_full st :
  _check_user_session st = true <-> kind st = Full.
Proof.
  unfold _check_user_session, kind, is_authenticated, is_temp_session.
  destruct (default false (authenticated (auth st))),
           (default false (temp_session (auth st))); simpl; split; congruence.
Qed.

(** C2: in a session that is not Full (Unauthenticated or Temporary),
    whatever the run holds, [send_analysis_notification] returns [False] and
    hands nothing to the transport. *)
Theorem blocked_session_never_notifies st analysis_results :
  kind st <> Full ->
  send_analysis_notification self yag_send st now_body now_footer
    analysis_results contract_name = (false, []).
Proof.
  intros Hkind. unfold send_analysis_notification.
  destruct (enabled self); [simpl | reflexivity].
  destruct (_check_user_session st) eqn:Hs; [ | reflexivity].
  apply check_user_session_full in Hs. contradiction.
Qed.

Lemma generate_analysis_summary_empty st analysis_results :
  results_truthy analysis_results = false ->
  generate_analysis_summary st now_body now_footer analysis_results contract_name = None.
Proof.
  destruct analysis_results as [ | [ | r rs]]; simpl; [reflexivity | reflexivity | discriminate].
Qed.

(** C10: in every session state, an eligible Full one with the transport
    enabled included, [send_analysis_notification] on [None] or on the empty
    list returns [False] and hands nothing to the transport: the report
    generator gives [None] for an empty run. *)
Theorem empty_run_never_notifies st :
  generate_analysis_summary st now_body now_footer PyNone contract_name = None /\
  generate_analysis_summary st now_body now_footer (PySome []) contract_name = None /\
  send_analysis_notification self yag_send st now_body now_footer PyNone contract_name
    = (false, []) /\
  send_analysis_notification self yag_send st now_body now_footer (PySome []) contract_name
    = (false, []).
Proof.
  unfold send_analysis_notification.
  rewrite !generate_analysis_summary_empty by reflexivity.
  repeat split; destruct (enabled self), (_check_user_session st); reflexivity.
Qed.

End Gate.

(** ** The session store *)

Section Session.

Variable users : gmap string user_entry.

Lemma initialize_keeps_reads st :
  let st' := initialize_auth_session st in
  is_authenticated st' = is_authenticated st /\
  is_temp_session st' = is_temp_session st /\
  get_or_none (user_email (auth st')) = get_or_none (user_email (auth st)) /\
  get_or_none (user_name (auth st')) = get_or_none (user_name (auth st)) /\
  get_or_none (user_role (auth st')) = get_or_none (user_role (auth st)).
Proof.
  destruct st as [[a t e n r l] rn]; unfold is_authenticated, is_temp_session; simpl.
  destruct a, t, e, n, r; simpl; repeat split; reflexivity.
Qed.

Lemma initialize_preserves_inv st :
  session_inv st -> session_inv (initialize_auth_session st).
Proof.
  pose proof (initialize_keeps_reads st) as (Ha & Ht & He & Hn & Hr).
  unfold session_inv, kind, identity_null, identity_set.
  rewrite Ha, Ht, He, Hn, Hr. tauto.
Qed.

Lemma login_preserves_inv now email pass st :
  session_inv st -> session_inv (snd (authenticate_user users now email pass st)).
Proof.
  intros Hinv. unfold authenticate_user.
  destruct (users !! email) as [u | ]; [ | exact Hinv].
  destruct (String.eqb (password u) pass); [ | exact Hinv].
  right. unfold kind, identity_set; simpl. repeat split; discriminate.
Qed.

Lemma temp_session_establishes_inv now email st :
  session_inv (create_temp_session now email st).
Proof.
  right. unfold kind, identity_set; simpl. repeat split; discriminate.
Qed.

Lemma logout_establishes_inv st : session_inv (logout_user st).
Proof.
  left. unfold kind, identity_null; simpl. repeat split; reflexivity.
Qed.

Lemma apply_op_preserves_inv st op :
  session_inv st -> session_inv (apply_op users st op).
Proof.
  destruct op; simpl; intros Hinv.
  - apply initialize_preserves_inv, Hinv.
  - apply login_preserves_inv, Hinv.
  - apply temp_session_establishes_inv.
  - apply logout_establishes_inv.
Qed.

Lemma empty_session_inv : session_inv empty_session.
Proof. left. unfold kind, identity_null; simpl. repeat split; reflexivity. Qed.

Lemma reachable_inv ops :
  session_inv (fold_left (apply_op users) ops empty_session).
Proof.
  generalize empty_session_inv. generalize empty_session.
  induction ops as [ | op ops IH]; simpl; intros st Hinv; [exact Hinv | ].
  apply IH, apply_op_preserves_inv, Hinv.
Qed.

Lemma inv_unauthenticated_iff st :
  session_inv st ->
  (kind st = Unauthenticated <-> identity_null st) /\
  (kind st <> Unauthenticated <-> identity_set st).
Proof.
  unfold identity_null, identity_set.
  intros [[Hk (He & Hn & Hr)] | [Hk (He & Hn & Hr)]]; repeat split; tauto.
Qed.

(** C3: the session invariant.  It holds of a fresh session, every
    operation (initialize, login, start-temporary-session, logout) keeps it,
    and so after any sequence of operations the kind is Unauthenticated
    exactly when email, name and role are null, and is another kind exactly
    when all three are there. *)
Theorem session_invariant :
  session_inv empty_session /\
  (forall st op, session_inv st -> session_inv (apply_op users st op)) /\
  (forall ops,
     let st := fold_left (apply_op users) ops empty_session in
     (kind st = Unauthenticated <-> identity_null st) /\
     (kind st <> Unauthenticated <-> identity_set st)).
Proof.
  split; [exact empty_session_inv | ].
  split; [exact apply_op_preserves_inv | ].
  intros ops st. apply inv_unauthenticated_iff, reachable_inv.
Qed.

End Session.

Section TemporarySession.

Variable now : datetime.

Lemma contains_In c s : PyStr.contains c s = true <-> In c (list_ascii_of_string s).
Proof.
  induction s as [ | d s IH]; simpl; [split; [discriminate | tauto] | ].
  rewrite orb_true_iff, IH, Ascii.eqb_eq. tauto.
Qed.

Lemma truthy_nonempty s : PyStr.truthy s = true <-> s <> EmptyString.
Proof. destruct s; simpl; split; congruence. Qed.

(** C6: submitting the quick-access form starts a temporary session exactly
    when the email is non-empty and contains ["@"].  Then the kind becomes
    Temporary, with the email, the name ["Guest (" + email + ")"] and the role
    [Guest]; otherwise the form shows its validation error and the session
    state is what it was. *)
Theorem start_temporary_session email st :
  let r := temp_form now email true st in
  let valid := email <> EmptyString /\ In "@"%char (list_ascii_of_string email) in
  (valid ->
     outcome_of r = Rerun /\
     events_of r = [Success ("✅ Session created for " +:+ email)] /\
     kind (state_of r) = Temporary /\
     user_email (auth (state_of r)) = Some (PySome email) /\
     user_name (auth (state_of r)) = Some (PySome ("Guest (" +:+ email +:+ ")")) /\
     user_role (auth (state_of r)) = Some (PySome "Guest") /\
     login_time (auth (state_of r)) = Some (PySome now) /\
     run (state_of r) = run st) /\
  (~ valid ->
     outcome_of r = Done tt /\
     events_of r = [Error "⚠️ Please enter valid email"] /\
     state_of r = st).
Proof.
  intros r valid. subst r valid. unfold temp_form.
  rewrite <- truthy_nonempty, <- contains_In.
  destruct (PyStr.truthy email), (PyStr.contains "@" email); simpl.
  - split; [intros _; repeat split | intros H; exfalso; apply H; split; reflexivity].
  - split; [intros [_ H]; discriminate | intros _; repeat split].
  - split; [intros [H _]; discriminate | intros _; repeat split].
  - split; [intros [H _]; discriminate | intros _; repeat split].
Qed.

End TemporarySession.

(** ** The recommendation *)

Lemma of_level_length level records :
  length (of_level level records) = riskCount level records.
Proof.
  induction records as [ | r rs IH]; simpl; [reflexivity | ].
  destruct (string_dec (risk_level r) level) as [E | E].
  - apply String.eqb_eq in E. rewrite E. simpl. f_equal. exact IH.
  - apply String.eqb_neq in E. rewrite E. exact IH.
Qed.

Lemma gt_half_more_than_half m t : gt_half m t = true <-> more_than_half m t.
Proof.
  unfold gt_half, more_than_half, Qlt. simpl.
  rewrite Nat.ltb_lt. lia.
Qed.

Lemma riskCount_pos level records :
  (exists r, In r records /\ risk_level r = level) -> 0 < riskCount level records.
Proof.
  intros (r & Hin & Hl). induction records as [ | r' rs IH]; simpl in *; [contradiction | ].
  destruct (string_dec (risk_level r') level) as [E | E]; [lia | ].
  destruct Hin as [-> | Hin]; [contradiction | auto].
Qed.

Lemma recommendation_by_counts records :
  recommendation records =
  if (0 <? riskCount "High" records)%nat then Reject
  else if gt_half (riskCount "Medium" records) (length records) then ReviewRecommended
  else Acceptable.
Proof.
  unfold recommendation. rewrite <- !of_level_length.
  destruct (of_level "High" records); reflexivity.
Qed.

(** C4: the recommendation follows the precedence Reject, then
    ReviewRecommended, then Acceptable: Reject when the count of High records
    is positive; otherwise ReviewRecommended when the count of Medium records
    exceeds half the number of records; otherwise Acceptable.  So one High
    record is enough for Reject, whatever the share of Medium ones, and the
    empty list is Acceptable. *)
Theorem recommendation_precedence records :
  let high := riskCount "High" records in
  let medium := riskCount "Medium" records in
  let total := length records in
  (0 < high -> recommendation records = Reject) /\
  (high = 0 -> more_than_half medium total ->
     recommendation records = ReviewRecommended) /\
  (high = 0 -> ~ more_than_half medium total ->
     recommendation records = Acceptable) /\
  ((exists r, In r records /\ risk_level r = "High") ->
     recommendation records = Reject) /\
  recommendation [] = Acceptable.
Proof.
  intros high medium total. subst high medium total.
  rewrite recommendation_by_counts.
  repeat split.
  - intros H. apply Nat.ltb_lt in H. rewrite H. reflexivity.
  - intros -> H. apply gt_half_more_than_half in H. rewrite H. reflexivity.
  - intros -> H. simpl.
    destruct (gt_half _ _) eqn:E; [ | reflexivity].
    apply gt_half_more_than_half in E. contradiction.
  - intros H. apply riskCount_pos, Nat.ltb_lt in H. rewrite H. reflexivity.
Qed.

(** ** The recipients *)

Lemma recipients_without_override environ :
  environ !! "NOTIFICATION_EMAILS" = None \/
  environ !! "NOTIFICATION_EMAILS" = Some EmptyString ->
  _get_notification_emails environ = fallback_recipients.
Proof.
  unfold _get_notification_emails. intros [-> | ->]; reflexivity.
Qed.

(** C9: with the override [NOTIFICATION_EMAILS=" , "] (separators and
    blanks only) the resolved recipient list is empty: the fallback is chosen
    on the raw string, before the blank entries are dropped.  Without an
    override, or with an empty one, the list is the fallback; with entries,
    it is the entries. *)
Theorem blank_override_gives_no_recipients :
  _get_notification_emails (<["NOTIFICATION_EMAILS" := " , "]> ∅) = [] /\
  _get_notification_emails ∅ = fallback_recipients /\
  _get_notification_emails (<["NOTIFICATION_EMAILS" := EmptyString]> ∅) = fallback_recipients /\
  _get_notification_emails (<["NOTIFICATION_EMAILS" := " a@x.org ,, b@y.org "]> ∅)
    = ["a@x.org"; "b@y.org"].
Proof. repeat split; vm_compute; reflexivity. Qed.

(** ** The average risk score *)

(** *** Whole numbers in binary64

    Additions and subtractions of whole numbers are exact as long as the
    results stay below 2^53 in magnitude. *)

Section WholeNumbers.

Local Open Scope Z_scope.

Lemma digits2_pos_size p : digits2_pos p = Pos.size p.
Proof. induction p; simpl; congruence. Qed.

Lemma digits2_log2 p : Zpos (digits2_pos p) = Z.log2 (Zpos p) + 1.
Proof.
  rewrite digits2_pos_size. destruct p; simpl; try reflexivity;
    rewrite Pos2Z.inj_succ; lia.
Qed.

Lemma digits2_shift (c M : positive) K :
  0 <= K -> Zpos M = Zpos c * 2 ^ K ->
  Zpos (digits2_pos M) = Zpos (digits2_pos c) + K.
Proof.
  intros HK HM. rewrite !digits2_log2, HM, Z.log2_mul_pow2 by lia. lia.
Qed.

Lemma digits2_bound p n :
  0 <= n -> Zpos p < 2 ^ n -> Zpos (digits2_pos p) <= n.
Proof.
  intros Hn Hp. rewrite digits2_log2.
  assert (Z.log2 (Zpos p) < n) by (apply Z.log2_lt_pow2; lia). lia.
Qed.

Lemma iter_xO m d : Zpos (Pos.iter xO m d) = Zpos m * 2 ^ Zpos d.
Proof.
  induction d as [ | d IH] using Pos.peano_ind.
  - simpl. lia.
  - rewrite Pos.iter_succ, Pos2Z.inj_succ, Z.pow_succ_r by lia.
    rewrite Pos2Z.inj_xO, IH. lia.
Qed.

Lemma iter_pos_iter {A} (f : A -> A) p x : SpecFloat.iter_pos f p x = Pos.iter f x p.
Proof.
  revert x. induction p as [p IH | p IH | ]; intros x; simpl.
  - rewrite !IH, <- !Pos.iter_swap. reflexivity.
  - rewrite !IH. reflexivity.
  - reflexivity.
Qed.

Lemma shr_exact d x :
  SpecFloat.iter_pos shr_1 d
    {| shr_m := Zpos (Pos.iter xO x d); shr_r := false; shr_s := false |} =
  {| shr_m := Zpos x; shr_r := false; shr_s := false |}.
Proof.
  rewrite iter_pos_iter. induction d as [ | d IH] using Pos.peano_ind.
  - reflexivity.
  - rewrite !Pos.iter_succ. rewrite <- Pos.iter_swap. simpl shr_1. exact IH.
Qed.

Lemma fexp_small d : 1 <= d -> fexp prec emax d = d - 53.
Proof. intros H. unfold fexp, SpecFloat.emin, prec, emax. lia. Qed.

(** Rounding a mantissa that is already in place leaves it alone. *)
Lemma binary_round_aux_exact s m e m' e' :
  shr_fexp prec emax m e loc_Exact =
    ({| shr_m := Zpos m'; shr_r := false; shr_s := false |}, e') ->
  Zpos (digits2_pos m') = 53 ->
  -52 <= e' <= 0 ->
  binary_round_aux prec emax s m e loc_Exact = S754_finite s m' e'.
Proof.
  intros Hs Hd He. unfold binary_round_aux. rewrite Hs.
  cbn [shr_m loc_of_shr_record round_nearest_even].
  unfold shr_fexp. cbn [Zdigits2 shr_record_of_loc]. rewrite Hd.
  rewrite fexp_small by lia.
  replace (53 + e' - 53 - e') with 0 by lia. cbn [shr shr_m].
  unfold prec, emax. destruct (Z.leb_spec e' (1024 - 53)); [reflexivity | lia].
Qed.

(** Rounding [c * 2 ^ K], held with the exponent [- K], gives the
    representation of [c]. *)
Lemma round_exact s (M c : positive) K :
  0 <= K -> Zpos M = Zpos c * 2 ^ K -> Zpos c < 2 ^ 53 ->
  binary_round prec emax s M (- K) = binary64_of_positive s c.
Proof.
  intros HK HM Hc.
  pose proof (digits2_shift c M K HK HM) as HdM.
  pose proof (digits2_bound c 53 ltac:(lia) Hc) as Hdc.
  assert (Hdc1 : 1 <= Zpos (digits2_pos c)) by lia.
  set (dc := Zpos (digits2_pos c)) in *.
  assert (Hm' : 0 < Zpos c * 2 ^ (53 - dc))
    by (apply Z.mul_pos_pos; [lia | apply Z.pow_pos_nonneg; lia]).
  assert (Hd' : forall q, Zpos q = Zpos c * 2 ^ (53 - dc) -> Zpos (digits2_pos q) = 53).
  { intros q Hq. rewrite (digits2_shift c q (53 - dc)) by (lia || exact Hq). fold dc. lia. }
  assert (Hq' : forall q, Zpos q = Zpos c * 2 ^ (53 - dc) ->
                          q = Z.to_pos (Zpos c * 2 ^ (53 - dc))).
  { intros q Hq. rewrite <- Hq. reflexivity. }
  unfold binary64_of_positive. fold dc.
  unfold binary_round. rewrite HdM. fold dc.
  replace (dc + K + - K) with dc by lia. rewrite fexp_small by lia.
  unfold shl_align.
  destruct (dc - 53 - - K) as [ | n | n] eqn:En.
  - (* the mantissa has its 53 bits *)
    assert (HMq : Zpos M = Zpos c * 2 ^ (53 - dc)) by (rewrite HM; f_equal; f_equal; lia).
    rewrite (binary_round_aux_exact s (Zpos M) (- K) M (- K)).
    + rewrite (Hq' M HMq). f_equal. lia.
    + unfold shr_fexp. cbn [Zdigits2 shr_record_of_loc]. rewrite HdM. fold dc.
      replace (dc + K + - K) with dc by lia. rewrite fexp_small by lia.
      rewrite En. reflexivity.
    + apply Hd'. exact HMq.
    + lia.
  - (* more bits: shifted right, nothing is lost *)
    assert (Hx : exists x, Zpos x = Zpos c * 2 ^ (53 - dc)).
    { exists (Z.to_pos (Zpos c * 2 ^ (53 - dc))). rewrite Z2Pos.id by lia. reflexivity. }
    destruct Hx as [x Hx].
    assert (HMx : M = Pos.iter xO x n).
    { apply Pos2Z.inj. rewrite iter_xO, Hx, HM, <- Z.mul_assoc, <- Z.pow_add_r by lia.
      f_equal. f_equal. lia. }
    rewrite (binary_round_aux_exact s (Zpos M) (- K) x (dc - 53)).
    + rewrite (Hq' x Hx). reflexivity.
    + unfold shr_fexp. cbn [Zdigits2 shr_record_of_loc]. rewrite HdM. fold dc.
      replace (dc + K + - K) with dc by lia. rewrite fexp_small by lia.
      rewrite En. cbn [shr]. rewrite HMx, shr_exact. f_equal. lia.
    + apply Hd'. exact Hx.
    + lia.
  - (* fewer bits: shifted left *)
    assert (Hx : Zpos (Pos.iter xO M n) = Zpos c * 2 ^ (53 - dc)).
    { rewrite iter_xO, HM, <- Z.mul_assoc, <- Z.pow_add_r by lia. f_equal. f_equal. lia. }
    rewrite (binary_round_aux_exact s (Zpos (Pos.iter xO M n)) (dc - 53)
               (Pos.iter xO M n) (dc - 53)).
    + rewrite (Hq' _ Hx). reflexivity.
    + unfold shr_fexp. cbn [Zdigits2 shr_record_of_loc]. rewrite (Hd' _ Hx).
      rewrite fexp_small by lia.
      replace (53 + (dc - 53) - 53 - (dc - 53)) with 0 by lia. reflexivity.
    + apply Hd'. exact Hx.
    + lia.
Qed.

Lemma binary64_of_positive_valid s c :
  Zpos c < 2 ^ 53 -> valid_binary (binary64_of_positive s c) = true.
Proof.
  intros Hc.
  pose proof (digits2_bound c 53 ltac:(lia) Hc) as Hdc.
  assert (Hdc1 : 1 <= Zpos (digits2_pos c)) by lia.
  unfold binary64_of_positive, SpecFloat.valid_binary, bounded, canonical_mantissa.
  set (dc := Zpos (digits2_pos c)) in *.
  assert (Hm' : 0 < Zpos c * 2 ^ (53 - dc))
    by (apply Z.mul_pos_pos; [lia | apply Z.pow_pos_nonneg; lia]).
  rewrite (digits2_shift c (Z.to_pos (Zpos c * 2 ^ (53 - dc))) (53 - dc))
    by (lia || (rewrite Z2Pos.id by lia; reflexivity)).
  fold dc. replace (dc + (53 - dc) + (dc - 53)) with dc by lia.
  rewrite fexp_small by lia. rewrite Z.eqb_refl. cbn [andb].
  unfold prec, emax. apply Z.leb_le. lia.
Qed.

Lemma Prim2SF_of_Z z :
  Z.abs z < 2 ^ 53 -> Prim2SF (PyFloat.of_Z z) = binary64_of_Z z.
Proof.
  intros Hz. unfold PyFloat.of_Z, PyFloat.of_decimal.
  destruct z as [ | p | p]; cbn [Z.ltb Z.compare binary64_of_Z].
  - reflexivity.
  - change (Z.abs (Zpos p)) with (Zpos p) in *. cbv iota.
    cbn [Z.leb Z.compare]. change (10 ^ 0) with 1. rewrite Z.mul_1_r. cbn [Z.to_pos].
    rewrite (round_exact false p p 0 ltac:(lia) ltac:(lia) Hz
             : binary_round prec emax false p 0 = _).
    apply Prim2SF_SF2Prim, binary64_of_positive_valid, Hz.
  - change (Z.abs (Zneg p)) with (Zpos p) in *. cbv iota.
    cbn [Z.leb Z.compare]. change (10 ^ 0) with 1. rewrite Z.mul_1_r. cbn [Z.to_pos].
    rewrite (round_exact true p p 0 ltac:(lia) ltac:(lia) Hz
             : binary_round prec emax true p 0 = _).
    apply Prim2SF_SF2Prim, binary64_of_positive_valid, Hz.
Qed.

Lemma normalize_exact v K :
  0 <= K -> Z.abs v < 2 ^ 53 ->
  binary_normalize prec emax (v * 2 ^ K) (- K) false = binary64_of_Z v.
Proof.
  intros HK Hv.
  assert (Hp : 0 < 2 ^ K) by (apply Z.pow_pos_nonneg; lia).
  destruct v as [ | p | p]; cbn [binary64_of_Z].
  - reflexivity.
  - destruct (Zpos p * 2 ^ K) as [ | M | M] eqn:EM; try lia.
    cbn [binary_normalize]. apply round_exact; [exact HK | symmetry; exact EM | exact Hv].
  - destruct (Zneg p * 2 ^ K) as [ | M | M] eqn:EM; try lia.
    cbn [binary_normalize]. apply round_exact; [exact HK | lia | exact Hv].
Qed.

Lemma shl_align_value (c : positive) ez :
  let d := Zpos (digits2_pos c) in
  Zpos c < 2 ^ 53 -> ez <= d - 53 ->
  Zpos (fst (shl_align (Z.to_pos (Zpos c * 2 ^ (53 - d))) (d - 53) ez))
  = Zpos c * 2 ^ (- ez).
Proof.
  intros d Hc He.
  pose proof (digits2_bound c 53 ltac:(lia) Hc) as Hdc. fold d in Hdc.
  assert (Hm' : 0 < Zpos c * 2 ^ (53 - d))
    by (apply Z.mul_pos_pos; [lia | apply Z.pow_pos_nonneg; lia]).
  unfold shl_align. destruct (ez - (d - 53)) as [ | n | n] eqn:En; cbn [fst]; try lia.
  - rewrite Z2Pos.id by lia. f_equal. f_equal. lia.
  - rewrite iter_xO, Z2Pos.id, <- Z.mul_assoc, <- Z.pow_add_r by lia. f_equal. f_equal. lia.
Qed.

Lemma cond_Zopp_mul s a b : cond_Zopp s (a * b) = cond_Zopp s a * b.
Proof. destruct s; simpl; lia. Qed.

(** The mantissas of two whole numbers, aligned and added with their signs,
    normalise to the representation of the sum. *)
Lemma binary64_plus sa sb (ca cb : positive) :
  Zpos ca < 2 ^ 53 -> Zpos cb < 2 ^ 53 ->
  Z.abs (cond_Zopp sa (Zpos ca) + cond_Zopp sb (Zpos cb)) < 2 ^ 53 ->
  let da := Zpos (digits2_pos ca) in
  let db := Zpos (digits2_pos cb) in
  let ez := Z.min (da - 53) (db - 53) in
  binary_normalize prec emax
    (cond_Zopp sa (Zpos (fst (shl_align (Z.to_pos (Zpos ca * 2 ^ (53 - da))) (da - 53) ez))) +
     cond_Zopp sb (Zpos (fst (shl_align (Z.to_pos (Zpos cb * 2 ^ (53 - db))) (db - 53) ez))))
    ez false
  = binary64_of_Z (cond_Zopp sa (Zpos ca) + cond_Zopp sb (Zpos cb)).
Proof.
  intros Ha Hb Hab da db ez.
  pose proof (digits2_bound ca 53 ltac:(lia) Ha) as Hda.
  pose proof (digits2_bound cb 53 ltac:(lia) Hb) as Hdb.
  subst da db.
  rewrite (shl_align_value ca ez Ha) by (unfold ez; lia).
  rewrite (shl_align_value cb ez Hb) by (unfold ez; lia).
  rewrite !cond_Zopp_mul, <- Z.mul_add_distr_r.
  replace ez with (- (- ez)) at 2 by lia.
  apply normalize_exact; [unfold ez; lia | exact Hab].
Qed.

Lemma SFadd_exact a b :
  Z.abs a < 2 ^ 53 -> Z.abs b < 2 ^ 53 -> Z.abs (a + b) < 2 ^ 53 ->
  SFadd prec emax (binary64_of_Z a) (binary64_of_Z b) = binary64_of_Z (a + b).
Proof.
  intros Ha Hb Hab.
  destruct a as [ | p | p], b as [ | q | q]; try reflexivity.
  - exact (binary64_plus false false p q Ha Hb Hab).
  - exact (binary64_plus false true p q Ha Hb Hab).
  - exact (binary64_plus true false p q Ha Hb Hab).
  - exact (binary64_plus true true p q Ha Hb Hab).
Qed.

Lemma SFsub_exact a b :
  Z.abs a < 2 ^ 53 -> Z.abs b < 2 ^ 53 -> Z.abs (a - b) < 2 ^ 53 ->
  SFsub prec emax (binary64_of_Z a) (binary64_of_Z b) = binary64_of_Z (a - b).
Proof.
  intros Ha Hb Hab.
  destruct a as [ | p | p], b as [ | q | q]; try reflexivity.
  - exact (binary64_plus false true p q Ha Hb Hab).
  - exact (binary64_plus false false p q Ha Hb Hab).
  - exact (binary64_plus true true p q Ha Hb Hab).
  - exact (binary64_plus true false p q Ha Hb Hab).
Qed.

Lemma add_exact a b :
  Z.abs a < 2 ^ 53 -> Z.abs b < 2 ^ 53 -> Z.abs (a + b) < 2 ^ 53 ->
  (PyFloat.of_Z a + PyFloat.of_Z b)%float = PyFloat.of_Z (a + b).
Proof.
  intros Ha Hb Hab. apply Prim2SF_inj.
  rewrite add_spec, !Prim2SF_of_Z by assumption. apply SFadd_exact; assumption.
Qed.

Lemma sub_exact a b :
  Z.abs a < 2 ^ 53 -> Z.abs b < 2 ^ 53 -> Z.abs (a - b) < 2 ^ 53 ->
  (PyFloat.of_Z a - PyFloat.of_Z b)%float = PyFloat.of_Z (a - b).
Proof.
  intros Ha Hb Hab. apply Prim2SF_inj.
  rewrite sub_spec, !Prim2SF_of_Z by assumption. apply SFsub_exact; assumption.
Qed.

Lemma whole_magnitude_nonneg ks : 0 <= whole_magnitude ks.
Proof. induction ks; simpl; lia. Qed.

Lemma whole_total_le_magnitude ks : Z.abs (whole_total ks) <= whole_magnitude ks.
Proof. induction ks; simpl; lia. Qed.

Lemma plain_sum_exact ks s :
  Z.abs s + whole_magnitude ks < 2 ^ 53 ->
  fold_left PrimFloat.add (map PyFloat.of_Z ks) (PyFloat.of_Z s)
  = PyFloat.of_Z (s + whole_total ks).
Proof.
  revert s. induction ks as [ | k ks IH]; intros s H;
    cbn [map fold_left whole_magnitude whole_total fold_right] in *.
  - f_equal. lia.
  - pose proof (whole_magnitude_nonneg ks). pose proof (whole_total_le_magnitude ks).
    fold (whole_magnitude ks) in H. fold (whole_total ks).
    rewrite add_exact by lia. rewrite IH by lia. f_equal. lia.
Qed.

(** On whole numbers the compensation term stays zero. *)
Lemma neumaier_exact s k :
  Z.abs s + Z.abs k < 2 ^ 53 ->
  PyFloat.neumaier (PyFloat.of_Z s, PyFloat.of_Z 0) (PyFloat.of_Z k)
  = (PyFloat.of_Z (s + k), PyFloat.of_Z 0).
Proof.
  intros H. unfold PyFloat.neumaier.
  rewrite (add_exact s k) by lia. f_equal.
  destruct (abs (PyFloat.of_Z k) <=? abs (PyFloat.of_Z s))%float.
  - rewrite (sub_exact s (s + k)), (add_exact (s - (s + k)) k) by lia.
    replace (s - (s + k) + k) with 0 by lia. apply (add_exact 0 0); simpl; lia.
  - rewrite (sub_exact k (s + k)), (add_exact (k - (s + k)) s) by lia.
    replace (k - (s + k) + s) with 0 by lia. apply (add_exact 0 0); simpl; lia.
Qed.

Lemma compensated_sum_exact ks s :
  Z.abs s + whole_magnitude ks < 2 ^ 53 ->
  fold_left PyFloat.neumaier (map PyFloat.of_Z ks) (PyFloat.of_Z s, PyFloat.of_Z 0)
  = (PyFloat.of_Z (s + whole_total ks), PyFloat.of_Z 0).
Proof.
  revert s. induction ks as [ | k ks IH]; intros s H;
    cbn [map fold_left whole_magnitude whole_total fold_right] in *.
  - do 2 f_equal. lia.
  - pose proof (whole_magnitude_nonneg ks). pose proof (whole_total_le_magnitude ks).
    fold (whole_magnitude ks) in H. fold (whole_total ks).
    rewrite neumaier_exact by lia. rewrite IH by lia. do 2 f_equal. lia.
Qed.

(** [sum] of whole numbers is their total, with either algorithm. *)
Lemma sum_exact py ks :
  ks <> [] -> whole_magnitude ks < 2 ^ 53 ->
  PyFloat.sum py (map PyFloat.of_Z ks) = PyFloat.of_Z (whole_total ks).
Proof.
  intros Hne H. destruct ks as [ | k ks]; [congruence | ].
  cbn [whole_magnitude whole_total fold_right] in *.
  fold (whole_magnitude ks) in H. fold (whole_total ks).
  pose proof (whole_magnitude_nonneg ks).
  unfold PyFloat.sum. cbn [map]. rewrite (add_exact 0 k) by (simpl; lia). cbn [Z.add].
  destruct (compensated_sum py).
  - rewrite compensated_sum_exact by lia. reflexivity.
  - apply plain_sum_exact. lia.
Qed.

End WholeNumbers.

(** *** The score *)

Lemma risk_percentages_omap py records acc :
  risk_percentages py records acc = acc ++ omap (risk_value py) records.
Proof.
  revert acc. induction records as [ | r rs IH]; intros acc; simpl.
  - symmetry. apply app_nil_r.
  - destruct (risk_value py r) as [v | ]; rewrite IH; [ | reflexivity].
    rewrite <- app_assoc. reflexivity.
Qed.

Lemma avg_risk_mean py records :
  records <> [] ->
  avg_risk py records =
  Some match omap (risk_value py) records with
       | [] => PInt 0
       | xs => PFloat (PyFloat.sum py xs / PyFloat.of_Z (Z.of_nat (length xs)))
       end.
Proof.
  intros Hne. unfold avg_risk. destruct records as [ | r rs]; [congruence | ].
  rewrite risk_percentages_omap. reflexivity.
Qed.

Lemma avg_risk_skips py before r after :
  before ++ after <> [] ->
  risk_value py r = None ->
  avg_risk py (before ++ r :: after) = avg_risk py (before ++ after).
Proof.
  intros Hne Hr. rewrite !avg_risk_mean by (try exact Hne; destruct before; discriminate).
  rewrite !omap_app. simpl. rewrite Hr. reflexivity.
Qed.

Lemma avg_risk_whole py records ks :
  ks <> [] ->
  omap (risk_value py) records = map PyFloat.of_Z ks ->
  (whole_magnitude ks < 2 ^ 53)%Z ->
  avg_risk py records = Some (PFloat (whole_mean ks)).
Proof.
  intros Hne Hks Hm.
  assert (Hr : records <> []).
  { intros ->. destruct ks; [congruence | discriminate]. }
  rewrite (avg_risk_mean py records Hr), Hks.
  unfold whole_mean. rewrite <- (sum_exact py ks Hne Hm), <- (length_map PyFloat.of_Z ks).
  destruct ks as [ | k ks]; [congruence | reflexivity].
Qed.

(** *** Whole numbers as they are written

    A risk percent written as a decimal numeral followed by [%] is read as
    the number it writes. *)

Lemma digits_uint d :
  forall acc k, (0 <= acc)%Z ->
  PyFloat.digits acc k (NilEmpty.string_of_uint d) =
  (Z.of_nat (Nat.of_uint_acc d (Z.to_nat acc)), (k + Decimal.nb_digits d)%nat, EmptyString).
Proof.
  induction d; intros acc k Hacc;
    cbn [NilEmpty.string_of_uint PyFloat.digits Decimal.nb_digits Nat.of_uint_acc].
  1: { rewrite Z2Nat.id by lia. f_equal. f_equal. lia. }
  all: match goal with
       | |- context [PyFloat.isdigit ?c] => change (PyFloat.isdigit c) with true
       end; cbv iota;
       match goal with
       | |- context [PyFloat.digit_val ?c] =>
           let v := eval vm_compute in (PyFloat.digit_val c) in
           change (PyFloat.digit_val c) with v
       end;
       rewrite IHd by lia; rewrite Nat.tail_mul_spec;
       apply f_equal2; [apply f_equal2; [do 2 f_equal; lia | lia] | reflexivity].
Qed.

Lemma digits_of_nat n :
  exists k, PyFloat.digits 0 0 (PyStr.of_nat n) = (Z.of_nat n, S k, EmptyString).
Proof.
  unfold PyStr.of_nat.
  pose proof (DecimalNat.Unsigned.of_to n) as Hn.
  destruct (Nat.to_uint n) as [ | d | d | d | d | d | d | d | d | d | d ] eqn:E.
  1: { exists 0%nat. rewrite <- Hn. reflexivity. }
  all: unfold NilZero.string_of_uint; rewrite digits_uint by lia;
    eexists; (apply f_equal2; [apply f_equal2; [rewrite <- Hn; reflexivity | simpl; reflexivity] | reflexivity]).
Qed.

Lemma all_digits_uint d : all_digits (NilEmpty.string_of_uint d) = true.
Proof. induction d; simpl; auto. Qed.

Lemma all_digits_of_nat n : all_digits (PyStr.of_nat n) = true.
Proof.
  unfold PyStr.of_nat, NilZero.string_of_uint.
  destruct (Nat.to_uint n); try reflexivity; apply all_digits_uint.
Qed.

Lemma of_nat_nonempty n : PyStr.of_nat n <> EmptyString.
Proof.
  pose proof (digits_of_nat n) as [k Hk]. intros E. rewrite E in Hk. discriminate.
Qed.

(** What a digit is not. *)
Lemma digit_facts c :
  PyFloat.isdigit c = true ->
  Ascii.eqb c "%" = false /\ Ascii.eqb c "_" = false /\
  PyStr.space (PyStr.char1 c) = false /\
  (forall d, PyStr.space (PyStr.char2 c d) = false) /\
  (forall d e, PyStr.space (PyStr.char3 c d e) = false) /\
  (PyStr.byte c <? 128)%N = true /\
  PyFloat.isspace c = false /\
  PyFloat.lower c = c /\
  Ascii.eqb c "-" = false /\ Ascii.eqb c "+" = false /\
  Ascii.eqb c "i" = false /\ Ascii.eqb c "n" = false.
Proof.
  destruct c as [[] [] [] [] [] [] [] []]; intros H; try discriminate H;
    repeat split; reflexivity.
Qed.

Section DigitStrings.

Variable s : string.
Hypothesis Hs : all_digits s = true.

Lemma replace_percent_digits : PyStr.replace "%" EmptyString (s +:+ "%") = s.
Proof.
  revert Hs. induction s as [ | c t IH]; [reflexivity | ].
  cbn [all_digits]. intros H. apply andb_true_iff in H. destruct H as [Hc Ht].
  destruct (digit_facts c Hc) as (E & _).
  simpl. rewrite E, (IH Ht). reflexivity.
Qed.

Lemma pystr_rstrip_digits : PyStr.rstrip s = s.
Proof.
  revert Hs. induction s as [ | c t IH]; [reflexivity | ].
  cbn [all_digits]. intros H. apply andb_true_iff in H. destruct H as [Hc Ht].
  destruct (digit_facts c Hc) as (_ & _ & E1 & E2 & E3 & _).
  change (PyStr.rstrip (String c t))
    with (if PyStr.space_char (String c (PyStr.rstrip t)) then EmptyString
          else String c (PyStr.rstrip t)).
  rewrite (IH Ht).
  destruct t as [ | d [ | e [ | f t']]]; cbn [PyStr.space_char];
    rewrite ?E1, ?E2, ?E3; reflexivity.
Qed.

Lemma pystr_lstrip_digits : PyStr.lstrip s = s.
Proof.
  revert Hs. destruct s as [ | c t]; [reflexivity | ].
  cbn [all_digits]. intros H. apply andb_true_iff in H. destruct H as [Hc Ht].
  destruct (digit_facts c Hc) as (_ & _ & E1 & E2 & E3 & _).
  cbn [PyStr.lstrip]. rewrite E1.
  destruct t as [ | d [ | e t']]; rewrite ?E2, ?E3; reflexivity.
Qed.

Lemma pystr_strip_digits : PyStr.strip s = s.
Proof. unfold PyStr.strip. rewrite pystr_rstrip_digits. apply pystr_lstrip_digits. Qed.

Lemma is_ascii_digits : PyFloat.is_ascii s = true.
Proof.
  revert Hs. induction s as [ | c t IH]; [reflexivity | ].
  cbn [all_digits]. intros H. apply andb_true_iff in H. destruct H as [Hc Ht].
  destruct (digit_facts c Hc) as (_ & _ & _ & _ & _ & E & _).
  cbn [PyFloat.is_ascii]. rewrite E, (IH Ht). reflexivity.
Qed.

Lemma drop_underscores_digits prev :
  (s = EmptyString -> Ascii.eqb prev "_" = false) ->
  PyFloat.drop_underscores prev s = Some s.
Proof.
  revert Hs prev. induction s as [ | c t IH]; intros H prev Hp.
  - cbn [PyFloat.drop_underscores]. rewrite (Hp eq_refl). reflexivity.
  - cbn [all_digits] in H. apply andb_true_iff in H. destruct H as [Hc Ht].
    destruct (digit_facts c Hc) as (_ & E & _).
    cbn [PyFloat.drop_underscores]. rewrite E, Hc, andb_false_r.
    rewrite (IH Ht c (fun _ => E)). reflexivity.
Qed.

Lemma float_rstrip_digits : PyFloat.rstrip s = s.
Proof.
  revert Hs. induction s as [ | c t IH]; [reflexivity | ].
  cbn [all_digits]. intros H. apply andb_true_iff in H. destruct H as [Hc Ht].
  destruct (digit_facts c Hc) as (_ & _ & _ & _ & _ & _ & E & _).
  cbn [PyFloat.rstrip]. rewrite (IH Ht), E. destruct t; reflexivity.
Qed.

Lemma float_lstrip_digits : PyFloat.lstrip s = s.
Proof.
  revert Hs. destruct s as [ | c t]; [reflexivity | ].
  cbn [all_digits]. intros H. apply andb_true_iff in H. destruct H as [Hc Ht].
  destruct (digit_facts c Hc) as (_ & _ & _ & _ & _ & _ & E & _).
  cbn [PyFloat.lstrip]. rewrite E. reflexivity.
Qed.

End DigitStrings.

(** [float] reads a decimal numeral as the number it writes. *)
Lemma of_string_of_nat py n :
  PyFloat.of_string py (PyStr.of_nat n) = Some (PyFloat.of_Z (Z.of_nat n)).
Proof.
  pose proof (all_digits_of_nat n) as Hd.
  pose proof (of_nat_nonempty n) as Hne.
  destruct (digits_of_nat n) as [k Hk].
  unfold PyFloat.of_string.
  rewrite (is_ascii_digits _ Hd).
  rewrite (drop_underscores_digits _ Hd) by (intros E; contradiction).
  rewrite (float_rstrip_digits _ Hd), (float_lstrip_digits _ Hd).
  revert Hd Hk. destruct (PyStr.of_nat n) as [ | c t]; [contradiction | ].
  cbn [all_digits]. intros H Hk. apply andb_true_iff in H. destruct H as [Hc Ht].
  destruct (digit_facts c Hc) as (_ & _ & _ & _ & _ & _ & _ & El & Em & Ep & Ei & En).
  assert (Hsign : (match String c t with
                   | String "-" r => (true, r)
                   | String "+" r => (false, r)
                   | _ => (false, String c t)
                   end) = (false, String c t)).
  { destruct c as [[] [] [] [] [] [] [] []]; try discriminate Hc; reflexivity. }
  rewrite Hsign. cbn [PyFloat.lower_str String.eqb]. rewrite El, Ei, En. cbn [orb andb].
  unfold PyFloat.literal. rewrite Hk. cbn [Nat.add].
  unfold PyFloat.of_Z. cbn [option_map].
  replace (Z.of_nat n <? 0)%Z with false by (symmetry; apply Z.ltb_ge; lia).
  rewrite Z.abs_eq by lia. reflexivity.
Qed.

Lemma risk_value_whole py r n :
  risk_percent r = PyStr.of_nat n +:+ "%" ->
  risk_value py r = Some (PyFloat.of_Z (Z.of_nat n)).
Proof.
  intros E. unfold risk_value. rewrite E.
  rewrite (replace_percent_digits _ (all_digits_of_nat n)).
  rewrite (pystr_strip_digits _ (all_digits_of_nat n)).
  apply of_string_of_nat.
Qed.

Lemma risk_values_whole py records ns :
  Forall2 (fun r n => risk_percent r = PyStr.of_nat n +:+ "%") records ns ->
  omap (risk_value py) records = map PyFloat.of_Z (map Z.of_nat ns).
Proof.
  induction 1 as [ | r n records ns Hr _ IH]; [reflexivity | ].
  cbn [omap map]. simpl. rewrite (risk_value_whole py r n Hr). simpl.
  f_equal. exact IH.
Qed.

Lemma whole_magnitude_of_nat ns :
  whole_magnitude (map Z.of_nat ns) = Z.of_nat (list_sum ns).
Proof. induction ns as [ | n ns IH]; simpl in *; [reflexivity | ]. rewrite IH. lia. Qed.

Lemma replace_removes c s :
  PyStr.replace c EmptyString s =
  string_of_list_ascii
    (List.filter (fun d => negb (Ascii.eqb d c)) (list_ascii_of_string s)).
Proof.
  induction s as [ | d s IH]; simpl; [reflexivity | ].
  destruct (Ascii.eqb d c); simpl; rewrite IH; reflexivity.
Qed.

(** The parse in the words of the specification does what its examples
    say. *)
Lemma spec_parse_examples py level :
  risk_value_of_spec py (record level "42%") = Some 42%float /\
  risk_value_of_spec py (record level " 7 % ") = Some 7%float /\
  risk_value_of_spec py (record level "abc") = None.
Proof. repeat split; vm_compute; reflexivity. Qed.

(** White space and digits outside ASCII: no-break spaces are stripped,
    fullwidth and Arabic-Indic digits are read, and a zero-width space, which
    is no white space, is in the way. *)
Lemma unicode_parse_examples level :
  risk_value cpython_3_11
    (record level (Scenario.nbsp +:+ "7" +:+ Scenario.nbsp +:+ "%" +:+ Scenario.nbsp))
    = Some 7%float /\
  risk_value cpython_3_11 (record level "４２%") = Some 42%float /\
  risk_value cpython_3_11 (record level "٣.٥") = Some 3.5%float /\
  risk_value cpython_3_11 (record level ("4" +:+ Scenario.zwsp +:+ "2")) = None /\
  risk_value cpython_3_11 (record level ("42" +:+ Scenario.zwsp)) = None.
Proof. repeat split; vm_compute; reflexivity. Qed.

(** Where the two algorithms of [sum] part: the plain sum loses the 1 next
    to 1e16, the compensated one keeps it. *)
Lemma sum_algorithms_differ :
  let records := [record "Low" "1e16%"; record "Low" "1%"; record "Low" "-1e16%"] in
  avg_risk cpython_3_11 records = Some (PFloat 0) /\
  avg_risk cpython_3_12 records = Some (PFloat (1 / 3)).
Proof. split; vm_compute; reflexivity. Qed.

(** C7, as stated, fails on a percent sign that is not trailing: the record
    ["4%2"] does not parse once only a trailing [%] is stripped, so the
    stated average of the one-record list is 0, while the dashboard removes
    the sign, reads 42 and shows the average 42. *)
Lemma inner_percent_sign_is_parsed :
  risk_value_of_spec cpython_3_11 (record "Low" "4%2") = None /\
  avg_risk_of_spec cpython_3_11 [record "Low" "4%2"] = PInt 0 /\
  avg_risk cpython_3_11 [record "Low" "4%2"] = Some (PFloat 42) /\
  avg_risk cpython_3_11 [record "Low" "4%2"]
    <> Some (avg_risk_of_spec cpython_3_11 [record "Low" "4%2"]).
Proof. repeat split; vm_compute; congruence. Qed.

(** C7, amended.  For the empty list the dashboard raises before it comes to
    the score.  For any other list, each record's risk percent is parsed by
    removing every [%] it contains, wherever it stands, stripping the
    surrounding white space and converting what is left with [float]; a
    record that does not parse counts neither in the sum nor in the number of
    values; the score is [sum] of the parsed values divided by their number,
    and 0 when there is none.  When the parsed values are whole numbers whose
    magnitudes add up to less than 2^53, as they are when every risk percent
    is a decimal numeral followed by [%], the score is their exact mean,
    rounded once, whichever algorithm [sum] uses.  Of ["42%"], [" 7 % "] and
    ["abc"] the first two count as 42 and 7 and the third is left out; the
    white space around the 7 may as well be no-break spaces. *)
Theorem average_risk_score (py : Interpreter) records :
  avg_risk py [] = None /\
  (records <> [] ->
   avg_risk py records =
   Some match omap (risk_value py) records with
        | [] => PInt 0
        | xs => PFloat (PyFloat.sum py xs / PyFloat.of_Z (Z.of_nat (length xs)))
        end) /\
  (forall r,
     risk_value py r =
     PyFloat.of_string py
       (PyStr.strip
          (string_of_list_ascii
             (List.filter (fun c => negb (Ascii.eqb c "%"))
                (list_ascii_of_string (risk_percent r)))))) /\
  (forall before r after,
     before ++ after <> [] ->
     risk_value py r = None ->
     avg_risk py (before ++ r :: after) = avg_risk py (before ++ after)) /\
  (forall ks,
     ks <> [] ->
     omap (risk_value py) records = map PyFloat.of_Z ks ->
     (whole_magnitude ks < 2 ^ 53)%Z ->
     avg_risk py records = Some (PFloat (whole_mean ks))) /\
  (forall ns,
     ns <> [] ->
     Forall2 (fun r n => risk_percent r = PyStr.of_nat n +:+ "%") records ns ->
     (Z.of_nat (list_sum ns) < 2 ^ 53)%Z ->
     avg_risk py records = Some (PFloat (whole_mean (map Z.of_nat ns)))) /\
  (forall level,
     risk_value py (record level "42%") = Some 42%float /\
     risk_value py (record level " 7 % ") = Some 7%float /\
     risk_value py (record level "abc") = None /\
     risk_value py (record level (Scenario.nbsp +:+ "7 %" +:+ Scenario.nbsp))
       = Some 7%float) /\
  avg_risk py [record "Low" "42%"; record "Medium" " 7 % "; record "High" "abc"]
    = Some (PFloat 24.5).
Proof.
  split; [reflexivity | ].
  split; [apply avg_risk_mean | ].
  split; [intros r; unfold risk_value; rewrite replace_removes; reflexivity | ].
  split; [apply avg_risk_skips | ].
  split; [intros ks; apply avg_risk_whole | ].
  split.
  { intros ns Hne Hrs Hsum. apply avg_risk_whole.
    - destruct ns; [congruence | discriminate].
    - apply risk_values_whole, Hrs.
    - rewrite whole_magnitude_of_nat. exact Hsum. }
  split; [intros level; repeat split; vm_compute; reflexivity | ].
  rewrite (avg_risk_whole py _ [42; 7]%Z); [ | discriminate | | ]; vm_compute; reflexivity.
Qed.

(** ** The report *)

Section Report.

Variables now_body now_footer : datetime.
Variable contract_name : string.

Lemma metrics_of_some records :
  metrics_of (PySome records) =
  {| totalClauses := length records;
     highRiskCount := length (of_level "High" records);
     mediumRiskCount := length (of_level "Medium" records);
     lowRiskCount := length (of_level "Low" records) |}.
Proof. unfold metrics_of. rewrite !of_level_length. reflexivity. Qed.

Lemma results_truthy_total results :
  results_truthy results = (0 <? totalClauses (metrics_of results))%nat.
Proof. destruct results as [ | [ | r rs]]; reflexivity. Qed.

(** The report of a non-empty run, by the values its text is filled with. *)
Lemma generate_analysis_summary_nonempty st r rs :
  let df := r :: rs in
  let m := metrics_of (PySome df) in
  generate_analysis_summary st now_body now_footer (PySome df) contract_name =
  if negb (_check_user_session st) then None
  else
    let compliance_rate :=
      if (0 <? totalClauses m)%nat
      then PFloat (PyFloat.int_truediv (Z.of_nat (lowRiskCount m))
                     (Z.of_nat (totalClauses m)) * PyFloat.of_Z 100)%float
      else PInt 0 in
    let '(status_color, status_icon, status_text) :=
      if (0 <? highRiskCount m)%nat then ("#ef4444", "🚨", "HIGH RISK")
      else if gt_half (mediumRiskCount m) (totalClauses m)
           then ("#f59e0b", "⚠️", "MODERATE")
           else ("#10b981", "✅", "LOW RISK") in
    Some (fstring summary_literals
            [status_color; status_icon; status_text;
             contract_name; pyopt_str (fst (_get_user_info st));
             PyTime.strftime_date now_body;
             PyStr.of_nat (totalClauses m); PyStr.of_nat (highRiskCount m);
             PyStr.of_nat (mediumRiskCount m); PyStr.of_nat (lowRiskCount m);
             pynum_f0 compliance_rate; pynum_str compliance_rate;
             PyTime.strftime_date now_footer]).
Proof.
  intros df m. subst m. rewrite metrics_of_some.
  unfold generate_analysis_summary. subst df.
  destruct (_get_user_info st) as [n e]. reflexivity.
Qed.

(** C8: the report is a function of the metrics, the contract name, the
    submitting identity and the clock readings.  Two calls that agree on
    these, whatever else differs in the records and in the session state,
    return the same text, the date in it included. *)
Theorem report_is_a_function_of_its_inputs st1 st2 results1 results2 :
  _check_user_session st1 = _check_user_session st2 ->
  fst (_get_user_info st1) = fst (_get_user_info st2) ->
  metrics_of results1 = metrics_of results2 ->
  generate_analysis_summary st1 now_body now_footer results1 contract_name =
  generate_analysis_summary st2 now_body now_footer results2 contract_name.
Proof.
  intros Hs Hu Hm.
  pose proof (results_truthy_total results1) as T1.
  pose proof (results_truthy_total results2) as T2.
  rewrite Hm in T1. rewrite <- T2 in T1. clear T2.
  destruct (results_truthy results2) eqn:T2.
  - destruct results1 as [ | [ | r1 rs1]]; [discriminate T1 | discriminate T1 | ].
    destruct results2 as [ | [ | r2 rs2]]; [discriminate T2 | discriminate T2 | ].
    rewrite !generate_analysis_summary_nonempty.
    cbv zeta. rewrite Hs, Hu, Hm. reflexivity.
  - rewrite !generate_analysis_summary_empty by assumption. reflexivity.
Qed.

End Report.

(** ** Script runs *)

Lemma post_bind {A B} (c : script A) (k : A -> script B) st Q :
  post c st (fun o st1 ev1 =>
    match o with
    | Done a => post (k a) st1 (fun o2 st2 ev2 => Q o2 st2 (ev1 ++ ev2))
    | Rerun => Q Rerun st1 ev1
    end) ->
  post (c ≫= k) st Q.
Proof.
  unfold post, mbind, script_bind, Script.bind, outcome_of, state_of, events_of.
  destruct (c st) as [[[a | ] st1] ev1]; simpl; [ | auto].
  destruct (k a st1) as [[o2 st2] ev2]; simpl. auto.
Qed.

Lemma post_mono {A} (c : script A) st (Q Q' : outcome A -> session_state -> list event -> Prop) :
  post c st Q -> (forall o st' ev, Q o st' ev -> Q' o st' ev) -> post c st Q'.
Proof. unfold post. auto. Qed.

(** One step of a script that only reads or writes the state or shows a
    message. *)
Ltac pure_step :=
  apply post_bind;
  unfold post at 1, Script.modify, Script.get, Script.emit, Script.put;
  cbv [state_of outcome_of events_of fst snd].

(** Unfolds the combinators of a script. *)
Ltac run_script :=
  unfold post, Script.when, Script.emits,
    Script.modify, Script.get, Script.put, Script.emit, Script.rerun,
    mbind, script_bind, Script.bind, mret, script_ret, Script.ret,
    state_of, events_of, outcome_of.

Lemma analysis_sends_app ev1 ev2 :
  analysis_sends (ev1 ++ ev2) = analysis_sends ev1 ++ analysis_sends ev2.
Proof. apply omap_app. Qed.

Lemma analysis_sends_test sent : analysis_sends (map SendTest sent) = [].
Proof. induction sent; simpl; auto. Qed.

Lemma analysis_sends_analysis sent : analysis_sends (map SendAnalysis sent) = sent.
Proof. induction sent; simpl; [ | unfold analysis_sends in *; simpl; f_equal]; auto. Qed.

Section Orchestration.

Variable users : gmap string user_entry.
Variable notifier : EmailNotifier.
Variable wd : world.
Variable w : widgets.

Lemma show_login_form_quiet st :
  post (show_login_form users (now_login wd) (now_temp wd) (login w)) st (quiet st).
Proof.
  unfold show_login_form, login_form, temp_form, authenticate_user, quiet.
  run_script.
  destruct (login_submit (login w)), (temp_submit (login w)); simpl;
    repeat (case_match; simpl); simplify_eq/=; auto.
Qed.

Lemma show_user_info_quiet st :
  post (show_user_info (logout_button w)) st (quiet st).
Proof.
  unfold show_user_info, quiet. run_script.
  repeat (case_match; simpl); simplify_eq/=; auto.
Qed.

Lemma show_email_settings_quiet st :
  post (show_email_settings notifier wd w) st
    (fun o st' ev => analysis_sends ev = [] /\ st' = st /\ o = Done tt).
Proof.
  unfold show_email_settings. run_script.
  destruct (is_enabled notifier); [ | simpl; auto].
  destruct (test_email_button w); [ | simpl; auto].
  destruct (send_test_email _ _ _ _) as [[ok msg] sent]. simpl.
  rewrite analysis_sends_app, analysis_sends_test. destruct ok; auto.
Qed.

Lemma send_at_most_once st results name :
  length (snd (send_analysis_notification notifier (yag_send wd) st
                 (now_body wd) (now_footer wd) results name)) <= 1.
Proof.
  unfold send_analysis_notification.
  repeat (case_match; simpl); lia.
Qed.

Lemma analyze_contract_post name st :
  post (analyze_contract notifier wd name) st
    (fun o st' ev =>
       exists results, o = Done results /\
         length (analysis_sends ev) <= 1 /\
         (analysis_sends ev <> [] -> results_truthy results = true) /\
         keeps st st').
Proof.
  unfold analyze_contract, keeps. run_script.
  destruct (analyze_contract_file wd) as [e | results]; simpl.
  - exists PyNone. repeat split; [lia | congruence].
  - destruct (results_truthy results) eqn:T; simpl.
    + pose proof (send_at_most_once st results name) as Hone.
      destruct (send_analysis_notification _ _ _ _ _ _ _) as [ok sent]. simpl in *.
      exists results.
      destruct ok; simpl; rewrite analysis_sends_app, analysis_sends_analysis, app_nil_r;
        repeat split; auto.
    + exists PyNone. repeat split; [lia | congruence].
Qed.

Lemma upload_page_post st :
  post (upload_page notifier wd w) st
    (fun o st' ev =>
       length (analysis_sends ev) <= 1 /\
       (analysis_sends ev <> [] -> o = Rerun /\ complete st' = true) /\
       (complete st = true -> analysis_sends ev = [] /\ st' = st /\ o = Done tt) /\
       auth st' = auth st).
Proof.
  unfold upload_page. pure_step.
  fold (complete st). destruct (complete st) eqn:C; simpl.
  { run_script. simpl. repeat split; auto. congruence. }
  destruct (uploaded_file w) as [file_name | ].
  2:{ run_script. simpl. repeat split; auto; congruence. }
  pure_step.
  pure_step.
  destruct (submit_button w).
  2:{ run_script. simpl. repeat split; auto; congruence. }
  apply post_bind.
  eapply post_mono; [apply analyze_contract_post | ].
  intros o st' ev (results & -> & Hlen & Htruthy & Ha & Hc & Hr).
  destruct (results_truthy results) eqn:T.
  - run_script. simpl. rewrite !app_nil_r.
    repeat split; auto; congruence.
  - run_script. simpl. rewrite !app_nil_r.
    repeat split; auto; try congruence;
      match goal with H : analysis_sends _ <> [] |- _ => apply Htruthy in H; discriminate end.
Qed.

Lemma create_dashboard_post results st :
  post (create_dashboard results) st
    (fun o st' ev => analysis_sends ev = [] /\ st' = st).
Proof.
  unfold create_dashboard. run_script. case_match; simpl; auto.
Qed.

Lemma create_summary_insights_post results st :
  post (create_summary_insights w results) st
    (fun o st' ev => analysis_sends ev = [] /\ keeps st st').
Proof.
  unfold create_summary_insights, keeps. run_script.
  destruct (recommendation results); simpl;
    repeat (case_match; simpl); simplify_eq/=; auto.
Qed.

Lemma results_page_post st :
  post (results_page w) st
    (fun o st' ev =>
       analysis_sends ev = [] /\
       (another_button w = false -> complete st' = complete st)).
Proof.
  unfold results_page. pure_step.
  destruct (_ && _); [ | run_script; simpl; auto].
  pure_step.
  apply post_bind.
  assert (Hshow : post
    (match get_or_none (analysis_results (run st)) with
     | PySome results => create_dashboard results;; create_summary_insights w results
     | PyNone => mret tt
     end) st (fun o st' ev => analysis_sends ev = [] /\ keeps st st')).
  { destruct (get_or_none _) as [ | results]; [run_script; unfold keeps; simpl; auto | ].
    apply post_bind. eapply post_mono; [apply create_dashboard_post | ].
    intros o st' ev [Hev ->]. destruct o as [[] | ].
    - eapply post_mono; [apply create_summary_insights_post | ].
      intros o' st'' ev' [Hev' Hk]. rewrite analysis_sends_app, Hev, Hev'. auto.
    - unfold keeps. auto. }
  eapply post_mono; [exact Hshow | ].
  intros o st' ev [Hev (Ha & Hc & Hr)].
  assert (Hcomplete : complete st' = complete st) by (unfold complete; congruence).
  destruct o as [[] | ]; [ | auto].
  destruct (another_button w); run_script; simpl; rewrite ?app_nil_r; split; auto.
  discriminate.
Qed.

Lemma initialize_keeps_complete st :
  complete (initialize_session_state st) = complete st.
Proof.
  unfold complete. simpl. destruct (analysis_complete (run st)); reflexivity.
Qed.

(** One run of the script: at most one analysis notification; one that is
    sent leaves the run complete; a complete run sends none and, unless
    "Analyze Another Contract" is clicked, stays complete. *)
Lemma main_post st :
  post (main users notifier wd w) st
    (fun o st' ev =>
       length (analysis_sends ev) <= 1 /\
       (analysis_sends ev <> [] -> complete st' = true) /\
       (complete st = true -> analysis_sends ev = []) /\
       (complete st = true -> another_button w = false -> complete st' = true)).
Proof.
  unfold main. pure_step.
  pure_step.
  pose proof (initialize_keeps_complete st) as Hinit.
  set (st0 := initialize_session_state st) in *.
  destruct (is_authenticated st0).
  2:{ simpl. eapply post_mono; [apply show_login_form_quiet | ].
      intros o st' ev [Hev Hrun]. rewrite Hev. simpl.
      assert (complete st' = complete st) by (unfold complete in *; congruence).
      repeat split; auto; congruence. }
  simpl. apply post_bind.
  eapply post_mono; [apply show_user_info_quiet | ].
  intros o st1 ev1 [Hev1 Hrun1].
  assert (H1 : complete st1 = complete st) by (unfold complete in *; congruence).
  destruct o as [[] | ].
  2:{ rewrite Hev1. simpl. repeat split; auto; congruence. }
  apply post_bind.
  eapply post_mono; [apply show_email_settings_quiet | ].
  intros o st2 ev2 (Hev2 & -> & ->).
  apply post_bind.
  eapply post_mono; [apply upload_page_post | ].
  intros o st3 ev3 (Hlen & Hsent & Hdone & _).
  destruct o as [[] | ].
  - assert (Hev3 : analysis_sends ev3 = []).
    { destruct (analysis_sends ev3) eqn:E; [reflexivity | ].
      destruct Hsent as [Hr _]; congruence. }
    eapply post_mono; [apply results_page_post | ].
    intros o st4 ev4 [Hev4 Hkeep].
    rewrite !analysis_sends_app, Hev1, Hev2, Hev3, Hev4. simpl.
    repeat split; auto; try congruence.
    intros Hc Hb. rewrite Hkeep by exact Hb.
    rewrite <- H1 in Hc. destruct (Hdone Hc) as (_ & -> & _). exact Hc.
  - rewrite !analysis_sends_app, Hev1, Hev2. simpl.
    repeat split; auto.
    + intros Hne. apply Hsent. exact Hne.
    + intros Hc. rewrite <- H1 in Hc. apply Hdone in Hc. tauto.
    + intros Hc _. rewrite <- H1 in Hc. destruct (Hdone Hc) as (_ & _ & ?). discriminate.
Qed.

End Orchestration.

Lemma summary_literals_head :
  exists c l rest, summary_literals = String c l :: rest.
Proof. vm_compute. eexists _, _, _. reflexivity. Qed.

Lemma fstring_summary_truthy fields :
  PyStr.truthy (fstring summary_literals fields) = true.
Proof.
  destruct summary_literals_head as (c & l & rest & ->).
  destruct fields; reflexivity.
Qed.

Lemma generate_analysis_summary_shape st t1 t2 results name :
  generate_analysis_summary st t1 t2 results name = None \/
  exists fields,
    generate_analysis_summary st t1 t2 results name =
    Some (fstring summary_literals fields).
Proof.
  unfold generate_analysis_summary.
  destruct results as [ | [ | r rs]]; [left; reflexivity .. | ].
  destruct (negb _); [left; reflexivity | ].
  destruct (_get_user_info st) as [n e].
  destruct (if (0 <? _)%nat then _ else _) as [[color icon] text].
  right. eexists. reflexivity.
Qed.

Lemma generate_analysis_summary_truthy st t1 t2 results name html :
  generate_analysis_summary st t1 t2 results name = Some html ->
  PyStr.truthy html = true.
Proof.
  intros H.
  destruct (generate_analysis_summary_shape st t1 t2 results name) as [E | [fields E]].
  - congruence.
  - assert (html = fstring summary_literals fields) as -> by congruence.
    apply fstring_summary_truthy.
Qed.

Lemma generate_analysis_summary_some st t1 t2 r rs name :
  kind st = Full ->
  exists html, generate_analysis_summary st t1 t2 (PySome (r :: rs)) name = Some html.
Proof.
  intros Hk. apply check_user_session_full in Hk.
  unfold generate_analysis_summary. rewrite Hk. simpl negb. cbv iota.
  destruct (_get_user_info st) as [n e].
  destruct (if (0 <? _)%nat then _ else _) as [[color icon] text].
  eexists. reflexivity.
Qed.

(** In an eligible session, with the transport enabled and a non-empty run,
    every call hands exactly one message to the transport, and returns
    whether the transport took it. *)
Lemma send_analysis_notification_eligible self yag st t1 t2 r rs name :
  enabled self = true ->
  kind st = Full ->
  exists m,
    send_analysis_notification self yag st t1 t2 (PySome (r :: rs)) name =
    (bool_decide (yag m = None), [m]).
Proof.
  intros He Hk.
  destruct (generate_analysis_summary_some st t1 t2 r rs name Hk) as [html Hg].
  pose proof (generate_analysis_summary_truthy _ _ _ _ _ _ Hg) as Ht.
  apply check_user_session_full in Hk.
  unfold send_analysis_notification. rewrite He, Hk, Hg, Ht. simpl negb. cbv iota.
  match goal with |- context [yag ?m] => exists m; destruct (yag m) end; reflexivity.
Qed.

Section Runs.

Variable users : gmap string user_entry.
Variable notifier : EmailNotifier.

Lemma runs_cons wd w rest st :
  runs users notifier ((wd, w) :: rest) st =
  (fst (runs users notifier rest (state_of (main users notifier wd w st))),
   events_of (main users notifier wd w st)
   ++ snd (runs users notifier rest (state_of (main users notifier wd w st)))).
Proof. simpl. destruct (runs _ _ _ _). reflexivity. Qed.

Lemma runs_at_most_once inputs : forall st,
  no_reset inputs ->
  length (analysis_sends (snd (runs users notifier inputs st))) <= 1 /\
  (complete st = true -> analysis_sends (snd (runs users notifier inputs st)) = []).
Proof.
  induction inputs as [ | [wd w] rest IH]; intros st Hno.
  - simpl. split; [lia | reflexivity].
  - inversion Hno as [ | i l Hb Hrest]; subst. simpl in Hb.
    rewrite runs_cons. cbn [snd]. rewrite analysis_sends_app.
    destruct (main_post users notifier wd w st) as (Hlen & Hsent & Hnone & Hkeep).
    destruct (IH (state_of (main users notifier wd w st)) Hrest) as [IHlen IHnone].
    split.
    + destruct (analysis_sends (events_of (main users notifier wd w st))) eqn:E.
      * exact IHlen.
      * rewrite IHnone by (apply Hsent; discriminate).
        rewrite app_nil_r. exact Hlen.
    + intros Hc. rewrite (Hnone Hc), IHnone by (apply Hkeep; assumption). reflexivity.
Qed.

End Runs.

Section FailedDelivery.

Variable users : gmap string user_entry.
Variable notifier : EmailNotifier.
Variable wd : world.
Variable w : widgets.

(** C5, amended: a submitted analysis in an eligible session hands one
    message to the transport.  When the transport raises on that message, the
    error is caught: the upload block shows the warning, stores the results
    and marks the analysis complete.  The [email_sent] flag is left as it
    was.  No later run of the script sends for this analysis, as long as
    "Analyze Another Contract" is not clicked: the upload block, the only
    caller, is not shown for a complete analysis. *)
Theorem failed_delivery_is_not_retried name st r rs inputs :
  enabled notifier = true ->
  kind st = Full ->
  complete st = false ->
  uploaded_file w = Some name ->
  submit_button w = true ->
  analyze_contract_file wd = AnalyzerReturns (PySome (r :: rs)) ->
  no_reset inputs ->
  let res := upload_page notifier wd w st in
  exists m,
    analysis_sends (events_of res) = [m] /\
    (yag_send wd m <> None ->
       events_of res =
       [Success ("✅ Uploaded: " +:+ name);
        Success "Analysis complete!";
        SendAnalysis m;
        Warning " Analysis complete but email notifications failed to send"] /\
       outcome_of res = Rerun /\
       analysis_results (run (state_of res)) = Some (PySome (r :: rs)) /\
       analysis_complete (run (state_of res)) = Some true /\
       email_sent (run (state_of res)) = email_sent (run st) /\
       analysis_sends (snd (runs users notifier inputs (state_of res))) = []).
Proof.
  intros He Hk Hc Hu Hs Ha Hno res.
  assert (Hk' : kind (set_contract_name name st) = Full) by exact Hk.
  destruct (send_analysis_notification_eligible notifier (yag_send wd)
              (set_contract_name name st) (now_body wd) (now_footer wd)
              r rs name He Hk') as [m Hm].
  exists m.
  assert (Hres : res =
    (Rerun,
     set_results (PySome (r :: rs))
       (if bool_decide (yag_send wd m = None)
        then set_email_sent true (set_contract_name name st)
        else set_contract_name name st),
     [Success ("✅ Uploaded: " +:+ name);
      Success "Analysis complete!";
      SendAnalysis m;
      if bool_decide (yag_send wd m = None)
      then Success " Email notifications sent to compliance team!"
      else Warning " Analysis complete but email notifications failed to send"])).
  { subst res. unfold upload_page, analyze_contract, complete in *.
    cbv [mbind script_bind Script.bind Script.get]. rewrite Hc, Hu, Hs, Ha.
    cbv [negb results_truthy mbind script_bind Script.bind Script.get Script.emit
         Script.modify Script.emits Script.rerun mret script_ret Script.ret].
    rewrite Hm. destruct (bool_decide (yag_send wd m = None)); reflexivity. }
  rewrite Hres. cbv [events_of outcome_of state_of fst snd].
  split; [destruct (bool_decide (yag_send wd m = None)); reflexivity | ].
  intros Hy.
  assert (Hraise : bool_decide (yag_send wd m = None) = false)
    by (apply bool_decide_eq_false; exact Hy).
  rewrite Hraise.
  split; [reflexivity | ].
  repeat split.
  apply runs_at_most_once; [exact Hno | reflexivity].
Qed.

End FailedDelivery.

(** ** Once per run *)

Section OncePerRun.

Variable users : gmap string user_entry.
Variable notifier : EmailNotifier.

(** C1, amended: [send_analysis_notification] keeps no record of what it
    sent; the script does.  Over any sequence of runs of the script in which
    "Analyze Another Contract" is not clicked, at most one message is handed
    to the transport by [send_analysis_notification], and none at all once
    the analysis is complete; a run of the script that hands one over leaves
    the analysis complete. *)
Theorem one_notification_per_run inputs st :
  no_reset inputs ->
  length (analysis_sends (snd (runs users notifier inputs st))) <= 1 /\
  (complete st = true ->
     analysis_sends (snd (runs users notifier inputs st)) = []) /\
  (forall wd w,
     analysis_sends (events_of (main users notifier wd w st)) <> [] ->
     complete (state_of (main users notifier wd w st)) = true).
Proof.
  intros Hno.
  destruct (runs_at_most_once users notifier inputs st Hno) as [Hlen Hnone].
  split; [exact Hlen | ]. split; [exact Hnone | ].
  intros wd w. apply main_post.
Qed.

End OncePerRun.

(** ** Counterexamples and instances *)

(** C1, as stated, fails: in a Full session with the transport enabled,
    two calls in succession on the same run each hand a message to the
    transport, the second one with [email_sent] already set. *)
Lemma second_call_sends_again :
  let call st :=
    send_analysis_notification Sample.notifier Sample.delivers st
      Sample.t0 Sample.t0 (PySome Sample.results) "contract.pdf" in
  let st1 := Sample.full_session in
  let st2 := set_email_sent true st1 in
  fst (call st1) = true /\
  email_sent (run st2) = Some true /\
  fst (call st2) = true /\
  length (snd (call st1) ++ snd (call st2)) = 2.
Proof. vm_compute. repeat split; reflexivity. Qed.

Lemma one_notification_per_run_witness :
  no_reset [(Sample.world_with Sample.delivers, Sample.submit);
            (Sample.world_with Sample.delivers, Sample.redraw);
            (Sample.world_with Sample.delivers, Sample.submit)] /\
  length (analysis_sends (snd (runs Sample.users Sample.notifier
            [(Sample.world_with Sample.delivers, Sample.submit);
             (Sample.world_with Sample.delivers, Sample.redraw);
             (Sample.world_with Sample.delivers, Sample.submit)]
            Sample.full_session))) <= 1.
Proof.
  assert (H : no_reset [(Sample.world_with Sample.delivers, Sample.submit);
                        (Sample.world_with Sample.delivers, Sample.redraw);
                        (Sample.world_with Sample.delivers, Sample.submit)])
    by (repeat constructor).
  split; [exact H | ].
  exact (proj1 (one_notification_per_run Sample.users Sample.notifier _
                  Sample.full_session H)).
Defined.

(** C5, as stated, fails: after a send that raised, [email_sent] is still
    [False]; the analysis is complete all the same. *)
Lemma failed_send_leaves_flag_unset :
  let res :=
    main Sample.users Sample.notifier (Sample.world_with Sample.raises)
      Sample.submit Sample.full_session in
  length (analysis_sends (events_of res)) = 1 /\
  email_sent (run (state_of res)) = Some false /\
  email_sent (run (state_of res)) <> Some true /\
  analysis_complete (run (state_of res)) = Some true.
Proof. vm_compute. repeat split; congruence. Qed.

Lemma failed_delivery_is_not_retried_witness :
  kind Sample.full_session = Full /\
  complete Sample.full_session = false /\
  Scenario.refuses_reviews
    {| to := []; subject := "✅ Test Email"; contents := [] |} = None /\
  let res :=
    upload_page Sample.notifier (Sample.world_with Scenario.refuses_reviews)
      Sample.submit Sample.full_session in
  outcome_of res = Rerun /\
  email_sent (run (state_of res)) = email_sent (run Sample.full_session) /\
  analysis_sends
    (snd (runs Sample.users Sample.notifier
            [(Sample.world_with Sample.raises, Sample.redraw);
             (Sample.world_with Sample.delivers, Sample.submit)]
            (state_of res))) = [].
Proof.
  assert (Hk : kind Sample.full_session = Full) by reflexivity.
  assert (Hc : complete Sample.full_session = false) by reflexivity.
  assert (Hno : no_reset [(Sample.world_with Sample.raises, Sample.redraw);
                          (Sample.world_with Sample.delivers, Sample.submit)])
    by (repeat constructor).
  split; [exact Hk | ]. split; [exact Hc | ]. split; [reflexivity | ].
  destruct (failed_delivery_is_not_retried Sample.users Sample.notifier
              (Sample.world_with Scenario.refuses_reviews) Sample.submit
              "contract.pdf" Sample.full_session
              (record "Low" "10%") [record "Medium" "55%"] _
              eq_refl Hk Hc eq_refl eq_refl eq_refl Hno)
    as (m & Hm & H).
  assert (Hy : yag_send (Sample.world_with Scenario.refuses_reviews) m <> None).
  { vm_compute in Hm. injection Hm as <-. vm_compute. discriminate. }
  destruct (H Hy) as (_ & Ho & _ & _ & He & Hs).
  exact (conj Ho (conj He Hs)).
Defined.

Lemma blocked_session_never_notifies_witness :
  kind Sample.guest_session = Temporary /\
  send_analysis_notification Sample.notifier Sample.delivers Sample.guest_session
    Sample.t0 Sample.t0 (PySome Sample.results) "contract.pdf" = (false, []).
Proof.
  split; [reflexivity | ].
  apply blocked_session_never_notifies. vm_compute. discriminate.
Defined.

Lemma session_invariant_witness :
  session_inv Sample.fresh_session /\
  session_inv (apply_op Sample.users Sample.fresh_session
                 (Login Sample.t0 "admin@company.com" "admin123")).
Proof.
  assert (H : session_inv Sample.fresh_session).
  { apply (proj1 (proj2 (session_invariant Sample.users)) empty_session Initialize).
    exact (proj1 (session_invariant Sample.users)). }
  split; [exact H | ].
  exact (proj1 (proj2 (session_invariant Sample.users)) _ _ H).
Defined.

Lemma start_temporary_session_witness :
  kind (state_of (temp_form Sample.t0 "guest@example.com" true Sample.fresh_session))
    = Temporary /\
  state_of (temp_form Sample.t0 "guest.example.com" true Sample.fresh_session)
    = Sample.fresh_session.
Proof.
  split.
  - apply (proj1 (start_temporary_session Sample.t0 "guest@example.com"
                    Sample.fresh_session)).
    split; [discriminate | vm_compute; tauto].
  - apply (proj2 (start_temporary_session Sample.t0 "guest.example.com"
                    Sample.fresh_session)).
    intros [_ H]. vm_compute in H. intuition discriminate.
Defined.

Lemma recommendation_precedence_witness :
  recommendation [record "Medium" "60%"; record "High" "90%"; record "Medium" "55%"]
    = Reject /\
  recommendation [record "Medium" "60%"; record "Low" "5%"; record "Medium" "55%"]
    = ReviewRecommended.
Proof.
  split.
  - apply (proj1 (proj2 (proj2 (proj2 (recommendation_precedence
             [record "Medium" "60%"; record "High" "90%"; record "Medium" "55%"]))))).
    exists (record "High" "90%"). split; [right; left; reflexivity | reflexivity].
  - apply (proj1 (proj2 (recommendation_precedence
             [record "Medium" "60%"; record "Low" "5%"; record "Medium" "55%"]))).
    + reflexivity.
    + vm_compute. reflexivity.
Defined.

Lemma average_risk_score_witness :
  avg_risk cpython_3_12
    [record "Low" "42%"; record "High" "abc"; record "Medium" " 7 % "]
    = Some (PFloat (whole_mean [42; 7]%Z)) /\
  avg_risk cpython_3_12 [record "Low" "85%"; record "High" "10%"; record "Low" "0%"]
    = Some (PFloat (whole_mean [85; 10; 0]%Z)) /\
  avg_risk cpython_3_11
    [record "Low" "42%"; record "High" "abc"; record "Medium" " 7 % "]
    = avg_risk cpython_3_11 [record "Low" "42%"; record "Medium" " 7 % "].
Proof.
  split; [ | split].
  - apply (proj1 (proj2 (proj2 (proj2 (proj2 (average_risk_score cpython_3_12
             [record "Low" "42%"; record "High" "abc"; record "Medium" " 7 % "])))))
             [42; 7]%Z).
    + discriminate.
    + vm_compute. reflexivity.
    + vm_compute. reflexivity.
  - apply (proj1 (proj2 (proj2 (proj2 (proj2 (proj2 (average_risk_score cpython_3_12
             [record "Low" "85%"; record "High" "10%"; record "Low" "0%"]))))))
             [85; 10; 0]%nat).
    + discriminate.
    + repeat constructor.
    + vm_compute. reflexivity.
  - apply (proj1 (proj2 (proj2 (proj2 (average_risk_score cpython_3_11 []))))
             [record "Low" "42%"] (record "High" "abc") [record "Medium" " 7 % "]).
    + discriminate.
    + vm_compute. reflexivity.
Defined.

Lemma report_is_a_function_of_its_inputs_witness :
  generate_analysis_summary Sample.full_session Sample.t0 Sample.t0
    (PySome [record "Low" "10%"; record "Medium" "55%"]) "contract.pdf" =
  generate_analysis_summary (set_email_sent true Sample.full_session)
    Sample.t0 Sample.t0
    (PySome [record "Medium" "70%"; record "Low" "n/a"]) "contract.pdf".
Proof.
  apply report_is_a_function_of_its_inputs; vm_compute; reflexivity.
Defined.

(** * Further properties *)

(** ** auth_manager.py *)

Section Login.

Variable users : gmap string user_entry.
Variable now : datetime.

(** X1: [authenticate_user] logs in exactly when the table has the email
    with that password.  Then the session is Full, with the email given, the
    name and the role of the table and the time of the call, and the keys of
    the run are untouched; otherwise the session state is returned as it was,
    with the one message for both kinds of failure. *)
Theorem login_succeeds_iff_credentials_match email pass st :
  let r := authenticate_user users now email pass st in
  (forall u, users !! email = Some u -> password u = pass ->
     fst r = (true, "Login successful!") /\
     kind (snd r) = Full /\
     user_email (auth (snd r)) = Some (PySome email) /\
     user_name (auth (snd r)) = Some (PySome (name u)) /\
     user_role (auth (snd r)) = Some (PySome (role u)) /\
     login_time (auth (snd r)) = Some (PySome now) /\
     run (snd r) = run st) /\
  ((forall u, users !! email = Some u -> password u <> pass) ->
     r = ((false, "Invalid email or password"), st)).
Proof.
  intros r. subst r. unfold authenticate_user. split.
  - intros u -> <-. rewrite String.eqb_refl. repeat split.
  - intros H. destruct (users !! email) as [u | ]; [ | reflexivity].
    specialize (H u eq_refl). apply String.eqb_neq in H. rewrite H. reflexivity.
Qed.

(** X4: the login form refuses an empty email or an empty password before
    any lookup; with both filled in it logs in and reruns exactly when
    [authenticate_user] accepts, and otherwise shows an error and leaves the
    session state as it was. *)
Theorem login_form_outcome email pass st :
  let r := login_form users now email pass true st in
  (email = EmptyString \/ pass = EmptyString ->
     r = (Done tt, st, [Error "⚠️ Please enter email and password"])) /\
  (email <> EmptyString -> pass <> EmptyString ->
     fst (authenticate_user users now email pass st) = (true, "Login successful!") ->
     r = (Rerun, snd (authenticate_user users now email pass st),
          [Success "Login successful!"]) /\
     kind (state_of r) = Full) /\
  (email <> EmptyString -> pass <> EmptyString ->
     fst (authenticate_user users now email pass st) <> (true, "Login successful!") ->
     r = (Done tt, st, [Error "Invalid email or password"])).
Proof.
  intros r. subst r. unfold login_form. repeat split.
  - intros [-> | ->]; [reflexivity | ]. destruct email; reflexivity.
  - destruct email; [congruence | ]. destruct pass; [congruence | ].
    cbn [PyStr.truthy negb orb]. unfold authenticate_user in *.
    destruct (users !! _) as [u | ]; [ | simpl in *; congruence].
    destruct (String.eqb _ _); simpl in *; [reflexivity | congruence].
  - destruct email; [congruence | ]. destruct pass; [congruence | ].
    unfold authenticate_user in *.
    destruct (users !! _) as [u | ]; [ | simpl in *; congruence].
    destruct (String.eqb _ _); simpl in *; [reflexivity | congruence].
  - intros He Hp. destruct email; [congruence | ]. destruct pass; [congruence | ].
    cbn [PyStr.truthy negb orb]. unfold authenticate_user.
    destruct (users !! _) as [u | ]; [ | reflexivity].
    destruct (String.eqb _ _); simpl; [congruence | reflexivity].
Qed.

End Login.

Section Credentials.

Variable environ : gmap string string.
Variable now : datetime.

(** X2: an entry of the environment ([AUTH_USER] and [AUTH_PASSWORD] both
    set and non-empty) is a login with the role [User], and the only
    password for its email: when the email is one of the two built-in ones,
    the built-in password stops working. *)
Theorem environment_entry_overrides u p st :
  environ !! "AUTH_USER" = Some u ->
  environ !! "AUTH_PASSWORD" = Some p ->
  u <> EmptyString ->
  p <> EmptyString ->
  let login pass := authenticate_user (VALID_USERS environ) now u pass st in
  fst (login p) = (true, "Login successful!") /\
  kind (snd (login p)) = Full /\
  user_role (auth (snd (login p))) = Some (PySome "User") /\
  user_name (auth (snd (login p))) =
    Some (PySome (default "Environment User" (environ !! "AUTH_NAME"))) /\
  (forall pass, pass <> p -> login pass = ((false, "Invalid email or password"), st)).
Proof.
  intros Eu Ep Hu Hp login. subst login.
  assert (Hl : VALID_USERS environ !! u =
               Some {| password := p;
                       name := default "Environment User" (environ !! "AUTH_NAME");
                       role := "User" |}).
  { unfold VALID_USERS. rewrite Eu, Ep.
    destruct u; [congruence | ]. destruct p; [congruence | ].
    simpl. apply lookup_insert_eq. }
  unfold authenticate_user. rewrite Hl. cbn [password name role].
  rewrite String.eqb_refl. repeat split.
  intros pass Hne. assert (E : String.eqb p pass = false) by (apply String.eqb_neq; congruence).
  rewrite E. reflexivity.
Qed.

(** X3: the table never holds more than the two built-in accounts and the
    entry of the environment: whoever logs in is the administrator, the
    analyst, or the environment's user. *)
Theorem login_roles email pass st :
  fst (authenticate_user (VALID_USERS environ) now email pass st) = (true, "Login successful!") ->
  let st' := snd (authenticate_user (VALID_USERS environ) now email pass st) in
  (email = "admin@company.com" /\ pass = "admin123" /\
   user_role (auth st') = Some (PySome "Administrator")) \/
  (email = "user@company.com" /\ pass = "user123" /\
   user_role (auth st') = Some (PySome "Analyst")) \/
  (environ !! "AUTH_USER" = Some email /\ environ !! "AUTH_PASSWORD" = Some pass /\
   user_role (auth st') = Some (PySome "User")).
Proof.
  unfold authenticate_user.
  destruct (VALID_USERS environ !! email) as [e | ] eqn:El; [ | discriminate].
  destruct (String.eqb (password e) pass) eqn:Ep; [ | discriminate].
  apply String.eqb_eq in Ep. intros _. cbn [snd auth user_role].
  assert (Hin : forall (m : gmap string user_entry) e',
    m = <["user@company.com" :=
            {| password := "user123"; name := "Regular User"; role := "Analyst" |}]>
        (<["admin@company.com" :=
            {| password := "admin123"; name := "Admin User"; role := "Administrator" |}]> ∅) ->
    m !! email = Some e' ->
    (email = "admin@company.com" /\ e' = {| password := "admin123"; name := "Admin User"; role := "Administrator" |}) \/
    (email = "user@company.com" /\ e' = {| password := "user123"; name := "Regular User"; role := "Analyst" |})).
  { intros m e' -> H.
    destruct (decide ("user@company.com" = email)) as [<- | H1].
    - rewrite lookup_insert_eq in H. right. split; congruence.
    - rewrite lookup_insert_ne in H by exact H1.
      destruct (decide ("admin@company.com" = email)) as [<- | H2].
      + rewrite lookup_insert_eq in H. left. split; congruence.
      + rewrite lookup_insert_ne, lookup_empty in H by exact H2. discriminate. }
  assert (Hb : forall e',
    (email = "admin@company.com" /\ e' = {| password := "admin123"; name := "Admin User"; role := "Administrator" |}) \/
    (email = "user@company.com" /\ e' = {| password := "user123"; name := "Regular User"; role := "Analyst" |}) ->
    e' = e ->
    (email = "admin@company.com" /\ pass = "admin123" /\
     Some (PySome (role e)) = Some (PySome "Administrator")) \/
    (email = "user@company.com" /\ pass = "user123" /\
     Some (PySome (role e)) = Some (PySome "Analyst")) \/
    (environ !! "AUTH_USER" = Some email /\ environ !! "AUTH_PASSWORD" = Some pass /\
     Some (PySome (role e)) = Some (PySome "User"))).
  { intros e' [[-> ->] | [-> ->]] <-; simpl in Ep; subst pass; [left | right; left]; repeat split. }
  unfold VALID_USERS in El.
  destruct (environ !! "AUTH_USER") as [u | ] eqn:Eu;
    [ | exact (Hb _ (Hin _ _ eq_refl El) eq_refl)].
  destruct (environ !! "AUTH_PASSWORD") as [p | ] eqn:Epw;
    [ | exact (Hb _ (Hin _ _ eq_refl El) eq_refl)].
  destruct (PyStr.truthy u && PyStr.truthy p);
    [ | exact (Hb _ (Hin _ _ eq_refl El) eq_refl)].
  destruct (decide (u = email)) as [-> | Hne].
  - rewrite lookup_insert_eq in El. injection El as <-. simpl in Ep. subst p.
    right; right. repeat split.
  - rewrite lookup_insert_ne in El by exact Hne.
    exact (Hb _ (Hin _ _ eq_refl El) eq_refl).
Qed.

End Credentials.

Section SessionStore.

Variable users : gmap string user_entry.

(** X5: no operation of the session store touches the keys of the run:
    the results, the completion flag and the [email_sent] flag of an analysis
    survive logout and login, whoever logs in next. *)
Theorem session_operations_keep_run ops st :
  run (fold_left (apply_op users) ops st) = run st.
Proof.
  revert st. induction ops as [ | op ops IH]; intros st; [reflexivity | ].
  simpl. rewrite IH. destruct op; simpl; try reflexivity.
  unfold authenticate_user.
  destruct (users !! email) as [u | ]; [ | reflexivity].
  destruct (String.eqb _ _); reflexivity.
Qed.

(** X6: in every state the session operations can reach from a fresh
    session, [get_current_user] is [None] exactly for an Unauthenticated
    session, and a user it returns has an email, a name and a role, with
    [logged_in] the opposite of [is_temp]. *)
Theorem current_user_of_reachable_session ops :
  let st := fold_left (apply_op users) ops empty_session in
  (get_current_user st = None <-> kind st = Unauthenticated) /\
  (forall u, get_current_user st = Some u ->
     cu_email u <> PyNone /\ cu_name u <> PyNone /\ cu_role u <> PyNone /\
     cu_logged_in u = negb (cu_is_temp u) /\
     (cu_is_temp u = true <-> kind st = Temporary)).
Proof.
  intros st. pose proof (reachable_inv users ops) as Hinv. fold st in Hinv.
  unfold get_current_user, kind in *. unfold session_inv, kind, identity_set, identity_null in Hinv.
  destruct (is_authenticated st); simpl in *.
  - split; [split; [discriminate | destruct (is_temp_session st); discriminate] | ].
    intros u [= <-]. simpl.
    destruct Hinv as [[Hk _] | [_ (He & Hn & Hr)]].
    + destruct (is_temp_session st); discriminate.
    + repeat split; auto; destruct (is_temp_session st); congruence.
  - split; [tauto | discriminate].
Qed.

End SessionStore.

(** X7: [initialize_session_state] is idempotent, gives a fresh session the
    defaults, and leaves a state in which its ten keys are set as it is. *)
Theorem initialize_session_state_idempotent st :
  initialize_session_state (initialize_session_state st) = initialize_session_state st /\
  initialize_session_state empty_session =
    {| auth := {| authenticated := Some false; temp_session := Some false;
                  user_email := Some PyNone; user_name := Some PyNone;
                  user_role := Some PyNone; login_time := Some PyNone |};
       run := {| analysis_complete := Some false; analysis_results := Some PyNone;
                 contract_name := Some EmptyString; email_sent := Some false;
                 show_rewrites := None |} |} /\
  (is_Some (authenticated (auth st)) -> is_Some (temp_session (auth st)) ->
   is_Some (user_email (auth st)) -> is_Some (user_name (auth st)) ->
   is_Some (user_role (auth st)) -> is_Some (login_time (auth st)) ->
   is_Some (analysis_complete (run st)) -> is_Some (analysis_results (run st)) ->
   is_Some (contract_name (run st)) -> is_Some (email_sent (run st)) ->
   initialize_session_state st = st) /\
  kind (initialize_session_state st) = kind st /\
  complete (initialize_session_state st) = complete st.
Proof.
  destruct st as [[a t e n r l] [c res cn es sr]].
  unfold initialize_session_state, initialize_auth_session, kind, complete,
    is_authenticated, is_temp_session. simpl.
  repeat split.
  - destruct a, t, e, n, r, l, c, res, cn, es; reflexivity.
  - intros [? ->] [? ->] [? ->] [? ->] [? ->] [? ->] [? ->] [? ->] [? ->] [? ->].
    reflexivity.
  - destruct a, t; reflexivity.
  - destruct c; reflexivity.
Qed.

(** ** The decorators *)

Section Decorators.

Context {A : Type}.
Variable func : script A.

(** X8: [require_full_auth] runs the decorated function exactly in the
    sessions in which the notifier sends, the Full ones, and [require_auth]
    in every session that is not Unauthenticated.  A refused call runs
    nothing of the function: it shows one error, returns [None] and leaves
    the session state as it was. *)
Theorem decorators_guard st :
  (kind st = Full ->
     require_full_auth func st =
     (a ← func; mret (Some a)) st) /\
  (kind st <> Full ->
     exists msg, require_full_auth func st = (Done None, st, [Error msg])) /\
  (kind st <> Unauthenticated ->
     require_auth func st = (a ← func; mret (Some a)) st) /\
  (kind st = Unauthenticated ->
     require_auth func st =
     (Done None, st, [Error "🔒 Authentication required"])) /\
  (_check_user_session st = true <-> kind st = Full).
Proof.
  pose proof (check_user_session_full st) as Hc.
  unfold require_full_auth, require_auth, kind in *.
  cbv [mbind script_bind Script.bind Script.get Script.emit mret script_ret Script.ret].
  destruct (is_authenticated st), (is_temp_session st); simpl;
    repeat split; try exact (proj1 Hc); try exact (proj2 Hc);
    try discriminate; try congruence; try (intros _; eexists; reflexivity);
    intros _; destruct (func st) as [[[a | ] st1] ev1]; reflexivity.
Qed.

End Decorators.

(** ** email_notifier.py *)












Section TestEmail.

Variable self : EmailNotifier.
Variable yag : Email -> option string.
Variable now : datetime.

Lemma send_test_email_shape st :
  enabled self = true ->
  _check_user_session st = true ->
  exists content,
    let m := {| to := notification_emails self;
                subject := "✅ Test Email";
                contents := [content] |} in
    send_test_email self yag st now =
    match yag m with
    | None =>
        ((true, "✅ Test sent to " +:+ PyStr.of_nat (length (notification_emails self))
                +:+ " recipient(s)"), [m])
    | Some e => ((false, "❌ Failed: " +:+ e), [m])
    end.
Proof.
  intros He Hs. unfold send_test_email. rewrite He, Hs. simpl negb. cbv iota.
  destruct (_get_user_info st) as [n e]. eexists. reflexivity.
Qed.

(** X10: [send_test_email] hands nothing to the transport unless the
    notifier is enabled and the session is Full.  Then it hands over exactly
    one message, to the same recipients as a notification, and reports what
    the transport did with it.  It reads the authentication keys only: the
    state of the run, [email_sent] included, makes no difference. *)
Theorem test_email_gate st :
  (enabled self = false ->
     send_test_email self yag st now = ((false, "Email system not configured"), [])) /\
  (enabled self = true -> kind st <> Full ->
     send_test_email self yag st now = ((false, "Temporary session - email blocked"), [])) /\
  (enabled self = true -> kind st = Full ->
     exists m,
       snd (send_test_email self yag st now) = [m] /\
       to m = notification_emails self /\
       subject m = "✅ Test Email" /\
       (yag m = None ->
          fst (send_test_email self yag st now) =
          (true, "✅ Test sent to " +:+ PyStr.of_nat (length (notification_emails self))
                 +:+ " recipient(s)")) /\
       (forall e, yag m = Some e ->
          fst (send_test_email self yag st now) = (false, "❌ Failed: " +:+ e))) /\
  (forall st', auth st' = auth st ->
     send_test_email self yag st' now = send_test_email self yag st now).
Proof.
  pose proof (check_user_session_full st) as Hc.
  split; [ | split; [ | split]].
  - intros He. unfold send_test_email. rewrite He. reflexivity.
  - intros He Hk. unfold send_test_email. rewrite He.
    destruct (_check_user_session st); [tauto | reflexivity].
  - intros He Hk. apply Hc in Hk.
    destruct (send_test_email_shape st He Hk) as [content Hm].
    cbv zeta in Hm. revert Hm. generalize content. clear. intros content.
    set (m := {| to := _; subject := _; contents := _ |}).
    intros Hm. exists m. rewrite Hm. clear Hm.
    destruct (yag m) as [e | ].
    + split; [reflexivity | ]. split; [reflexivity | ]. split; [reflexivity | ].
      split; [discriminate | ]. intros e' [= <-]. reflexivity.
    + split; [reflexivity | ]. split; [reflexivity | ]. split; [reflexivity | ].
      split; [reflexivity | ]. intros e' [=].
  - intros st' Ha. unfold send_test_email, _check_user_session, _get_user_info.
    rewrite Ha. reflexivity.
Qed.

End TestEmail.

Section Notification.

Variable self : EmailNotifier.
Variable yag : Email -> option string.
Variables now_body now_footer : datetime.

(** The subject line, by the counts. *)
Lemma send_analysis_notification_message st r rs name html :
  enabled self = true ->
  _check_user_session st = true ->
  generate_analysis_summary st now_body now_footer (PySome (r :: rs)) name = Some html ->
  let m := {| to := notification_emails self;
              subject :=
                if (0 <? length (of_level "High" (r :: rs)))%nat
                then "🚨 HIGH RISK: " +:+ name
                else if (0 <? length (of_level "Medium" (r :: rs)))%nat
                then "⚠️ Review: " +:+ name
                else "✅ Complete: " +:+ name;
              contents := [html] |} in
  send_analysis_notification self yag st now_body now_footer (PySome (r :: rs)) name
  = (bool_decide (yag m = None), [m]).
Proof.
  intros He Hs Hg m.
  pose proof (generate_analysis_summary_truthy _ _ _ _ _ _ Hg) as Ht.
  unfold send_analysis_notification. rewrite He, Hs, Hg, Ht. simpl negb. cbv iota.
  fold m. destruct (yag m); reflexivity.
Qed.

(** X11: [send_analysis_notification] returns [True] only when the
    notifier is enabled, the session is Full, the run is not empty and the
    transport took the one message handed to it; and every message it hands
    over goes to the notifier's recipients and carries the report of
    [generate_analysis_summary] as its only content. *)
Theorem notification_result st results name :
  let r := send_analysis_notification self yag st now_body now_footer results name in
  (fst r = true ->
     enabled self = true /\ kind st = Full /\ results_truthy results = true /\
     exists m, snd r = [m] /\ yag m = None) /\
  (forall m, In m (snd r) ->
     snd r = [m] /\
     fst r = bool_decide (yag m = None) /\
     to m = notification_emails self /\
     exists html,
       generate_analysis_summary st now_body now_footer results name = Some html /\
       contents m = [html]).
Proof.
  intros res. subst res.
  destruct (enabled self) eqn:He.
  2:{ unfold send_analysis_notification. rewrite He. simpl. split; [discriminate | tauto]. }
  destruct (_check_user_session st) eqn:Hs.
  2:{ unfold send_analysis_notification. rewrite He, Hs. simpl. split; [discriminate | tauto]. }
  destruct results as [ | [ | r rs]].
  1,2: unfold send_analysis_notification; rewrite He, Hs; simpl;
       split; [discriminate | tauto].
  pose proof (proj1 (check_user_session_full st) Hs) as Hk.
  destruct (generate_analysis_summary_some st now_body now_footer r rs name Hk) as [html Hg].
  rewrite (send_analysis_notification_message st r rs name html He Hs Hg).
  cbv zeta. set (m := {| to := _; subject := _; contents := _ |}).
  cbn [fst snd]. split.
  - intros Hd. apply bool_decide_eq_true in Hd. repeat split; eauto.
  - intros m' [<- | []]. repeat split. exists html. split; [exact Hg | reflexivity].
Qed.

(** X12: the subject line follows the verdict of the summary tab, with one
    exception: a run that is Acceptable but has a Medium record is announced
    as "Review".  (The subject asks for one Medium record, the verdict for
    more than half.) *)
Theorem subject_follows_verdict st r rs name :
  enabled self = true ->
  kind st = Full ->
  exists m,
    snd (send_analysis_notification self yag st now_body now_footer
           (PySome (r :: rs)) name) = [m] /\
    subject m =
    match recommendation (r :: rs) with
    | Reject => "🚨 HIGH RISK: "
    | ReviewRecommended => "⚠️ Review: "
    | Acceptable =>
        if (0 <? riskCount "Medium" (r :: rs))%nat then "⚠️ Review: " else "✅ Complete: "
    end +:+ name.
Proof.
  intros He Hk. pose proof (proj2 (check_user_session_full st) Hk) as Hs.
  destruct (generate_analysis_summary_some st now_body now_footer r rs name Hk) as [html Hg].
  rewrite (send_analysis_notification_message st r rs name html He Hs Hg).
  cbv zeta. eexists. split; [reflexivity | ]. cbn [subject].
  rewrite recommendation_by_counts, !of_level_length.
  destruct (0 <? riskCount "High" (r :: rs))%nat; [reflexivity | ].
  destruct (gt_half _ _) eqn:Eh; [ | destruct (0 <? _)%nat; reflexivity].
  assert (Hm : (0 <? riskCount "Medium" (r :: rs))%nat = true).
  { unfold gt_half in Eh. apply Nat.ltb_lt in Eh. apply Nat.ltb_lt. simpl length in Eh. lia. }
  rewrite Hm. reflexivity.
Qed.

(** X13: the status banner of the report is the verdict of the summary
    tab: the report opens with the colour, the icon and the text of
    [recommendation]. *)
Theorem banner_is_the_verdict st r rs name :
  kind st = Full ->
  exists rest,
    generate_analysis_summary st now_body now_footer (PySome (r :: rs)) name =
    Some (fstring summary_literals (status_fields (recommendation (r :: rs)) ++ rest)).
Proof.
  intros Hk. apply check_user_session_full in Hk.
  rewrite generate_analysis_summary_nonempty. cbv zeta. rewrite Hk. simpl negb. cbv iota.
  rewrite recommendation_by_counts.
  change (highRiskCount (metrics_of (PySome (r :: rs)))) with (riskCount "High" (r :: rs)).
  change (mediumRiskCount (metrics_of (PySome (r :: rs)))) with (riskCount "Medium" (r :: rs)).
  change (totalClauses (metrics_of (PySome (r :: rs)))) with (length (r :: rs)).
  destruct (0 <? riskCount "High" (r :: rs))%nat; [eexists; reflexivity | ].
  destruct (gt_half _ _); eexists; reflexivity.
Qed.

End Notification.

Lemma append_assoc (a b c : string) : (a +:+ b) +:+ c = a +:+ (b +:+ c).
Proof.
  induction a as [ | x a IH]; [reflexivity | ].
  change (String x ((a +:+ b) +:+ c) = String x (a +:+ (b +:+ c))).
  f_equal. exact IH.
Qed.

Lemma summary_literals_front :
  exists l0 l1 l2 l3 l4 rest, summary_literals = l0 :: l1 :: l2 :: l3 :: l4 :: rest.
Proof. vm_compute. eexists _, _, _, _, _, _. reflexivity. Qed.

(** X14: the report takes the contract name and the user name as they are:
    for given records and clock readings there are three fixed pieces of text
    between which every Full session's report has the contract name and the
    user name, character for character.  Nothing is escaped. *)
Theorem report_embeds_names_verbatim now_body now_footer r rs :
  exists pre mid post,
    forall st contract_name,
      kind st = Full ->
      generate_analysis_summary st now_body now_footer (PySome (r :: rs)) contract_name =
      Some (pre +:+ contract_name +:+ mid +:+ pyopt_str (fst (_get_user_info st)) +:+ post).
Proof.
  destruct summary_literals_front as (l0 & l1 & l2 & l3 & l4 & rest & Hl).
  pose (m := metrics_of (PySome (r :: rs))).
  pose (status :=
    if (0 <? highRiskCount m)%nat then ("#ef4444", "🚨", "HIGH RISK")
    else if gt_half (mediumRiskCount m) (totalClauses m)
         then ("#f59e0b", "⚠️", "MODERATE")
         else ("#10b981", "✅", "LOW RISK")).
  pose (rate :=
    if (0 <? totalClauses m)%nat
    then PFloat (PyFloat.int_truediv (Z.of_nat (lowRiskCount m))
                   (Z.of_nat (totalClauses m)) * PyFloat.of_Z 100)%float
    else PInt 0).
  exists (l0 +:+ fst (fst status) +:+ l1 +:+ snd (fst status) +:+ l2 +:+ snd status +:+ l3),
         l4,
         (fstring rest
            [PyTime.strftime_date now_body;
             PyStr.of_nat (totalClauses m); PyStr.of_nat (highRiskCount m);
             PyStr.of_nat (mediumRiskCount m); PyStr.of_nat (lowRiskCount m);
             pynum_f0 rate; pynum_str rate;
             PyTime.strftime_date now_footer]).
  intros st contract_name Hk. apply check_user_session_full in Hk.
  rewrite generate_analysis_summary_nonempty. cbv zeta. rewrite Hk. simpl negb. cbv iota.
  fold m. fold rate. fold status. rewrite Hl.
  destruct status as [[color icon] text]. cbn [fst snd fstring].
  rewrite !append_assoc. reflexivity.
Qed.

(** X15: the three counts of the report never add up to more than the
    total, and add up to it exactly when every record's level is one of
    ["High"], ["Medium"], ["Low"], spelled so; a record with any other level
    is in the total and in none of the three. *)
Theorem level_counts_partition results :
  let high := length (of_level "High" results) in
  let medium := length (of_level "Medium" results) in
  let low := length (of_level "Low" results) in
  high + medium + low <= length results /\
  (high + medium + low = length results <-> Forall known_level results).
Proof.
  induction results as [ | r rs [IHle IHeq]]; [simpl; split; [lia | split; auto] | ].
  cbv zeta in *. unfold of_level in *. cbn [List.filter length].
  destruct (string_dec (risk_level r) "High") as [E | NH].
  { rewrite E. cbn [String.eqb Ascii.eqb Bool.eqb length]. simpl.
    split; [lia | ]. rewrite Forall_cons. unfold known_level at 1. rewrite E.
    split; [intros H; split; [auto | apply IHeq; lia] | intros [_ H]; apply IHeq in H; lia]. }
  destruct (string_dec (risk_level r) "Medium") as [E | NM].
  { rewrite E. simpl.
    split; [lia | ]. rewrite Forall_cons. unfold known_level at 1. rewrite E.
    split; [intros H; split; [auto | apply IHeq; lia] | intros [_ H]; apply IHeq in H; lia]. }
  destruct (string_dec (risk_level r) "Low") as [E | NL].
  { rewrite E. simpl.
    split; [lia | ]. rewrite Forall_cons. unfold known_level at 1. rewrite E.
    split; [intros H; split; [auto | apply IHeq; lia] | intros [_ H]; apply IHeq in H; lia]. }
  apply String.eqb_neq in NH, NM, NL. rewrite NH, NM, NL.
  split; [lia | ]. rewrite Forall_cons. unfold known_level at 1.
  apply String.eqb_neq in NH, NM, NL.
  split; [intros H; lia | intros [[H | [H | H]] _]; contradiction].
Qed.

(** ** app.py: what a run of the script keeps *)

Lemma transport_calls_app ev1 ev2 :
  transport_calls (ev1 ++ ev2) = transport_calls ev1 ++ transport_calls ev2.
Proof. apply omap_app. Qed.

Lemma transport_calls_analysis sent : transport_calls (map SendAnalysis sent) = sent.
Proof. induction sent; simpl; [ | unfold transport_calls in *; simpl; f_equal]; auto. Qed.

Lemma transport_calls_test sent : transport_calls (map SendTest sent) = sent.
Proof. induction sent; simpl; [ | unfold transport_calls in *; simpl; f_equal]; auto. Qed.

Lemma block_keeps_seq {A B} notifier st (a : A) st1 ev1 (o : outcome B) st2 ev2 :
  block_keeps notifier st (Done a) st1 ev1 ->
  block_keeps notifier st1 o st2 ev2 ->
  block_keeps notifier st o st2 (ev1 ++ ev2).
Proof.
  intros (K1 & T1 & S1 & E1 & R1) (K2 & T2 & S2 & E2 & R2).
  assert (Hk : kind st1 = kind st) by (apply K1; discriminate).
  rewrite Hk in *.
  split; [exact K2 | ]. split; [exact T2 | ].
  split; [intros H; rewrite transport_calls_app, (S1 H), (S2 H); reflexivity | ].
  split; [ | auto].
  intros H. rewrite analysis_sends_app.
  destruct (E2 H) as [H1 | H2].
  - destruct (E1 H1) as [H0 | H0]; [left; exact H0 | right].
    destruct (analysis_sends ev1); [congruence | discriminate].
  - right. destruct (analysis_sends ev1); [exact H2 | discriminate].
Qed.

Lemma block_keeps_rerun {A B} notifier st (o : outcome A) st1 ev1 :
  o = Rerun ->
  block_keeps notifier st o st1 ev1 ->
  block_keeps (A := B) notifier st Rerun st1 ev1.
Proof.
  intros -> (K1 & T1 & S1 & E1 & R1). repeat split; auto; congruence.
Qed.

(** Sequencing two blocks that keep all this. *)
Lemma post_keeps_bind {A B} notifier (c : script A) (k : A -> script B) st :
  post c st (block_keeps notifier st) ->
  (forall a st1, post (k a) st1 (block_keeps notifier st1)) ->
  post (c ≫= k) st (block_keeps notifier st).
Proof.
  intros Hc Hk. apply post_bind. eapply post_mono; [exact Hc | ].
  intros o st1 ev1 H1. destruct o as [a | ].
  - eapply post_mono; [apply Hk | ].
    intros o2 st2 ev2 H2. eapply block_keeps_seq; eauto.
  - eapply block_keeps_rerun; eauto.
Qed.

Lemma keeps_same_state {A} notifier st (o : outcome A) ev :
  transport_calls ev = [] ->
  block_keeps notifier st o st ev.
Proof. intros H. repeat split; auto. Qed.

Section Blocks.

Variable users : gmap string user_entry.
Variable notifier : EmailNotifier.
Variable wd : world.
Variable w : widgets.

Lemma initialize_keeps st :
  post (Script.modify initialize_session_state) st (block_keeps notifier st).
Proof.
  unfold post, Script.modify. cbv [state_of outcome_of events_of fst snd].
  destruct st as [[a t e n r l] [c res cn es sr]].
  unfold block_keeps, kind, is_authenticated, is_temp_session. simpl.
  repeat split; auto.
  - destruct a, t; reflexivity.
  - left. destruct a, t; reflexivity.
  - destruct es; simpl; [auto | discriminate].
Qed.

Lemma show_login_form_keeps st :
  kind st = Unauthenticated ->
  post (show_login_form users (now_login wd) (now_temp wd) (login w)) st
    (block_keeps notifier st).
Proof.
  intros Hk.
  pose proof (show_login_form_quiet users wd w st) as Hq.
  assert (Ht : transport_calls
    (events_of (show_login_form users (now_login wd) (now_temp wd) (login w) st)) = []).
  { unfold show_login_form, login_form, temp_form, authenticate_user.
    run_script.
    destruct (login_submit (login w)), (temp_submit (login w)); simpl;
      repeat (case_match; simpl); simplify_eq/=; auto. }
  assert (Hd : outcome_of (show_login_form users (now_login wd) (now_temp wd) (login w) st)
               <> Rerun ->
               state_of (show_login_form users (now_login wd) (now_temp wd) (login w) st) = st).
  { unfold show_login_form, login_form, temp_form, authenticate_user.
    run_script.
    destruct (login_submit (login w)), (temp_submit (login w)); simpl;
      repeat (case_match; simpl); simplify_eq/=; auto; congruence. }
  unfold post, quiet in *. destruct Hq as [_ Hrun].
  repeat split.
  - intros Ho. rewrite (Hd Ho). reflexivity.
  - congruence.
  - intros _. exact Ht.
  - rewrite Hrun. auto.
  - rewrite Hrun. auto.
Qed.

Lemma show_user_info_keeps st :
  post (show_user_info (logout_button w)) st (block_keeps notifier st).
Proof.
  unfold show_user_info, block_keeps. run_script.
  destruct (is_authenticated st); simpl; [ | repeat split; auto].
  destruct (is_temp_session st), (logout_button w); simpl; repeat split; auto; congruence.
Qed.

Lemma send_test_email_blocked st :
  kind st <> Full \/ enabled notifier = false ->
  snd (send_test_email notifier (yag_send wd) st (now_test wd)) = [].
Proof.
  intros H. unfold send_test_email.
  destruct (enabled notifier); [ | reflexivity].
  destruct H as [H | H]; [ | discriminate].
  destruct (_check_user_session st) eqn:E; [ | reflexivity].
  apply check_user_session_full in E. contradiction.
Qed.

Lemma show_email_settings_keeps st :
  post (show_email_settings notifier wd w) st (block_keeps notifier st).
Proof.
  pose proof (show_email_settings_quiet notifier wd w st) as Hq.
  unfold post in *. destruct Hq as (_ & -> & _).
  repeat split; auto. intros Hb.
  unfold show_email_settings. run_script.
  destruct (is_enabled notifier); [ | reflexivity].
  destruct (test_email_button w); [ | reflexivity].
  pose proof (send_test_email_blocked st Hb) as Hs.
  destruct (send_test_email _ _ _ _) as [[ok msg] sent]. simpl in *. subst sent.
  destruct ok; reflexivity.
Qed.

Lemma send_blocked st results name :
  kind st <> Full \/ enabled notifier = false ->
  send_analysis_notification notifier (yag_send wd) st (now_body wd) (now_footer wd)
    results name = (false, []).
Proof.
  intros [H | H]; unfold send_analysis_notification.
  - destruct (enabled notifier); [simpl | reflexivity].
    destruct (_check_user_session st) eqn:Hs; [ | reflexivity].
    apply check_user_session_full in Hs. contradiction.
  - rewrite H. reflexivity.
Qed.

Lemma send_true_sends st results name :
  fst (send_analysis_notification notifier (yag_send wd) st (now_body wd) (now_footer wd)
         results name) = true ->
  snd (send_analysis_notification notifier (yag_send wd) st (now_body wd) (now_footer wd)
         results name) <> [].
Proof.
  unfold send_analysis_notification.
  repeat (case_match; simpl); congruence.
Qed.

Lemma analyze_contract_keeps name st :
  post (analyze_contract notifier wd name) st (block_keeps notifier st).
Proof.
  unfold analyze_contract. run_script.
  destruct (analyze_contract_file wd) as [e | results]; simpl;
    [apply keeps_same_state; reflexivity | ].
  destruct (results_truthy results); simpl; [ | apply keeps_same_state; reflexivity].
  pose proof (send_blocked st results name) as Hb.
  pose proof (send_true_sends st results name) as Ht.
  destruct (send_analysis_notification _ _ _ _ _ _ _) as [ok sent]. simpl in *.
  destruct ok; simpl; rewrite ?app_nil_r.
  - repeat split; auto.
    + intros H. specialize (Hb H). discriminate.
    + intros _. right. destruct sent as [ | m sent]; [exfalso; exact (Ht eq_refl eq_refl) | ].
      unfold analysis_sends. simpl. discriminate.
  - repeat split; auto.
    intros H. specialize (Hb H). injection Hb as ->. reflexivity.
Qed.

Lemma pure_keeps {A} (f : session_state -> session_state) (a : A) ev st :
  transport_calls ev = [] ->
  auth (f st) = auth st ->
  (email_sent (run (f st)) = Some true -> email_sent (run st) = Some true) ->
  (show_rewrites (run st) = Some true -> show_rewrites (run (f st)) = Some true) ->
  block_keeps notifier st (Done a) (f st) ev.
Proof.
  intros Ht Ha He Hr. unfold block_keeps, kind, is_authenticated, is_temp_session.
  rewrite Ha. repeat split; auto.
Qed.

Lemma upload_page_keeps st :
  post (upload_page notifier wd w) st (block_keeps notifier st).
Proof.
  unfold upload_page.
  apply post_keeps_bind; [apply keeps_same_state; reflexivity | intros a st1].
  destruct (negb _); [ | apply keeps_same_state; reflexivity].
  destruct (uploaded_file w) as [file_name | ]; [ | apply keeps_same_state; reflexivity].
  apply post_keeps_bind; [apply keeps_same_state; reflexivity | intros [] st2].
  apply post_keeps_bind; [apply (pure_keeps (set_contract_name file_name)); auto | intros [] st3].
  destruct (submit_button w); [ | apply keeps_same_state; reflexivity].
  apply post_keeps_bind; [apply analyze_contract_keeps | intros results st4].
  destruct (results_truthy results); [ | apply keeps_same_state; reflexivity].
  apply post_keeps_bind; [apply (pure_keeps (set_results results)); auto | intros [] st5].
  apply keeps_same_state. reflexivity.
Qed.

Lemma create_summary_insights_keeps results st :
  post (create_summary_insights w results) st (block_keeps notifier st).
Proof.
  unfold create_summary_insights, block_keeps, kind, is_authenticated, is_temp_session.
  run_script.
  destruct st as [a [c res cn es sr]].
  destruct (recommendation results); simpl;
    destruct sr as [[ | ] | ]; simpl; destruct (show_rewrites_button w); simpl;
    repeat split; auto; discriminate.
Qed.

Lemma results_page_keeps st :
  post (results_page w) st (block_keeps notifier st).
Proof.
  unfold results_page.
  apply post_keeps_bind; [apply keeps_same_state; reflexivity | intros a st1].
  destruct (_ && _); [ | apply keeps_same_state; reflexivity].
  apply post_keeps_bind; [apply keeps_same_state; reflexivity | intros [] st2].
  apply post_keeps_bind.
  { destruct (get_or_none _) as [ | results]; [apply keeps_same_state; reflexivity | ].
    apply post_keeps_bind; [ | intros [] st3; apply create_summary_insights_keeps].
    unfold create_dashboard. destruct (0 <? _)%nat; apply keeps_same_state; reflexivity. }
  intros [] st3.
  destruct (another_button w); [ | apply keeps_same_state; reflexivity].
  apply post_keeps_bind; [ | intros [] st4; apply keeps_same_state; reflexivity].
  apply (pure_keeps reset_run); auto. discriminate.
Qed.

(** One run of the script keeps all of it. *)
Lemma main_keeps st :
  post (main users notifier wd w) st (block_keeps notifier st).
Proof.
  unfold main. apply post_bind.
  eapply post_mono; [apply initialize_keeps | ].
  intros o st0 ev0 H0. destruct o as [[] | ]; [ | exact H0].
  apply post_bind. unfold post at 1, Script.get.
  cbv [state_of outcome_of events_of fst snd].
  assert (Hrest : post
    (if negb (is_authenticated st0)
     then show_login_form users (now_login wd) (now_temp wd) (login w)
     else show_user_info (logout_button w);; show_email_settings notifier wd w;;
          upload_page notifier wd w;; results_page w) st0 (block_keeps notifier st0)).
  { destruct (is_authenticated st0) eqn:Ea; simpl.
    - apply post_keeps_bind; [apply show_user_info_keeps | intros [] st1].
      apply post_keeps_bind; [apply show_email_settings_keeps | intros [] st2].
      apply post_keeps_bind; [apply upload_page_keeps | intros [] st3].
      apply results_page_keeps.
    - apply show_login_form_keeps. unfold kind. rewrite Ea. reflexivity. }
  eapply post_mono; [exact Hrest | ].
  intros o st1 ev1 H1. rewrite app_nil_l.
  eapply block_keeps_seq; eauto.
Qed.

End Blocks.

Section RunInvariants.

Variable users : gmap string user_entry.
Variable notifier : EmailNotifier.

(** X16: a run of the script that starts in a session that is not Full
    hands nothing to the transport, neither a notification nor a test
    message; and a run that starts Unauthenticated shows the login page only:
    the keys of the run are what initialisation made them. *)
Theorem no_transport_outside_full_session wd w st :
  kind st <> Full ->
  transport_calls (events_of (main users notifier wd w st)) = [] /\
  (kind st = Unauthenticated ->
   run (state_of (main users notifier wd w st)) = run (initialize_session_state st)).
Proof.
  intros Hk. split.
  - apply (main_keeps users notifier wd w st). left. exact Hk.
  - intros Hu.
    assert (Ha : is_authenticated (initialize_session_state st) = false).
    { pose proof (initialize_keeps notifier st) as (Hkk & _).
      unfold post, Script.modify in Hkk. cbv [state_of outcome_of fst snd] in Hkk.
      specialize (Hkk ltac:(discriminate)). rewrite Hu in Hkk.
      unfold kind in Hkk. destruct (is_authenticated _); [ | reflexivity].
      destruct (is_temp_session _); discriminate. }
    assert (H : post (main users notifier wd w) st
                  (fun _ st' _ => run st' = run (initialize_session_state st))).
    { unfold main. pure_step. pure_step. rewrite Ha. simpl negb. cbv iota.
      eapply post_mono; [apply show_login_form_quiet | ].
      intros o st' ev [_ Hr]. exact Hr. }
    exact H.
Qed.

(** X17: a session that is signed in is, after a run of the script, what
    it was or Unauthenticated: a Temporary session never becomes Full without
    a logout in between. *)
Theorem signed_in_session_stays_or_logs_out wd w st :
  kind st <> Unauthenticated ->
  kind (state_of (main users notifier wd w st)) = kind st \/
  kind (state_of (main users notifier wd w st)) = Unauthenticated.
Proof. apply (main_keeps users notifier wd w st). Qed.

Lemma disabled_notifier_is_silent inputs st :
  enabled notifier = false ->
  transport_calls (snd (runs users notifier inputs st)) = [].
Proof.
  intros He. revert st. induction inputs as [ | [wd w] rest IH]; intros st; [reflexivity | ].
  rewrite runs_cons. cbn [snd]. rewrite transport_calls_app, IH, app_nil_r.
  apply (main_keeps users notifier wd w st). right. exact He.
Qed.

(** X19: over any runs of the script, resets included, [email_sent] is
    never set without an analysis notification handed to the transport: the
    "Email Notifications Sent" banner is not shown for nothing. *)
Theorem email_sent_means_sent inputs st :
  email_sent (run (fst (runs users notifier inputs st))) = Some true ->
  email_sent (run st) = Some true \/
  analysis_sends (snd (runs users notifier inputs st)) <> [].
Proof.
  revert st. induction inputs as [ | [wd w] rest IH]; intros st; [simpl; auto | ].
  rewrite runs_cons. cbn [fst snd]. intros H. rewrite analysis_sends_app.
  destruct (IH _ H) as [H1 | H1].
  - destruct (main_keeps users notifier wd w st) as (_ & _ & _ & He & _).
    destruct (He H1) as [H0 | H0]; [left; exact H0 | right].
    destruct (analysis_sends (events_of _)); [congruence | discriminate].
  - right. destruct (analysis_sends (events_of _)); [exact H1 | discriminate].
Qed.

(** X20: once the "show rewrites" toggle is on it stays on, over any runs
    of the script: "Analyze Another Contract" does not turn it off. *)
Theorem show_rewrites_stays_on inputs st :
  show_rewrites (run st) = Some true ->
  show_rewrites (run (fst (runs users notifier inputs st))) = Some true.
Proof.
  revert st. induction inputs as [ | [wd w] rest IH]; intros st H; [exact H | ].
  rewrite runs_cons. cbn [fst]. apply IH.
  apply (main_keeps users notifier wd w st). exact H.
Qed.

End RunInvariants.

(** X18: without both [EMAIL_USER] and [EMAIL_PASSWORD] set and non-empty,
    or when the SMTP client could not be built, the notifier hands nothing to
    the transport, neither a notification nor a test message, whatever the
    runs of the script are. *)
Theorem missing_credentials_silence_the_notifier users environ smtp_ok inputs st :
  env_truthy (environ !! "EMAIL_USER") = false \/
  env_truthy (environ !! "EMAIL_PASSWORD") = false \/
  smtp_ok = false ->
  transport_calls (snd (runs users (init environ smtp_ok) inputs st)) = [].
Proof.
  intros H. apply disabled_notifier_is_silent. unfold init. cbn [enabled].
  destruct (env_truthy (environ !! "EMAIL_USER")),
    (env_truthy (environ !! "EMAIL_PASSWORD")), smtp_ok;
    simpl; try reflexivity; destruct H as [H | [H | H]]; discriminate.
Qed.

(** ** app.py: the paths of a submission *)

Section Submission.

Variable notifier : EmailNotifier.
Variable wd : world.
Variable w : widgets.

Ltac run_upload Hc Hu Hs Ha :=
  unfold upload_page, analyze_contract, complete in *;
  cbv [mbind script_bind Script.bind Script.get]; rewrite Hc, Hu, Hs, Ha;
  cbv [negb results_truthy mbind script_bind Script.bind Script.get Script.emit
       Script.modify Script.emits Script.rerun mret script_ret Script.ret].

(** X21: a submission whose analysis fails, because the analyzer raises or
    returns [None] or an empty list, shows one error, hands nothing to the
    transport and leaves the analysis open: only the contract name is
    stored, and the upload block is shown again on the next run. *)
Theorem failed_analysis_leaves_run_open name st :
  complete st = false ->
  uploaded_file w = Some name ->
  submit_button w = true ->
  (forall r rs, analyze_contract_file wd <> AnalyzerReturns (PySome (r :: rs))) ->
  let res := upload_page notifier wd w st in
  outcome_of res = Done tt /\
  state_of res = set_contract_name name st /\
  complete (state_of res) = false /\
  transport_calls (events_of res) = [] /\
  exists msg, events_of res = [Success ("✅ Uploaded: " +:+ name); Error msg].
Proof.
  intros Hc Hu Hs Hf res. subst res.
  destruct (analyze_contract_file wd) as [e | [ | [ | r rs]]] eqn:Ha;
    [ | | | exfalso; exact (Hf r rs eq_refl)].
  all: unfold upload_page, analyze_contract, complete in *;
    cbv [mbind script_bind Script.bind Script.get]; rewrite Hc, Hu, Hs, Ha;
    cbv [negb results_truthy mbind script_bind Script.bind Script.get Script.emit
         Script.modify Script.emits Script.rerun mret script_ret Script.ret
         outcome_of state_of events_of fst snd];
    repeat split; try exact Hc; eexists; reflexivity.
Qed.

(** X22: a submission in a Full session, with the notifier enabled, hands
    one message to the transport.  When the transport takes that message, the
    upload block stores the results, marks the analysis complete, sets
    [email_sent] and reruns, with the success messages shown; the
    authentication keys are left alone. *)
Theorem delivered_notification_sets_flag name st r rs :
  enabled notifier = true ->
  kind st = Full ->
  complete st = false ->
  uploaded_file w = Some name ->
  submit_button w = true ->
  analyze_contract_file wd = AnalyzerReturns (PySome (r :: rs)) ->
  let res := upload_page notifier wd w st in
  exists m,
    transport_calls (events_of res) = [m] /\
    (yag_send wd m = None ->
       events_of res =
       [Success ("✅ Uploaded: " +:+ name);
        Success "Analysis complete!";
        SendAnalysis m;
        Success " Email notifications sent to compliance team!"] /\
       outcome_of res = Rerun /\
       analysis_results (run (state_of res)) = Some (PySome (r :: rs)) /\
       analysis_complete (run (state_of res)) = Some true /\
       contract_name (run (state_of res)) = Some name /\
       email_sent (run (state_of res)) = Some true /\
       auth (state_of res) = auth st).
Proof.
  intros He Hk Hc Hu Hs Ha res.
  assert (Hk' : kind (set_contract_name name st) = Full) by exact Hk.
  destruct (send_analysis_notification_eligible notifier (yag_send wd)
              (set_contract_name name st) (now_body wd) (now_footer wd)
              r rs name He Hk') as [m Hm].
  exists m.
  assert (Hres : res =
    (Rerun,
     set_results (PySome (r :: rs))
       (if bool_decide (yag_send wd m = None)
        then set_email_sent true (set_contract_name name st)
        else set_contract_name name st),
     [Success ("✅ Uploaded: " +:+ name);
      Success "Analysis complete!";
      SendAnalysis m;
      if bool_decide (yag_send wd m = None)
      then Success " Email notifications sent to compliance team!"
      else Warning " Analysis complete but email notifications failed to send"])).
  { subst res. run_upload Hc Hu Hs Ha. rewrite Hm.
    destruct (bool_decide (yag_send wd m = None)); reflexivity. }
  rewrite Hres. cbv [events_of outcome_of state_of fst snd].
  split; [destruct (bool_decide (yag_send wd m = None)); reflexivity | ].
  intros Hy.
  assert (Hd : bool_decide (yag_send wd m = None) = true)
    by (apply bool_decide_eq_true; exact Hy).
  rewrite Hd. split; [reflexivity | ]. repeat split.
Qed.

(** X23: a session that is not Full, or a notifier that is not enabled,
    still gets its analysis: the results are stored and the analysis marked
    complete; the warning about the notification is shown, nothing is handed
    to the transport, and [email_sent] stays what it was. *)
Theorem analysis_without_notification name st r rs :
  kind st <> Full \/ enabled notifier = false ->
  complete st = false ->
  uploaded_file w = Some name ->
  submit_button w = true ->
  analyze_contract_file wd = AnalyzerReturns (PySome (r :: rs)) ->
  let res := upload_page notifier wd w st in
  events_of res =
    [Success ("✅ Uploaded: " +:+ name);
     Success "Analysis complete!";
     Warning " Analysis complete but email notifications failed to send"] /\
  outcome_of res = Rerun /\
  analysis_results (run (state_of res)) = Some (PySome (r :: rs)) /\
  analysis_complete (run (state_of res)) = Some true /\
  email_sent (run (state_of res)) = email_sent (run st) /\
  auth (state_of res) = auth st.
Proof.
  intros Hb Hc Hu Hs Ha res.
  assert (Hm : send_analysis_notification notifier (yag_send wd)
                 (set_contract_name name st) (now_body wd) (now_footer wd)
                 (PySome (r :: rs)) name = (false, [])).
  { apply send_blocked. exact Hb. }
  assert (Hres : res =
    (Rerun, set_results (PySome (r :: rs)) (set_contract_name name st),
     [Success ("✅ Uploaded: " +:+ name);
      Success "Analysis complete!";
      Warning " Analysis complete but email notifications failed to send"])).
  { subst res. run_upload Hc Hu Hs Ha. rewrite Hm. reflexivity. }
  rewrite Hres. cbv [events_of outcome_of state_of fst snd]. repeat split.
Qed.

(** X24: "Analyze Another Contract", clicked on a complete analysis,
    clears the run: no results, no contract name, not complete, [email_sent]
    off; the session is left alone and the script reruns, so the upload block
    is shown again and a new submission can notify again. *)
Theorem analyze_another_clears_run st results :
  complete st = true ->
  analysis_results (run st) = Some (PySome results) ->
  results <> [] ->
  another_button w = true ->
  show_rewrites_button w = false \/ show_rewrites (run st) = Some true ->
  let res := results_page w st in
  outcome_of res = Rerun /\
  analysis_complete (run (state_of res)) = Some false /\
  analysis_results (run (state_of res)) = Some PyNone /\
  contract_name (run (state_of res)) = Some EmptyString /\
  email_sent (run (state_of res)) = Some false /\
  complete (state_of res) = false /\
  auth (state_of res) = auth st /\
  transport_calls (events_of res) = [].
Proof.
  intros Hc Hr Hne Hb Hs res. subst res.
  unfold results_page, create_dashboard, create_summary_insights, complete in *.
  run_script. rewrite Hc, Hr, Hb.
  destruct results as [ | r rs]; [congruence | ]. simpl.
  destruct st as [a [c res cn es sr]]. simpl in *.
  destruct (0 <? _)%nat; simpl;
    destruct (recommendation (r :: rs)); simpl;
    destruct Hs as [-> | ->]; simpl;
    try (destruct sr as [[ | ] | ]; simpl); repeat split.
Qed.

End Submission.

(** X25: clicking "Logout" in a signed-in session ends the run at once:
    the session is Unauthenticated, nothing is handed to the transport and no
    analysis is started, even with a file uploaded and the other buttons
    clicked; the keys of the run are left as they were. *)
Theorem logout_ends_the_run users notifier wd w st :
  kind st <> Unauthenticated ->
  logout_button w = true ->
  let res := main users notifier wd w st in
  outcome_of res = Rerun /\
  state_of res = logout_user (initialize_session_state st) /\
  kind (state_of res) = Unauthenticated /\
  run (state_of res) = run (initialize_session_state st) /\
  transport_calls (events_of res) = [].
Proof.
  intros Hk Hl res. subst res.
  assert (Ha : is_authenticated (initialize_session_state st) = true).
  { destruct st as [[a t e n r l] rn]. unfold kind, is_authenticated in *. simpl in *.
    destruct a as [[ | ] | ]; simpl in *; congruence. }
  unfold main, show_user_info. run_script.
  rewrite Ha. simpl. rewrite Ha, Hl. simpl.
  destruct (is_temp_session _); simpl; repeat split.
Qed.

(** ** app.py: the summary tab *)

Lemma filter_length_map {A B} (g : A -> B) (f : B -> bool) l :
  length (List.filter (fun x => f (g x)) l) = length (List.filter f (map g l)).
Proof.
  induction l as [ | x l IH]; simpl; [reflexivity | ].
  destruct (f (g x)); simpl; congruence.
Qed.

Lemma existsb_map_comp {A B} (g : A -> B) (f : B -> bool) l :
  existsb (fun x => f (g x)) l = existsb f (map g l).
Proof. induction l as [ | x l IH]; simpl; congruence. Qed.

Lemma filter_length_zero {A} (f : A -> bool) l :
  length (List.filter f l) = 0 <-> Forall (fun x => f x = false) l.
Proof.
  induction l as [ | x l IH]; simpl; [split; auto | ].
  rewrite Forall_cons. destruct (f x); simpl; [split; [discriminate | intros [? _]; discriminate] | ].
  rewrite IH. tauto.
Qed.

Lemma existsb_false {A} (f : A -> bool) l :
  existsb f l = false <-> Forall (fun x => f x = false) l.
Proof.
  induction l as [ | x l IH]; simpl; [split; auto | ].
  rewrite Forall_cons, orb_false_iff, IH. tauto.
Qed.

Lemma recommendations_nil results :
  recommendations results = [] <->
  Forall (fun r => PyStr.isin "GDPR" (regulation r) = false /\
                   PyStr.isin "liability" (PyStr.lower (key_clauses r)) = false) results.
Proof.
  unfold recommendations, gdpr_issues.
  rewrite Forall_and, <- filter_length_zero, <- existsb_false.
  destruct (length _) as [ | n]; simpl;
    destruct (existsb _ results); simpl; split;
    try discriminate; try tauto; intros [? ?]; discriminate.
Qed.

(** X26: the key points of the summary tab are read off the regulation
    tags and the key clauses alone.  The all-clear ("All clauses appear to be
    in good standing") is shown exactly when no record is tagged GDPR and none
    mentions liability, whatever the risk levels are, so also under a
    "Do NOT accept" verdict; the summary's "Liability clause is missing" point
    is shown exactly when there is a High record, whatever the clauses say. *)
Theorem key_points_ignore_risk_levels results :
  (key_points results = [Success "• All clauses appear to be in good standing."] <->
   Forall (fun r => PyStr.isin "GDPR" (regulation r) = false /\
                    PyStr.isin "liability" (PyStr.lower (key_clauses r)) = false) results) /\
  (forall results',
     map regulation results = map regulation results' ->
     map key_clauses results = map key_clauses results' ->
     key_points results = key_points results') /\
  (In "Liability clause is missing, which may increase legal risks."
      (summary_points results) <->
   exists r, In r results /\ risk_level r = "High").
Proof.
  split; [ | split].
  - rewrite <- recommendations_nil. unfold key_points.
    destruct (recommendations results) as [ | rec recs]; simpl;
      split; auto; discriminate.
  - intros results' Hr Hk. unfold key_points, recommendations, gdpr_issues.
    rewrite (filter_length_map regulation (PyStr.isin "GDPR") results),
            (filter_length_map regulation (PyStr.isin "GDPR") results'), Hr.
    rewrite (existsb_map_comp key_clauses
               (fun k => PyStr.isin "liability" (PyStr.lower k)) results),
            (existsb_map_comp key_clauses
               (fun k => PyStr.isin "liability" (PyStr.lower k)) results'), Hk.
    reflexivity.
  - unfold summary_points. rewrite !in_app_iff.
    destruct (0 <? gdpr_issues results)%nat, (0 <? hipaa_issues results)%nat;
      destruct (0 <? length (of_level "High" results))%nat eqn:E; simpl.
    all: rewrite of_level_length in E.
    all: try (apply Nat.ltb_lt in E; split;
              [intros _; clear - E;
               induction results as [ | r rs IH]; simpl in E; [lia | ];
               destruct (string_dec (risk_level r) "High") as [Eq | Ne];
               [exists r; split; [left; reflexivity | exact Eq]
               | destruct (IH E) as (r' & Hin & Hl); exists r'; split; [right; exact Hin | exact Hl]]
              | tauto]).
    all: apply Nat.ltb_ge in E; split;
         [intros H; decompose [or] H; try discriminate; contradiction
         | intros Hex; apply riskCount_pos in Hex; lia].
Qed.


(** ** Instances *)

Lemma environment_entry_overrides_witness :
  fst (authenticate_user (VALID_USERS Scenario.override) Sample.t0
         "admin@company.com" "s3cret" Sample.fresh_session)
    = (true, "Login successful!") /\
  authenticate_user (VALID_USERS Scenario.override) Sample.t0
    "admin@company.com" "admin123" Sample.fresh_session
    = ((false, "Invalid email or password"), Sample.fresh_session).
Proof.
  assert (Hu : Scenario.override !! "AUTH_USER" = Some "admin@company.com")
    by (vm_compute; reflexivity).
  assert (Hp : Scenario.override !! "AUTH_PASSWORD" = Some "s3cret")
    by (vm_compute; reflexivity).
  pose proof (environment_entry_overrides Scenario.override Sample.t0
                "admin@company.com" "s3cret" Sample.fresh_session Hu Hp
                ltac:(discriminate) ltac:(discriminate)) as (H1 & _ & _ & _ & H5).
  split; [exact H1 | apply H5; discriminate].
Defined.

Lemma login_roles_witness :
  user_role (auth Sample.full_session) = Some (PySome "Administrator").
Proof.
  assert (H : fst (authenticate_user (VALID_USERS Sample.environ) Sample.t0
                     "admin@company.com" "admin123" Sample.fresh_session)
              = (true, "Login successful!")) by (vm_compute; reflexivity).
  destruct (login_roles Sample.environ Sample.t0 "admin@company.com" "admin123"
              Sample.fresh_session H) as [(_ & _ & Hr) | [(He & _) | (He & _)]].
  - exact Hr.
  - discriminate He.
  - vm_compute in He. discriminate He.
Defined.


Lemma subject_follows_verdict_witness :
  exists m,
    snd (send_analysis_notification Sample.notifier Sample.delivers Sample.full_session
           Sample.t0 Sample.t0 (PySome Sample.results) "contract.pdf") = [m] /\
    subject m = "⚠️ Review: contract.pdf" /\
    recommendation Sample.results = Acceptable.
Proof.
  destruct (subject_follows_verdict Sample.notifier Sample.delivers Sample.t0 Sample.t0
              Sample.full_session (record "Low" "10%") [record "Medium" "55%"]
              "contract.pdf" eq_refl eq_refl) as (m & Hs & Hsub).
  exists m. split; [exact Hs | ]. split; [rewrite Hsub; reflexivity | reflexivity].
Defined.

Lemma banner_is_the_verdict_witness :
  kind Sample.full_session = Full /\
  exists rest,
    generate_analysis_summary Sample.full_session Sample.t0 Sample.t0
      (PySome [record "Low" "10%"; record "Medium" "55%"]) "contract.pdf" =
    Some (fstring summary_literals
            (status_fields
               (recommendation [record "Low" "10%"; record "Medium" "55%"]) ++ rest)).
Proof.
  assert (Hk : kind Sample.full_session = Full) by reflexivity.
  exact (conj Hk (banner_is_the_verdict Sample.t0 Sample.t0 Sample.full_session
                    (record "Low" "10%") [record "Medium" "55%"] "contract.pdf" Hk)).
Defined.

Lemma no_transport_outside_full_session_witness :
  kind Sample.guest_session = Temporary /\
  transport_calls
    (events_of (main Sample.users Sample.notifier (Sample.world_with Sample.delivers)
                  Scenario.submit_and_test Sample.guest_session)) = [].
Proof.
  split; [reflexivity | ].
  apply no_transport_outside_full_session. vm_compute. discriminate.
Defined.

Lemma signed_in_session_stays_or_logs_out_witness :
  kind (state_of (main Sample.users Sample.notifier (Sample.world_with Sample.delivers)
                    Scenario.submit_and_test Sample.guest_session))
    = kind Sample.guest_session \/
  kind (state_of (main Sample.users Sample.notifier (Sample.world_with Sample.delivers)
                    Scenario.submit_and_test Sample.guest_session))
    = Unauthenticated.
Proof.
  apply signed_in_session_stays_or_logs_out. vm_compute. discriminate.
Defined.

Lemma missing_credentials_silence_the_notifier_witness :
  transport_calls
    (snd (runs Sample.users Scenario.unconfigured
            [(Sample.world_with Sample.delivers, Scenario.submit_and_test)]
            Sample.full_session)) = [].
Proof.
  apply (missing_credentials_silence_the_notifier Sample.users ∅ true).
  left. reflexivity.
Defined.

Lemma email_sent_means_sent_witness :
  email_sent (run Sample.full_session) = Some false /\
  analysis_sends
    (snd (runs Sample.users Sample.notifier
            [(Sample.world_with Sample.delivers, Sample.submit)]
            Sample.full_session)) <> [].
Proof.
  split; [reflexivity | ].
  assert (H : email_sent (run (fst (runs Sample.users Sample.notifier
                [(Sample.world_with Sample.delivers, Sample.submit)]
                Sample.full_session))) = Some true) by (vm_compute; reflexivity).
  destruct (email_sent_means_sent Sample.users Sample.notifier _ _ H) as [H0 | H0].
  - discriminate H0.
  - exact H0.
Defined.

Lemma show_rewrites_stays_on_witness :
  show_rewrites
    (run (fst (runs Sample.users Sample.notifier
                 [(Sample.world_with Sample.delivers, Scenario.another);
                  (Sample.world_with Sample.delivers, Sample.submit)]
                 (set_show_rewrites true Scenario.analysed)))) = Some true.
Proof.
  apply show_rewrites_stays_on. reflexivity.
Defined.

Lemma failed_analysis_leaves_run_open_witness :
  complete Sample.full_session = false /\
  complete (state_of (upload_page Sample.notifier Scenario.failing_analyzer
                        Sample.submit Sample.full_session)) = false /\
  transport_calls (events_of (upload_page Sample.notifier Scenario.failing_analyzer
                                Sample.submit Sample.full_session)) = [].
Proof.
  assert (Hc : complete Sample.full_session = false) by reflexivity.
  pose proof (failed_analysis_leaves_run_open Sample.notifier Scenario.failing_analyzer
                Sample.submit "contract.pdf" Sample.full_session Hc eq_refl eq_refl
                ltac:(intros r rs; discriminate)) as (_ & _ & H3 & H4 & _).
  exact (conj Hc (conj H3 H4)).
Defined.

Lemma delivered_notification_sets_flag_witness :
  kind Sample.full_session = Full /\
  email_sent (run Sample.full_session) = Some false /\
  Scenario.refuses_reviews
    {| to := []; subject := "⚠️ Review: contract.pdf"; contents := [] |} <> None /\
  email_sent (run (state_of (upload_page Sample.notifier Scenario.low_risk
                               Sample.submit Sample.full_session))) = Some true.
Proof.
  assert (Hk : kind Sample.full_session = Full) by reflexivity.
  split; [exact Hk | ]. split; [reflexivity | ]. split; [vm_compute; discriminate | ].
  destruct (delivered_notification_sets_flag Sample.notifier Scenario.low_risk
              Sample.submit "contract.pdf" Sample.full_session
              (record "Low" "5%") [] eq_refl Hk eq_refl eq_refl eq_refl eq_refl)
    as (m & Hm & H).
  assert (Hy : yag_send Scenario.low_risk m = None).
  { vm_compute in Hm. injection Hm as <-. vm_compute. reflexivity. }
  destruct (H Hy) as (_ & _ & _ & _ & _ & He & _).
  exact He.
Defined.

Lemma analysis_without_notification_witness :
  kind Sample.guest_session = Temporary /\
  analysis_complete
    (run (state_of (upload_page Sample.notifier (Sample.world_with Sample.delivers)
                      Sample.submit Sample.guest_session))) = Some true /\
  email_sent
    (run (state_of (upload_page Sample.notifier (Sample.world_with Sample.delivers)
                      Sample.submit Sample.guest_session))) = Some false.
Proof.
  assert (Hk : kind Sample.guest_session <> Full) by (vm_compute; discriminate).
  pose proof (analysis_without_notification Sample.notifier
                (Sample.world_with Sample.delivers) Sample.submit "contract.pdf"
                Sample.guest_session (record "Low" "10%") [record "Medium" "55%"]
                (or_introl Hk) eq_refl eq_refl eq_refl eq_refl)
    as (_ & _ & _ & Hc & He & _).
  split; [reflexivity | ]. split; [exact Hc | rewrite He; reflexivity].
Defined.

Lemma analyze_another_clears_run_witness :
  complete Scenario.analysed = true /\
  email_sent (run Scenario.analysed) = Some true /\
  email_sent (run (state_of (results_page Scenario.another Scenario.analysed)))
    = Some false /\
  complete (state_of (results_page Scenario.another Scenario.analysed)) = false.
Proof.
  assert (Hc : complete Scenario.analysed = true) by (vm_compute; reflexivity).
  assert (He : email_sent (run Scenario.analysed) = Some true) by (vm_compute; reflexivity).
  assert (Hr : analysis_results (run Scenario.analysed) = Some (PySome Sample.results))
    by (vm_compute; reflexivity).
  pose proof (analyze_another_clears_run Scenario.another Scenario.analysed
                Sample.results Hc Hr ltac:(discriminate) eq_refl (or_introl eq_refl))
    as (_ & _ & _ & _ & H5 & H6 & _).
  exact (conj Hc (conj He (conj H5 H6))).
Defined.

Lemma logout_ends_the_run_witness :
  kind Scenario.analysed = Full /\
  kind (state_of (main Sample.users Sample.notifier (Sample.world_with Sample.delivers)
                    Scenario.logout Scenario.analysed)) = Unauthenticated /\
  transport_calls
    (events_of (main Sample.users Sample.notifier (Sample.world_with Sample.delivers)
                  Scenario.logout Scenario.analysed)) = [].
Proof.
  assert (Hk : kind Scenario.analysed = Full) by (vm_compute; reflexivity).
  pose proof (logout_ends_the_run Sample.users Sample.notifier
                (Sample.world_with Sample.delivers) Scenario.logout Scenario.analysed
                ltac:(rewrite Hk; discriminate) eq_refl) as (_ & _ & H3 & _ & H5).
  exact (conj Hk (conj H3 H5)).
Defined.
